(** * The VIP-export scripts: unpivot, and the two account-id joins

    A shallow embedding of
    - [add_account_ids.py]   ([merge_true_supabase_ids_with_depletions]),
    - [merge_account_ids.py] ([merge_account_ids_with_depletions]),
    - [process_vip_export.py] ([process_vip_export]),
    and the properties of the reconciliation join stated in the
    specification.

    The scripts read CSV files into pandas frames, reshape them and write a
    CSV file.  File contents are the inputs of the model (a frame, or no
    frame when the file does not exist); printing is left out. *)

From Stdlib Require Import ZArith QArith Qcanon String Ascii List Lia.
From stdpp Require Import base option list gmap strings countable numbers pretty.

Open Scope string_scope.
Open Scope list_scope.

(** ** Scalars held in a frame *)

(** A Python [float], by the value it denotes: not-a-number, an infinity or
    a finite rational.  Rounding is the business of the conversions that
    produce a float ([PyRuntime] below); the scripts themselves only test a
    float for [pd.isna] and [<= 0]. *)
Inductive pyfloat :=
| FNaN
| FInf (neg : bool)
| FFin (q : Qc).

(** One cell of a frame as [pd.read_csv] leaves it: a [str], an integer, or a
    float; a missing value is the float NaN. *)
Inductive cell :=
| CStr (s : string)
| CInt (z : Z)
| CFloat (x : pyfloat).

Definition NaN : cell := CFloat FNaN.

Global Instance pyfloat_eq_dec : EqDecision pyfloat.
Proof. solve_decision. Defined.

Global Instance cell_eq_dec : EqDecision cell.
Proof. solve_decision. Defined.

Global Instance pyfloat_countable : Countable pyfloat.
Proof.
  refine (inj_countable'
    (fun f => match f with
              | FNaN => inl ()
              | FInf b => inr (inl b)
              | FFin q => inr (inr q)
              end)
    (fun s => match s with
              | inl _ => FNaN
              | inr (inl b) => FInf b
              | inr (inr q) => FFin q
              end) _).
  by intros [].
Defined.

Global Instance cell_countable : Countable cell.
Proof.
  refine (inj_countable'
    (fun c => match c with
              | CStr s => inl s
              | CInt z => inr (inl z)
              | CFloat x => inr (inr x)
              end)
    (fun s => match s with
              | inl s => CStr s
              | inr (inl z) => CInt z
              | inr (inr x) => CFloat x
              end) _).
  by intros [].
Defined.

(** [pd.isna(x)] on a float. *)
Definition float_isna (x : pyfloat) : bool :=
  match x with FNaN => true | _ => false end.

(** [x <= 0] on a float: false on NaN. *)
Definition float_le0 (x : pyfloat) : bool :=
  match x with
  | FNaN => false
  | FInf neg => neg
  | FFin q => bool_decide (q ≤ 0)%Qc
  end.

(** A float that is a number and lies strictly above zero. *)
Definition strictly_positive (x : pyfloat) : Prop :=
  match x with
  | FNaN => False
  | FInf neg => neg = false
  | FFin q => (0 < q)%Qc
  end.

(** ** The Python and pandas primitives the scripts call *)

Class PyRuntime := {
  (** [str.lower()] *)
  str_lower : string → string;
  (** [str.strip()] *)
  str_strip : string → string;
  (** [float(s)] on a [str]; [None] when it raises [ValueError] *)
  float_of_str : string → option pyfloat;
  (** [float(n)] on an integer *)
  float_of_int : Z → pyfloat;
  (** [str(x)] on a float *)
  str_of_float : pyfloat → string;
}.

(** ** Results of running a script *)

(** The [CRITICAL ERROR] exits of [merge_true_supabase_ids_with_depletions]:
    the message is printed and the function returns. *)
Inductive critical :=
| AccountsFileNotFound
| IdColumnMissing
| StdAccountNameColumnMissing
| DepletionsFileNotFound
| LookupColumnMissing.

(** Exceptions that leave a script uncaught. *)
Inductive exn :=
| KeyError (key : string)
| FileNotFoundError
| ValueError
| OverflowError.

Inductive run (A : Type) :=
| Ok (a : A)
| Stop (c : critical)
| Raise (e : exn).
Arguments Ok {A} a.
Arguments Stop {A} c.
Arguments Raise {A} e.

Global Instance run_ret : MRet run := @Ok.
Global Instance run_bind : MBind run := fun A B f m =>
  match m with
  | Ok a => f a
  | Stop c => Stop c
  | Raise e => Raise e
  end.

(** ** Frames *)

(** A row, as [iterrows] yields it: a Series indexed by column name. *)
Definition getitem (row : gmap string cell) (col : string) : run cell :=
  match row !! col with
  | Some c => Ok c
  | None => Raise (KeyError col)
  end.

Record DataFrame := {
  columns : list string;
  rows : list (gmap string cell);
}.

(** Every row of a frame has a cell in each column of the frame, and only
    there. *)
Definition row_wf (cols : list string) (row : gmap string cell) : bool :=
  bool_decide (dom row = list_to_set cols).

Definition df_wf (df : DataFrame) : bool :=
  forallb (row_wf (columns df)) (rows df).

(** [col in df.columns] *)
Definition has_column (df : DataFrame) (col : string) : bool :=
  bool_decide (col ∈ columns df).

(** [df[col]] *)
Definition df_col (df : DataFrame) (col : string) : run (list cell) :=
  if has_column df col
  then mapM (fun row => getitem row col) (rows df)
  else Raise (KeyError col).

(** [df[col] = values], [values] as long as the frame. *)
Definition df_set_col (df : DataFrame) (col : string) (values : list cell)
  : DataFrame :=
  {| columns := if has_column df col then columns df else columns df ++ [col];
     rows := zip_with (fun row v => <[col := v]> row) (rows df) values |}.

(** [dict(zip(keys, values))]: later pairs overwrite earlier ones. *)
Definition dict_zip (keys values : list cell) : gmap cell cell :=
  foldl (fun d kv => <[kv.1 := kv.2]> d) ∅ (zip keys values).

(** *** Dict keys

    A [dict] tells its keys apart by [==] and [hash], not by type: the
    integer 7 and the float 7.0 are one key, and a [str] is no number.  NaN
    equals nothing, itself included, so a NaN key is found again only with
    the very object that was stored.  [pd.read_csv] holds every missing
    value of an [object] column (a column with a [str] in it) as the one
    object [np.nan]; the cells of a [float64] column come as a new float
    object each time they are read, by [zip] as by [iterrows]. *)
Inductive pykey :=
| KStr (s : string)
| KNum (q : Qc)
| KInf (neg : bool)
| KNaN.

Global Instance pykey_eq_dec : EqDecision pykey.
Proof. solve_decision. Defined.

Global Instance pykey_countable : Countable pykey.
Proof.
  refine (inj_countable'
    (fun k => match k with
              | KStr s => inl s
              | KNum q => inr (inl q)
              | KInf b => inr (inr (Some b))
              | KNaN => inr (inr None)
              end)
    (fun s => match s with
              | inl s => KStr s
              | inr (inl q) => KNum q
              | inr (inr (Some b)) => KInf b
              | inr (inr None) => KNaN
              end) _).
  by intros [].
Defined.

(** The dtype of [df[col]] is [object]: some cell of the column is a
    [str]. *)
Definition object_dtype (df : DataFrame) (col : string) : bool :=
  existsb (fun row => match row !! col with
                      | Some (CStr _) => true
                      | _ => false
                      end) (rows df).

(** The key a cell is in a dict, read from a column of [object] dtype or
    not; [None] for a NaN that is an object of its own, which no lookup
    finds and which finds nothing. *)
Definition dict_key (object : bool) (c : cell) : option pykey :=
  match c with
  | CStr s => Some (KStr s)
  | CInt z => Some (KNum (Q2Qc (inject_Z z)))
  | CFloat (FFin q) => Some (KNum q)
  | CFloat (FInf neg) => Some (KInf neg)
  | CFloat FNaN => if object then Some KNaN else None
  end.

(** [dict(zip(keys, values))] as the lookups see it: later pairs overwrite
    earlier ones with the same key. *)
Definition dict_zip_keys (keys : list (option pykey)) (values : list cell)
  : gmap pykey cell :=
  foldl (fun d kv => match kv.1 with
                     | Some k => <[k := kv.2]> d
                     | None => d
                     end) ∅ (zip keys values).

(** [d.get(key)] *)
Definition dict_get (d : gmap pykey cell) (key : option pykey) : option cell :=
  match key with
  | Some k => d !! k
  | None => None
  end.

Section Scripts.
Context `{PyRuntime}.

(** [str(x)] on a cell, which is what [astype(str)] applies to each one. *)
Definition astype_str (c : cell) : string :=
  match c with
  | CStr s => s
  | CInt z => pretty z
  | CFloat x => str_of_float x
  end.

(** [.astype(str).str.lower().str.strip()] on one cell. *)
Definition normalize (c : cell) : cell :=
  CStr (str_strip (str_lower (astype_str c))).

(** [float(x)] on a cell; [None] when it raises [ValueError]. *)
Definition py_float (c : cell) : option pyfloat :=
  match c with
  | CStr s => float_of_str s
  | CInt z => Some (float_of_int z)
  | CFloat x => Some x
  end.

(** *** [add_account_ids.py] *)

(** The dict appended to [matched_depletions_data]. *)
Record matched_row := {
  account_id : cell;
  order_date : cell;
  cases : cell;
  sku : cell;
}.

(** The three accumulators of the matching loop. *)
Record loop_state := {
  matched_depletions_data : list matched_row;
  unmatched_account_names : gset cell;
  skipped_due_to_invalid_cases : nat;
}.

Definition loop_init : loop_state :=
  {| matched_depletions_data := [];
     unmatched_account_names := ∅;
     skipped_due_to_invalid_cases := 0 |}.

(** The body of [for _, row in depletions_df.iterrows()], lines 71 to 97.
    A [KeyError] of [row[...]] is not caught by
    [except (ValueError, TypeError)] and leaves the loop. *)
Definition loop_body (account_id_map : gmap cell cell)
    (st : loop_state) (row : gmap string cell) : run loop_state :=
  normalized_lookup_name ← getitem row "match_col_depletions";
  match account_id_map !! normalized_lookup_name with
  | None =>
      name ← getitem row "std_account_name_for_lookup";
      Ok {| matched_depletions_data := matched_depletions_data st;
            unmatched_account_names := unmatched_account_names st ∪ {[name]};
            skipped_due_to_invalid_cases := skipped_due_to_invalid_cases st |}
  | Some account_id_from_map =>
      raw ← getitem row "cases";
      match py_float raw with
      | None =>
          Ok {| matched_depletions_data := matched_depletions_data st;
                unmatched_account_names := unmatched_account_names st;
                skipped_due_to_invalid_cases :=
                  skipped_due_to_invalid_cases st + 1 |}
      | Some cases =>
          if float_isna cases || float_le0 cases then
            Ok {| matched_depletions_data := matched_depletions_data st;
                  unmatched_account_names := unmatched_account_names st;
                  skipped_due_to_invalid_cases :=
                    skipped_due_to_invalid_cases st + 1 |}
          else
            date ← getitem row "order_date";
            sku ← getitem row "sku";
            Ok {| matched_depletions_data :=
                    matched_depletions_data st ++
                      [ {| account_id := account_id_from_map;
                           order_date := date;
                           cases := CFloat cases;
                           sku := sku |} ];
                  unmatched_account_names := unmatched_account_names st;
                  skipped_due_to_invalid_cases :=
                    skipped_due_to_invalid_cases st |}
      end
  end.

Fixpoint iterrows_loop (account_id_map : gmap cell cell)
    (st : loop_state) (rows : list (gmap string cell)) : run loop_state :=
  match rows with
  | [] => Ok st
  | row :: rest =>
      st' ← loop_body account_id_map st row;
      iterrows_loop account_id_map st' rest
  end.

(** Step 3 (lines 55 and 56), one frame: add the column of normalized
    names. *)
Definition add_match_col (df : DataFrame) (src dst : string) : run DataFrame :=
  names ← df_col df src;
  Ok (df_set_col df dst (normalize <$> names)).

(** Step 4 (line 62). *)
Definition build_account_id_map (accounts_df : DataFrame)
  : run (gmap cell cell) :=
  keys ← df_col accounts_df "match_col_accounts";
  ids ← df_col accounts_df "id";
  Ok (dict_zip keys ids).

(** Steps 1 to 5 of [merge_true_supabase_ids_with_depletions] (lines 11 to
    97): the two reads with their column checks, the normalized columns, the
    lookup map and the matching loop.  The result is the state of the three
    accumulators when the loop ends. *)
Definition reconcile (accounts_file depletions_file : option DataFrame)
  : run loop_state :=
  match accounts_file with
  | None => Stop AccountsFileNotFound
  | Some accounts_df =>
      if negb (has_column accounts_df "id") then Stop IdColumnMissing
      else if negb (has_column accounts_df "std_account_name")
      then Stop StdAccountNameColumnMissing
      else
        match depletions_file with
        | None => Stop DepletionsFileNotFound
        | Some depletions_df =>
            if negb (has_column depletions_df "std_account_name_for_lookup")
            then Stop LookupColumnMissing
            else
              accounts_df ← add_match_col accounts_df
                               "std_account_name" "match_col_accounts";
              depletions_df ← add_match_col depletions_df
                               "std_account_name_for_lookup"
                               "match_col_depletions";
              account_id_map ← build_account_id_map accounts_df;
              iterrows_loop account_id_map loop_init (rows depletions_df)
        end
  end.

(** Steps 6 and 7 (lines 99 to 117): nothing is written when no depletion
    matched; otherwise the columns are brought to the types of the import.  The argument
    [to_datetime_strftime] is
    [pd.to_datetime(col).dt.strftime('%Y-%m-%d')] on a whole column, [None]
    when it raises; the cases are floats already. *)
Definition ensure_types
    (to_datetime_strftime : list cell → option (list cell))
    (data : list matched_row) : list matched_row :=
  let dates :=
    match to_datetime_strftime (order_date <$> data) with
    | Some formatted => formatted
    | None => order_date <$> data
    end in
  zip_with
    (fun r d => {| account_id := CStr (astype_str (account_id r));
                   order_date := d;
                   cases := cases r;
                   sku := CStr (astype_str (sku r)) |})
    data dates.

(** The whole script: the frame saved to [depletions_final_for_import.csv],
    if one is saved. *)
Definition merge_true_supabase_ids_with_depletions
    (to_datetime_strftime : list cell → option (list cell))
    (accounts_file depletions_file : option DataFrame)
  : run (option (list matched_row)) :=
  st ← reconcile accounts_file depletions_file;
  match matched_depletions_data st with
  | [] => Ok None
  | _ => Ok (Some (ensure_types to_datetime_strftime
                     (matched_depletions_data st)))
  end.

(** *** The files of a run

    The files a script finds and leaves are a map from file names to
    frames.  A file stands for the frame [pd.read_csv] makes of it when it
    is read, and for the frame [to_csv] was given when it is written. *)

Definition accounts_file_name : string := "accounts_with_supabase_ids.csv".
Definition depletions_file_name : string := "depletions_to_import.csv".
Definition output_file_name : string := "depletions_final_for_import.csv".

(** [pd.DataFrame(matched_depletions_data)] *)
Definition frame_of_records (data : list matched_row) : DataFrame :=
  {| columns := ["account_id"; "order_date"; "cases"; "sku"];
     rows := (fun r => {[ "account_id" := account_id r;
                          "order_date" := order_date r;
                          "cases" := cases r;
                          "sku" := sku r ]}) <$> data |}.

(** One run of the script on the files it finds: the accumulators of the
    loop, or the failure, and the files it leaves.  Step 8 (lines 123 to
    146) writes the typed frame; [writable] is whether [to_csv] succeeds,
    its failure being caught and printed. *)
Definition merge_true_supabase_ids_run
    (to_datetime_strftime : list cell → option (list cell))
    (writable : bool) (fs : gmap string DataFrame)
  : run loop_state * gmap string DataFrame :=
  let result :=
    reconcile (fs !! accounts_file_name) (fs !! depletions_file_name) in
  match result with
  | Ok st =>
      match matched_depletions_data st with
      | [] => (result, fs)
      | data =>
          if writable then
            (result,
             <[output_file_name :=
                 frame_of_records (ensure_types to_datetime_strftime data)]>
               fs)
          else (result, fs)
      end
  | _ => (result, fs)
  end.

(** *** [merge_account_ids.py] *)

(** [pd.read_csv(file)] *)
Definition read_csv (file : option DataFrame) : run DataFrame :=
  match file with
  | Some df => Ok df
  | None => Raise FileNotFoundError
  end.

(** The body of the loop of [merge_account_ids_with_depletions] (lines 35 to
    49), on the pair of [matched_depletions] and [skipped_count].  The keys
    of the map are the names as read, told apart as a dict tells them;
    [object] is whether the column of lookup names has [object] dtype. *)
Definition merge_body (object : bool) (account_id_map : gmap pykey cell)
    (st : list matched_row * nat) (row : gmap string cell)
  : run (list matched_row * nat) :=
  account_name ← getitem row "std_account_name_for_lookup";
  match dict_get account_id_map (dict_key object account_name) with
  | None => Ok (st.1, st.2 + 1)
  | Some account_id =>
      date ← getitem row "order_date";
      cases ← getitem row "cases";
      sku ← getitem row "sku";
      Ok ((st.1 ++ [ {| account_id := account_id;
                        order_date := date;
                        cases := cases;
                        sku := sku |} ])%list, st.2)
  end.

Fixpoint merge_loop (object : bool) (account_id_map : gmap pykey cell)
    (st : list matched_row * nat) (rows : list (gmap string cell))
  : run (list matched_row * nat) :=
  match rows with
  | [] => Ok st
  | row :: rest =>
      st' ← merge_body object account_id_map st row;
      merge_loop object account_id_map st' rest
  end.

(** [uuid4 k] is the token the [k]-th call of [uuid.uuid4()] returns.  The
    result is the list saved to [depletions_final_for_import.csv] and the
    count of skipped rows. *)
Definition merge_account_ids_with_depletions (uuid4 : nat → string)
    (accounts_file depletions_file : option DataFrame)
  : run (list matched_row * nat) :=
  accounts_df ← read_csv accounts_file;
  let accounts_df :=
    if negb (has_column accounts_df "id")
    then df_set_col accounts_df "id"
           ((fun k => CStr (uuid4 k)) <$> seq 0 (length (rows accounts_df)))
    else accounts_df in
  depletions_df ← read_csv depletions_file;
  keys ← df_col accounts_df "std_account_name";
  ids ← df_col accounts_df "id";
  merge_loop (object_dtype depletions_df "std_account_name_for_lookup")
    (dict_zip_keys
       (dict_key (object_dtype accounts_df "std_account_name") <$> keys) ids)
    ([], 0) (rows depletions_df).

End Scripts.

(** ** Dates, as Python's [datetime] computes them *)

Module Datetime.

Record date := { year : Z; month : Z; day : Z }.

Definition MAXORDINAL : Z := 3652059.

Definition is_leap (y : Z) : bool :=
  (y mod 4 =? 0)%Z && (negb (y mod 100 =? 0)%Z || (y mod 400 =? 0)%Z).

Definition DAYS_IN_MONTH (m : Z) : Z :=
  match m with
  | 1 => 31 | 2 => 28 | 3 => 31 | 4 => 30 | 5 => 31 | 6 => 30
  | 7 => 31 | 8 => 31 | 9 => 30 | 10 => 31 | 11 => 30 | 12 => 31
  | _ => -1
  end%Z.

Definition DAYS_BEFORE_MONTH (m : Z) : Z :=
  match m with
  | 1 => 0 | 2 => 31 | 3 => 59 | 4 => 90 | 5 => 120 | 6 => 151
  | 7 => 181 | 8 => 212 | 9 => 243 | 10 => 273 | 11 => 304 | 12 => 334
  | _ => -1
  end%Z.

Definition days_before_year (y : Z) : Z :=
  let y := (y - 1)%Z in (y * 365 + y / 4 - y / 100 + y / 400)%Z.

Definition days_in_month (y m : Z) : Z :=
  if (m =? 2)%Z && is_leap y then 29%Z else DAYS_IN_MONTH m.

Definition days_before_month (y m : Z) : Z :=
  (DAYS_BEFORE_MONTH m + if (2 <? m)%Z && is_leap y then 1 else 0)%Z.

Definition ymd2ord (d : date) : Z :=
  (days_before_year (year d) + days_before_month (year d) (month d) + day d)%Z.

Definition ord2ymd (n : Z) : date :=
  let n := (n - 1)%Z in
  let n400 := (n / 146097)%Z in
  let n := (n mod 146097)%Z in
  let y := (n400 * 400 + 1)%Z in
  let n100 := (n / 36524)%Z in
  let n := (n mod 36524)%Z in
  let n4 := (n / 1461)%Z in
  let n := (n mod 1461)%Z in
  let n1 := (n / 365)%Z in
  let n := (n mod 365)%Z in
  let y := (y + n100 * 100 + n4 * 4 + n1)%Z in
  if (n1 =? 4)%Z || (n100 =? 4)%Z then
    {| year := y - 1; month := 12; day := 31 |}
  else
    let leapyear := (n1 =? 3)%Z && (negb (n4 =? 24)%Z || (n100 =? 3)%Z) in
    let m := Z.shiftr (n + 50) 5 in
    let preceding :=
      (DAYS_BEFORE_MONTH m + if (2 <? m)%Z && leapyear then 1 else 0)%Z in
    if (n <? preceding)%Z then
      let m := (m - 1)%Z in
      let preceding :=
        (preceding -
           (DAYS_IN_MONTH m + if (m =? 2)%Z && leapyear then 1 else 0))%Z in
      {| year := y; month := m; day := n - preceding + 1 |}
    else
      {| year := y; month := m; day := n - preceding + 1 |}.

(** [d + timedelta(days=n)]; [None] is [OverflowError]. *)
Definition add_days (d : date) (n : Z) : option date :=
  let o := (ymd2ord d + n)%Z in
  if (0 <? o)%Z && (o <=? MAXORDINAL)%Z then Some (ord2ymd o) else None.

(** A [str] is held as its UTF-8 bytes. *)
Definition byte (c : ascii) : Z := Z.of_N (N_of_ascii c).

(** A continuation byte of UTF-8, by the six bits it carries. *)
Definition continuation (c : ascii) : option Z :=
  let n := byte c in
  if (128 <=? n)%Z && (n <=? 191)%Z then Some (n - 128)%Z else None.

(** The first character of a [str], as its code point, and the rest. *)
Definition code_point (s : string) : option (Z * string) :=
  match s with
  | EmptyString => None
  | String a rest =>
      let n := byte a in
      if (n <? 128)%Z then Some (n, rest)
      else if (194 <=? n)%Z && (n <=? 223)%Z then
        match rest with
        | String b rest =>
            x ← continuation b;
            Some ((n - 192) * 64 + x, rest)%Z
        | _ => None
        end
      else if (224 <=? n)%Z && (n <=? 239)%Z then
        match rest with
        | String b (String c rest) =>
            x ← continuation b;
            y ← continuation c;
            let cp := ((n - 224) * 4096 + x * 64 + y)%Z in
            if (2048 <=? cp)%Z then Some (cp, rest) else None
        | _ => None
        end
      else if (240 <=? n)%Z && (n <=? 244)%Z then
        match rest with
        | String b (String c (String d rest)) =>
            x ← continuation b;
            y ← continuation c;
            z ← continuation d;
            let cp := ((n - 240) * 262144 + x * 4096 + y * 64 + z)%Z in
            if (65536 <=? cp)%Z && (cp <=? 1114111)%Z then Some (cp, rest)
            else None
        | _ => None
        end
      else None
  end.

(** The code points of the digits zero of Unicode 14.0, the character
    database of CPython 3.11: the decimal digits of a script are the ten
    code points from its zero on. *)
Definition DECIMAL_ZEROS : list Z :=
  [ 48; 1632; 1776; 1984; 2406; 2534; 2662; 2790; 2918; 3046; 3174; 3302;
    3430; 3558; 3664; 3792; 3872; 4160; 4240; 6112; 6160; 6470; 6608; 6784;
    6800; 6992; 7088; 7232; 7248; 42528; 43216; 43264; 43472; 43504; 43600;
    44016; 65296; 66720; 68912; 69734; 69872; 69942; 70096; 70384; 70736;
    70864; 71248; 71360; 71472; 71904; 72016; 72784; 73040; 73120; 92768;
    92864; 93008; 120782; 120792; 120802; 120812; 120822; 123200; 123632;
    125264; 130032 ]%Z.

(** The value of a decimal digit, which is what [int] reads it as. *)
Definition decimal_value (cp : Z) : option Z :=
  (fun zero => cp - zero)%Z <$>
    find (fun zero => (zero <=? cp)%Z && (cp <=? zero + 9)%Z) DECIMAL_ZEROS.

(** [\d] of a [str] pattern: one decimal digit of any script. *)
Definition decimal (s : string) : option (Z * string) :=
  '(cp, rest) ← code_point s;
  v ← decimal_value cp;
  Some (v, rest).

(** One of the characters [0] to [9]. *)
Definition digit (c : ascii) : option Z :=
  let n := Z.of_N (N_of_ascii c) in
  if (48 <=? n)%Z && (n <=? 57)%Z then Some (n - 48)%Z else None.

(** A character class [[lo-hi]] of digits. *)
Definition in_range (lo hi : Z) (c : ascii) : option Z :=
  match digit c with
  | Some v => if (lo <=? v)%Z && (v <=? hi)%Z then Some v else None
  | None => None
  end.

(** [%Y]: [\d\d\d\d]. *)
Definition parse_Y (s : string) : option (Z * string) :=
  '(a, s) ← decimal s;
  '(b, s) ← decimal s;
  '(c, s) ← decimal s;
  '(d, s) ← decimal s;
  Some (a * 1000 + b * 100 + c * 10 + d, s)%Z.

(** [%m]: [1[0-2]|0[1-9]|[1-9]]. *)
Definition parse_m (s : string) : option (Z * string) :=
  let one :=
    match s with
    | String a rest =>
        match in_range 1 9 a with Some v => Some (v, rest) | None => None end
    | EmptyString => None
    end in
  match s with
  | String a (String b rest) =>
      match in_range 1 1 a, in_range 0 2 b, in_range 0 0 a, in_range 1 9 b with
      | Some _, Some v, _, _ => Some (10 + v, rest)%Z
      | _, _, Some _, Some v => Some (v, rest)
      | _, _, _, _ => one
      end
  | _ => one
  end.

(** [%d]: [3[0-1]|[1-2]\d|0[1-9]|[1-9]| [1-9]]. *)
Definition parse_d (s : string) : option (Z * string) :=
  let one :=
    match s with
    | String a rest =>
        match in_range 1 9 a with
        | Some v => Some (v, rest)
        | None =>
            match rest with
            | String b rest' =>
                if Ascii.eqb a " "%char then
                  match in_range 1 9 b with
                  | Some v => Some (v, rest')
                  | None => None
                  end
                else None
            | EmptyString => None
            end
        end
    | EmptyString => None
    end in
  match s with
  | String a (String b rest as tail) =>
      match in_range 3 3 a, in_range 0 1 b with
      | Some _, Some v => Some (30 + v, rest)%Z
      | _, _ =>
          match in_range 1 2 a, decimal tail with
          | Some u, Some (v, rest') => Some (u * 10 + v, rest')%Z
          | _, _ =>
              match in_range 0 0 a, in_range 1 9 b with
              | Some _, Some v => Some (v, rest)
              | _, _ => one
              end
          end
      end
  | _ => one
  end.

Definition expect_dash (s : string) : option string :=
  match s with
  | String c rest => if Ascii.eqb c "-"%char then Some rest else None
  | EmptyString => None
  end.

(** [datetime.strptime(s, '%Y-%m-%d')]; [None] is [ValueError]. *)
Definition strptime (s : string) : option date :=
  '(y, s) ← parse_Y s;
  s ← expect_dash s;
  '(m, s) ← parse_m s;
  s ← expect_dash s;
  '(d, s) ← parse_d s;
  if bool_decide (s = EmptyString) && (1 <=? y)%Z && (d <=? days_in_month y m)%Z
  then Some {| year := y; month := m; day := d |}
  else None.

(** The decimal digits of [z], at least [width] of them. *)
Definition zero_pad (width : nat) (z : Z) : string :=
  let digits := pretty z in
  String.concat "" (replicate (width - String.length digits) "0") +:+ digits.

(** [d.strftime('%Y-%m-%d')]; the year is written with four digits. *)
Definition strftime (d : date) : string :=
  zero_pad 4 (year d) +:+ "-" +:+ zero_pad 2 (month d) +:+ "-" +:+
  zero_pad 2 (day d).

End Datetime.

(** ** [process_vip_export.py] *)

Module Unpivot.
Import Datetime.

(** The columns selected for the accounts file, with their new names. *)
Definition account_columns : list (string * string) :=
  [ ("Retail Accounts", "std_account_name");
    ("Classes of Trade", "class_of_trade");
    ("OnOff Premises", "on_off_premise");
    ("Address", "address");
    ("City", "city");
    ("State", "state");
    ("Zip Code", "zip_code") ].

(** [df[[...]]] raises [KeyError] when a selected column is absent. *)
Fixpoint check_columns (df : DataFrame) (cols : list string) : run unit :=
  match cols with
  | [] => Ok ()
  | col :: rest =>
      if has_column df col then check_columns df rest
      else Raise (KeyError col)
  end.

(** One row of [df[[...]]] with the columns renamed. *)
Definition project (cols : list (string * string)) (row : gmap string cell)
  : run (gmap string cell) :=
  pairs ← mapM (fun p => c ← getitem row p.1; Ok (p.2, c)) cols;
  Ok (list_to_map pairs).

(** [drop_duplicates()]: the first of equal rows stays. *)
Definition drop_duplicates (l : list (gmap string cell))
  : list (gmap string cell) :=
  foldl (fun acc row => if bool_decide (row ∈ acc) then acc
                        else (acc ++ [row])%list) [] l.

(** [month_df['cases'].notna() & (month_df['cases'] != 0)] on one cell. *)
Definition keep_cases (c : cell) : bool :=
  match c with
  | CStr _ => true
  | CInt z => negb (z =? 0)%Z
  | CFloat FNaN => false
  | CFloat (FInf _) => true
  | CFloat (FFin q) => negb (bool_decide (q = 0%Qc))
  end.

(** The rows of [month_df] for one month column, after the filter. *)
Definition month_df (df : DataFrame) (month_col order_date : string)
  : run (list (gmap string cell)) :=
  month_rows ← mapM (fun row =>
      name ← getitem row "Retail Accounts";
      c ← getitem row month_col;
      Ok (c, <["sku" := CStr "DEFAULT_SKU"]>
               (<["order_date" := CStr order_date]>
                  (<["cases" := c]>
                     {["std_account_name_for_lookup" := name]}))))
    (rows df);
  Ok ((filter (fun p => keep_cases p.1 = true) month_rows).*2).

(** [for i, month_col in enumerate(month_columns)], from index [i] on. *)
Fixpoint month_loop (df : DataFrame) (start_date : date) (i : nat)
    (month_columns : list string)
    (depletions_data : list (list (gmap string cell)))
  : run (list (list (gmap string cell))) :=
  match month_columns with
  | [] => Ok depletions_data
  | month_col :: rest =>
      if negb (has_column df month_col)
      then month_loop df start_date (S i) rest depletions_data
      else
        current_date ←
          match add_days start_date (30 * Z.of_nat i) with
          | Some d => Ok d
          | None => Raise OverflowError
          end;
        let order_date := strftime current_date in
        frame ← month_df df month_col order_date;
        month_loop df start_date (S i) rest (depletions_data ++ [frame])
  end.

(** The two frames the script saves, [accounts_to_import.csv] and
    [depletions_to_import.csv], from the frame read from the export.  (The
    script has written the first file when a later step raises.) *)
Definition process_vip_export (df : DataFrame) (start_date_str : string)
    (month_columns : list string) : run (DataFrame * DataFrame) :=
  _ ← check_columns df account_columns.*1;
  accounts_rows ← mapM (project account_columns) (rows df);
  let accounts_df := {| columns := account_columns.*2;
                        rows := drop_duplicates accounts_rows |} in
  start_date ←
    match strptime start_date_str with
    | Some d => Ok d
    | None => Raise ValueError
    end;
  depletions_data ← month_loop df start_date 0 month_columns [];
  match depletions_data with
  | [] => Raise ValueError
  | _ =>
      Ok (accounts_df,
          {| columns := ["std_account_name_for_lookup"; "cases";
                         "order_date"; "sku"];
             rows := concat depletions_data |})
  end.

(** The month columns found in the frame, each with its index in
    [month_columns], counted from [i]. *)
Definition month_indices_from (df : DataFrame) (i : nat)
    (month_columns : list string) : list (nat * string) :=
  filter (fun ic => has_column df ic.2 = true)
    (zip (seq i (length month_columns)) month_columns).

End Unpivot.

(** ** An instance of the primitives on ASCII text

    Used to run the scripts on sample frames.  [lower] and [strip] are
    Python's on ASCII text.  [float_literal] reads the decimal spellings
    [sign digits . digits] and gives the value written; the other spellings
    [float()] accepts (exponents, [inf], [nan], underscores) are not read.
    [float_str] prints whole numbers.  On the small whole numbers of the
    sample frames these are Python's results. *)

Module Sample.

Definition ascii_lower (c : ascii) : ascii :=
  let n := N_of_ascii c in
  if (65 <=? n)%N && (n <=? 90)%N then ascii_of_N (n + 32) else c.

Definition lower (s : string) : string :=
  string_of_list_ascii (ascii_lower <$> list_ascii_of_string s).

Definition is_space (c : ascii) : bool :=
  let n := N_of_ascii c in
  ((9 <=? n)%N && (n <=? 13)%N) || ((28 <=? n)%N && (n <=? 32)%N).

Fixpoint lstrip (l : list ascii) : list ascii :=
  match l with
  | c :: rest => if is_space c then lstrip rest else l
  | [] => []
  end.

Definition strip (s : string) : string :=
  string_of_list_ascii
    (reverse (lstrip (reverse (lstrip (list_ascii_of_string s))))).

(** The digits of [l] read as a number in base ten, after [acc]. *)
Fixpoint digits_value (acc : Z) (l : list ascii) : option Z :=
  match l with
  | [] => Some acc
  | c :: rest =>
      match Datetime.digit c with
      | Some v => digits_value (acc * 10 + v) rest
      | None => None
      end
  end.

Fixpoint split_point (l : list ascii) : list ascii * option (list ascii) :=
  match l with
  | [] => ([], None)
  | c :: rest =>
      if Ascii.eqb c "."%char then ([], Some rest)
      else let '(whole, frac) := split_point rest in (c :: whole, frac)
  end.

Definition unsigned_literal (l : list ascii) : option Qc :=
  let '(whole, frac) := split_point l in
  let frac := default [] frac in
  match (whole ++ frac)%list with
  | [] => None
  | _ =>
      w ← digits_value 0 whole;
      f ← digits_value 0 frac;
      Some (Q2Qc (Qplus (inject_Z w)
                         (Qmake f (Pos.pow 10 (Pos.of_nat (length frac))))))
  end.

Definition float_literal (s : string) : option pyfloat :=
  match list_ascii_of_string (strip s) with
  | c :: rest =>
      if Ascii.eqb c "-"%char then
        (fun q => FFin (- q)%Qc) <$> unsigned_literal rest
      else if Ascii.eqb c "+"%char then FFin <$> unsigned_literal rest
      else FFin <$> unsigned_literal (c :: rest)
  | [] => None
  end.

Definition float_str (x : pyfloat) : string :=
  match x with
  | FNaN => "nan"
  | FInf false => "inf"
  | FInf true => "-inf"
  | FFin q => pretty (Qnum (this q)) +:+ ".0"
  end.

Global Instance runtime : PyRuntime := {|
  str_lower := lower;
  str_strip := strip;
  float_of_str := float_literal;
  float_of_int := fun z => FFin (Q2Qc (inject_Z z));
  str_of_float := float_str;
|}.

(** A date written [MM/DD/YYYY], rewritten [YYYY-MM-DD]. *)
Definition month_first (s : string) : option string :=
  match list_ascii_of_string s with
  | [m1; m2; sep1; d1; d2; sep2; y1; y2; y3; y4] =>
      if Ascii.eqb sep1 "/"%char && Ascii.eqb sep2 "/"%char
      then Some (string_of_list_ascii
                   [y1; y2; y3; y4; "-"%char; m1; m2; "-"%char; d1; d2])
      else None
  | _ => None
  end.

Definition to_date (slashes : bool) (c : cell) : option cell :=
  match c with
  | CStr s =>
      iso ← (if slashes then month_first s else Some s);
      d ← Datetime.strptime iso;
      Some (CStr (Datetime.strftime d))
  | _ => None
  end.

(** [pd.to_datetime(col).dt.strftime('%Y-%m-%d')] on a column of strings
    written all [MM/DD/YYYY] or all [YYYY-MM-DD], the form being that of
    the first one; [None] on any other column, which the sample frames do
    not hold. *)
Definition to_datetime_strftime (col : list cell) : option (list cell) :=
  match col with
  | CStr s :: _ => mapM (to_date (bool_decide (is_Some (month_first s)))) col
  | _ => None
  end.

End Sample.

(** ** Vocabulary of the properties *)

(** The frame [df] with other rows. *)
Definition with_rows (df : DataFrame) (rs : list (gmap string cell))
  : DataFrame :=
  {| columns := columns df; rows := rs |}.

(** The cell of [row] in column [col]. *)
Definition at_col (col : string) (row : gmap string cell) : cell :=
  default NaN (row !! col).

(** Both frames are well formed and carry every column the script reads. *)
Definition tables_ok (accounts_df depletions_df : DataFrame) : bool :=
  df_wf accounts_df && df_wf depletions_df &&
  has_column accounts_df "id" &&
  has_column accounts_df "std_account_name" &&
  has_column depletions_df "std_account_name_for_lookup" &&
  has_column depletions_df "cases" &&
  has_column depletions_df "order_date" &&
  has_column depletions_df "sku".

(** What the rows of a second run add to the accumulators of a first. *)
Definition state_app (st1 st2 : loop_state) : loop_state :=
  {| matched_depletions_data :=
       matched_depletions_data st1 ++ matched_depletions_data st2;
     unmatched_account_names :=
       unmatched_account_names st1 ∪ unmatched_account_names st2;
     skipped_due_to_invalid_cases :=
       skipped_due_to_invalid_cases st1 + skipped_due_to_invalid_cases st2 |}.

(** What a row adds when its quantity is rejected. *)
Definition rejected : loop_state :=
  {| matched_depletions_data := [];
     unmatched_account_names := ∅;
     skipped_due_to_invalid_cases := 1 |}.

(** What a row adds when it is emitted as [r]. *)
Definition emitted (r : matched_row) : loop_state :=
  {| matched_depletions_data := [r];
     unmatched_account_names := ∅;
     skipped_due_to_invalid_cases := 0 |}.

(** What a row adds when its name [ref] has no entry in the map. *)
Definition not_found (ref : cell) : loop_state :=
  {| matched_depletions_data := [];
     unmatched_account_names := {[ref]};
     skipped_due_to_invalid_cases := 0 |}.

Section Vocabulary.
Context `{PyRuntime}.

(** Steps 3 and 4 on the accounts frame: the lookup map of the run. *)
Definition account_id_map_of (accounts_df : DataFrame) : run (gmap cell cell) :=
  accounts_df ← add_match_col accounts_df
                   "std_account_name" "match_col_accounts";
  build_account_id_map accounts_df.

(** A depletion row as the loop sees it, with its normalized name. *)
Definition keyed (row : gmap string cell) : gmap string cell :=
  <["match_col_depletions" :=
      normalize (at_col "std_account_name_for_lookup" row)]> row.

(** The quantity is missing or not a number (no float, or NaN), zero or
    negative. *)
Definition quantity_invalid (q : cell) : Prop :=
  match py_float q with
  | None => True
  | Some x => float_isna x = true ∨ float_le0 x = true
  end.

(** The normalized name of the row has no entry in the map. *)
Definition no_mapping_entry (account_id_map : gmap cell cell)
    (row : gmap string cell) : bool :=
  bool_decide
    (account_id_map !! normalize (at_col "std_account_name_for_lookup" row)
     = None).

(** The lookup map as a fold over the account rows. *)
Definition entity_map (accounts : list (gmap string cell)) : gmap cell cell :=
  foldl (fun d e => <[normalize (at_col "std_account_name" e) :=
                        at_col "id" e]> d) ∅ accounts.

End Vocabulary.

(** *** For [merge_account_ids.py] and [process_vip_export.py] *)

(** Both frames are well formed and carry every column
    [merge_account_ids_with_depletions] reads; the [id] column may be
    absent. *)
Definition merge_tables_ok (accounts_df depletions_df : DataFrame) : bool :=
  df_wf accounts_df && df_wf depletions_df &&
  has_column accounts_df "std_account_name" &&
  has_column depletions_df "std_account_name_for_lookup" &&
  has_column depletions_df "order_date" &&
  has_column depletions_df "cases" &&
  has_column depletions_df "sku".

(** The identifiers of the accounts as the script has them after line 20:
    the [id] column, or one generated token per row. *)
Definition account_ids (uuid4 : nat → string) (accounts_df : DataFrame)
  : list cell :=
  if has_column accounts_df "id" then at_col "id" <$> rows accounts_df
  else (fun k => CStr (uuid4 k)) <$> seq 0 (length (rows accounts_df)).

(** The dict keys of the account names and of the lookup names, each by
    the dtype of its column. *)
Definition account_key (accounts_df : DataFrame) (c : cell) : option pykey :=
  dict_key (object_dtype accounts_df "std_account_name") c.


(** The map of line 28, keyed by the names as read. *)
Definition exact_map (uuid4 : nat → string) (accounts_df : DataFrame)
  : gmap pykey cell :=
  dict_zip_keys
    (account_key accounts_df <$>
       (at_col "std_account_name" <$> rows accounts_df))
    (account_ids uuid4 accounts_df).


(** The export is well formed and has the seven account columns. *)
Definition export_ok (df : DataFrame) : bool :=
  df_wf df &&
  forallb (has_column df) (Unpivot.account_columns.*1).


(** [p] holds of [o], [o + 1], ..., [fuel] ordinals in all. *)
Fixpoint holds_from (p : Z → bool) (fuel : nat) (o : Z) : bool :=
  match fuel with
  | O => true
  | S fuel => p o && holds_from p fuel (o + 1)
  end.

(** A date of the calendar, from year 1 on. *)
Definition valid_date (d : Datetime.date) : bool :=
  (1 <=? Datetime.year d)%Z &&
  (1 <=? Datetime.month d)%Z && (Datetime.month d <=? 12)%Z &&
  (1 <=? Datetime.day d)%Z &&
  (Datetime.day d
   <=? Datetime.days_in_month (Datetime.year d) (Datetime.month d))%Z.

(** The date of the ordinal [o] is a date of the calendar and has [o] as
    its ordinal. *)
Definition ordinal_ok (o : Z) : bool :=
  (Datetime.ymd2ord (Datetime.ord2ymd o) =? o)%Z &&
  valid_date (Datetime.ord2ymd o).

(** The month and the day of the day [n] (from 0) of a year, as the last
    lines of [_ord2ymd] find them. *)
Definition month_day (leapyear : bool) (n : Z) : Z * Z :=
  let m := Z.shiftr (n + 50) 5 in
  let preceding :=
    (Datetime.DAYS_BEFORE_MONTH m
     + if (2 <? m)%Z && leapyear then 1 else 0)%Z in
  if (n <? preceding)%Z then
    let m := (m - 1)%Z in
    let preceding :=
      (preceding -
         (Datetime.DAYS_IN_MONTH m
          + if (m =? 2)%Z && leapyear then 1 else 0))%Z in
    (m, (n - preceding + 1)%Z)
  else (m, (n - preceding + 1)%Z).

(** The month and day of day [n] are a month and a day of that month, and
    day [n] is that many days into the year. *)
Definition month_day_ok (leapyear : bool) (n : Z) : bool :=
  let md := month_day leapyear n in
  (1 <=? md.1)%Z && (md.1 <=? 12)%Z && (1 <=? md.2)%Z &&
  (md.2 <=? if (md.1 =? 2)%Z && leapyear then 29
            else Datetime.DAYS_IN_MONTH md.1)%Z &&
  (Datetime.DAYS_BEFORE_MONTH md.1
   + (if (2 <? md.1)%Z && leapyear then 1 else 0) + md.2 =? n + 1)%Z.

(** ** Sample frames *)

Module Frames.

Definition account (id name : string) : gmap string cell :=
  {[ "id" := CStr id; "std_account_name" := CStr name ]}.

Definition depletion (name date : string) (qty : cell) (sku : string)
  : gmap string cell :=
  {[ "std_account_name_for_lookup" := CStr name;
     "order_date" := CStr date;
     "cases" := qty;
     "sku" := CStr sku ]}.

Definition accounts_of (rs : list (gmap string cell)) : DataFrame :=
  {| columns := ["id"; "std_account_name"]; rows := rs |}.

Definition depletions_of (rs : list (gmap string cell)) : DataFrame :=
  {| columns := ["std_account_name_for_lookup"; "order_date"; "cases"; "sku"];
     rows := rs |}.

(** One account. *)
Definition joes : DataFrame := accounts_of [account "A1" "Joe's Bar"].

(** Two accounts whose names normalize to the same key. *)
Definition two_joes : DataFrame :=
  accounts_of [account "A1" "Joe's Bar"; account "A2" "joe's bar "].

Definition joe_3 : gmap string cell :=
  depletion "joe's bar " "2024-04-01" (CStr "3") "X".

Definition joe_0 : gmap string cell :=
  depletion "Joe's Bar" "2024-04-01" (CStr "0") "X".

Definition joe_exact : gmap string cell :=
  depletion "Joe's Bar" "2024-04-02" (CInt 2) "Y".

Definition unknown_5 : gmap string cell :=
  depletion "Unknown Store" "2024-04-01" (CStr "5") "X".

(** A depletions file without the [cases] column. *)
Definition no_cases (rs : list (gmap string cell)) : DataFrame :=
  {| columns := ["std_account_name_for_lookup"; "order_date"; "sku"];
     rows := delete "cases" <$> rs |}.

(** An export with three month columns. *)
Definition export : DataFrame :=
  {| columns := ["Retail Accounts"; "Classes of Trade"; "OnOff Premises";
                 "Address"; "City"; "State"; "Zip Code"; "9L"; "9L.1"; "9L.2"];
     rows := [ {[ "Retail Accounts" := CStr "Joe's Bar";
                  "Classes of Trade" := CStr "Bar";
                  "OnOff Premises" := CStr "On";
                  "Address" := CStr "1 Main St";
                  "City" := CStr "Austin";
                  "State" := CStr "TX";
                  "Zip Code" := CInt 78701;
                  "9L" := CInt 3;
                  "9L.1" := CInt 4;
                  "9L.2" := CInt 5 ]} ] |}.

(** The float of the quantity [3]. *)
Definition three : pyfloat := default FNaN (Sample.float_literal "3").

(** Three depletions: one matched, one unknown, one with quantity zero. *)
Definition mixed : DataFrame := depletions_of [joe_3; unknown_5; joe_0].

(** The accumulators after the run on [joes] and [mixed]. *)
Definition mixed_state : loop_state :=
  match reconcile (Some joes) (Some mixed) with
  | Ok st => st
  | _ => loop_init
  end.

(** The frames the unpivot of [export] saves. *)
Definition unpivoted : DataFrame * DataFrame :=
  match Unpivot.process_vip_export export "2024-04-01"
          ["9L"; "9L.1"; "9L.2"] with
  | Ok frames => frames
  | _ => (accounts_of [], depletions_of [])
  end.

(** An account and two depletions whose names are already lowercase and
    trimmed, with float quantities. *)
Definition plain_joes : DataFrame := accounts_of [account "A1" "joe's bar"].

Definition plain_depletions : DataFrame :=
  depletions_of [depletion "joe's bar" "2024-04-01" (CFloat three) "X";
                 depletion "unknown store" "2024-04-02" (CFloat three) "Y"].

(** The tokens of the sample runs. *)
Definition token (k : nat) : string := "uuid-" +:+ pretty k.

(** An account whose name was read as the integer 7, and depletions whose
    names were read as floats: 7.0 and a missing name. *)
Definition seven : pyfloat := FFin (Q2Qc (inject_Z 7)).

Definition numbered_accounts : DataFrame :=
  accounts_of [ {[ "id" := CStr "A7"; "std_account_name" := CInt 7 ]} ].

Definition depletion_named (name : cell) : gmap string cell :=
  {[ "std_account_name_for_lookup" := name;
     "order_date" := CStr "2024-04-01";
     "cases" := CInt 2;
     "sku" := CStr "X" ]}.

Definition float_depletions : DataFrame :=
  depletions_of [depletion_named (CFloat seven); depletion_named NaN].

(** Accounts without identifiers whose names were read as floats, one of
    them missing. *)
Definition float_names : DataFrame :=
  {| columns := ["std_account_name"];
     rows := [ {[ "std_account_name" := CFloat seven ]};
               {[ "std_account_name" := NaN ]} ] |}.


(** Accounts and depletions with a missing name each in a column of
    strings. *)
Definition nameless_accounts : DataFrame :=
  accounts_of [ account "A1" "Joe's Bar";
                {[ "id" := CStr "A0"; "std_account_name" := NaN ]} ].

Definition nameless_depletions : DataFrame :=
  depletions_of [ joe_exact; depletion_named NaN ].

(** A depletion with its date written month first and a SKU read as a
    number. *)
Definition slash_depletions : DataFrame :=
  depletions_of [ {[ "std_account_name_for_lookup" := CStr "Joe's Bar";
                     "order_date" := CStr "04/03/2024";
                     "cases" := CInt 2;
                     "sku" := CInt 7 ]} ].

(** The two input files of a run, and the same with an output file of an
    earlier run beside them. *)
Definition input_files : gmap string DataFrame :=
  {[ accounts_file_name := joes; depletions_file_name := mixed ]}.

Definition files_with_stale_output : gmap string DataFrame :=
  <[output_file_name := slash_depletions]> input_files.

(** An export row with one month column. *)
Definition export_row (name : string) (qty : Z) : gmap string cell :=
  {[ "Retail Accounts" := CStr name;
     "Classes of Trade" := CStr "Bar";
     "OnOff Premises" := CStr "On";
     "Address" := CStr "1 Main St";
     "City" := CStr "Austin";
     "State" := CStr "TX";
     "Zip Code" := CInt 78701;
     "9L" := CInt qty ]}.

(** An export in which the first account comes again after the second. *)
Definition repeated_export : DataFrame :=
  {| columns := ["Retail Accounts"; "Classes of Trade"; "OnOff Premises";
                 "Address"; "City"; "State"; "Zip Code"; "9L"];
     rows := [ export_row "Joe's Bar" 3; export_row "Moe's"  4;
               export_row "Joe's Bar" 5 ] |}.

(** The frames the unpivot of [repeated_export] saves. *)
Definition unpivoted_repeats : DataFrame * DataFrame :=
  match Unpivot.process_vip_export repeated_export "2024-04-01" ["9L"] with
  | Ok frames => frames
  | _ => (accounts_of [], depletions_of [])
  end.

(** An export without any month column. *)
Definition export_without_months : DataFrame :=
  {| columns := ["Retail Accounts"; "Classes of Trade"; "OnOff Premises";
                 "Address"; "City"; "State"; "Zip Code"];
     rows := [ {[ "Retail Accounts" := CStr "Joe's Bar";
                  "Classes of Trade" := CStr "Bar";
                  "OnOff Premises" := CStr "On";
                  "Address" := CStr "1 Main St";
                  "City" := CStr "Austin";
                  "State" := CStr "TX";
                  "Zip Code" := CInt 78701 ]} ] |}.

End Frames.

(** * Properties *)

(** ** The result monad and frames *)

Lemma bind_Ok {A B} (m : run A) (f : A → run B) (b : B) :
  m ≫= f = Ok b → ∃ a, m = Ok a ∧ f a = Ok b.
Proof. destruct m as [a| |]; [by exists a | done | done]. Qed.

Lemma getitem_Some (row : gmap string cell) col c :
  row !! col = Some c → getitem row col = Ok c.
Proof. unfold getitem. by intros ->. Qed.

Lemma getitem_at_col (row : gmap string cell) col :
  is_Some (row !! col) → getitem row col = Ok (at_col col row).
Proof. intros [c Hc]. unfold getitem, at_col. by rewrite Hc. Qed.

Lemma mapM_getitem col (rs : list (gmap string cell)) :
  Forall (fun r => is_Some (r !! col)) rs →
  mapM (fun r => getitem r col) rs = Ok (at_col col <$> rs).
Proof.
  induction 1 as [|r rs Hr _ IH]; [done|].
  cbn. rewrite (getitem_at_col _ _ Hr). cbn. by rewrite IH.
Qed.

Lemma row_wf_lookup cols (row : gmap string cell) col :
  row_wf cols row = true → col ∈ cols → is_Some (row !! col).
Proof.
  unfold row_wf. intros Hwf%bool_decide_eq_true Hin.
  apply elem_of_dom. rewrite Hwf. by apply elem_of_list_to_set.
Qed.

Lemma df_wf_column df col :
  df_wf df = true → has_column df col = true →
  Forall (fun r => is_Some (r !! col)) (rows df).
Proof.
  unfold df_wf, has_column. intros Hwf Hcol%bool_decide_eq_true.
  rewrite forallb_forall in Hwf. apply Forall_forall. intros r Hr.
  apply (row_wf_lookup (columns df)); [|done].
  apply Hwf. by apply list_elem_of_In.
Qed.

Lemma df_wf_with_rows df rs :
  df_wf df = true → rs ⊆ rows df → df_wf (with_rows df rs) = true.
Proof.
  unfold df_wf. cbn. rewrite !forallb_forall. intros Hwf Hsub r Hr.
  apply Hwf. apply list_elem_of_In, Hsub. by apply list_elem_of_In.
Qed.

Lemma zip_with_insert_fmap dst (f : gmap string cell → cell)
    (rs : list (gmap string cell)) :
  zip_with (fun row v => <[dst := v]> row) rs (f <$> rs)
  = (fun r => <[dst := f r]> r) <$> rs.
Proof. induction rs as [|r rs IH]; [done|]. cbn. by rewrite IH. Qed.

Lemma rows_df_set_col df dst (f : gmap string cell → cell) :
  rows (df_set_col df dst (f <$> rows df))
  = (fun r => <[dst := f r]> r) <$> rows df.
Proof. apply zip_with_insert_fmap. Qed.

Lemma has_column_df_set_col df dst vs col :
  has_column df col = true ∨ col = dst →
  has_column (df_set_col df dst vs) col = true.
Proof.
  unfold has_column at 2. cbn. intros Hcol. apply bool_decide_eq_true.
  destruct (has_column df dst) eqn:Hdst.
  - destruct Hcol as [Hcol| ->]; [by apply bool_decide_eq_true in Hcol|].
    by apply bool_decide_eq_true in Hdst.
  - apply elem_of_app. destruct Hcol as [Hcol| ->].
    + left. by apply bool_decide_eq_true in Hcol.
    + right. by apply list_elem_of_singleton.
Qed.

(** ** [dict(zip(...))] keeps the last value of a key *)

Lemma dict_zip_fmap {A} (f g : A → cell) (l : list A) :
  dict_zip (f <$> l) (g <$> l) = foldl (fun d x => <[f x := g x]> d) ∅ l.
Proof.
  unfold dict_zip. generalize (∅ : gmap cell cell).
  induction l as [|x l IH]; intros d; [done|]. cbn. apply IH.
Qed.

Lemma foldl_insert_notin {A} (f g : A → cell) (l : list A)
    (d : gmap cell cell) k :
  (∀ x, x ∈ l → f x ≠ k) →
  foldl (fun d x => <[f x := g x]> d) d l !! k = d !! k.
Proof.
  revert d. induction l as [|x l IH]; intros d Hl; [done|].
  cbn. rewrite IH.
  - apply lookup_insert_ne. apply Hl. by left.
  - intros y Hy. apply Hl. by right.
Qed.

Lemma foldl_insert_last {A} (f g : A → cell) (l1 l2 : list A) x
    (d : gmap cell cell) :
  (∀ y, y ∈ l2 → f y ≠ f x) →
  foldl (fun d x => <[f x := g x]> d) d (l1 ++ x :: l2) !! f x = Some (g x).
Proof.
  intros Hl2. rewrite foldl_app. cbn.
  rewrite foldl_insert_notin; [|done]. apply lookup_insert_eq.
Qed.

Lemma foldl_insert_Some {A} (f g : A → cell) (l : list A)
    (d : gmap cell cell) k v :
  foldl (fun d x => <[f x := g x]> d) d l !! k = Some v →
  d !! k = Some v ∨ ∃ x, x ∈ l ∧ f x = k ∧ g x = v.
Proof.
  revert d. induction l as [|x l IH]; intros d Hk; [by left|].
  cbn in Hk. apply IH in Hk as [Hk|(y & Hy & Hf & Hg)].
  - destruct (decide (f x = k)) as [Heq|Hne].
    + rewrite <- Heq, lookup_insert_eq in Hk. right. exists x.
      split; [by left|]. split; [done|]. congruence.
    + rewrite lookup_insert_ne in Hk by done. by left.
  - right. exists y. split; [by right|done].
Qed.

(** ** The accumulators compose *)

Lemma state_app_assoc st1 st2 st3 :
  state_app (state_app st1 st2) st3 = state_app st1 (state_app st2 st3).
Proof.
  unfold state_app. cbn. f_equal.
  - by rewrite <- app_assoc.
  - by rewrite (assoc_L (∪)).
  - lia.
Qed.

Lemma state_app_init_l st : state_app loop_init st = st.
Proof.
  destruct st. unfold state_app. cbn. f_equal. by rewrite (left_id_L ∅ (∪)).
Qed.

Lemma state_app_init_r st : state_app st loop_init = st.
Proof.
  destruct st. unfold state_app. cbn. f_equal.
  - apply app_nil_r.
  - by rewrite (right_id_L ∅ (∪)).
  - lia.
Qed.

Section Reconciliation.
Context `{PyRuntime}.

Lemma strictly_positive_iff x :
  strictly_positive x ↔ float_isna x = false ∧ float_le0 x = false.
Proof.
  destruct x as [|neg|q]; cbn.
  - split; [done|]. by intros [? _].
  - split; [by intros ->|]. by intros [_ ?].
  - rewrite bool_decide_eq_false. split.
    + intros Hq. split; [done|]. by apply Qclt_not_le.
    + intros [_ Hq]. by apply Qcnot_le_lt.
Qed.

(** *** Steps 3 and 4 *)

Lemma mapM_getitem_fmap col (g : gmap string cell → gmap string cell)
    (rs : list (gmap string cell)) :
  Forall (fun r => is_Some (g r !! col)) rs →
  mapM (fun r => getitem r col) (g <$> rs)
  = Ok ((fun r => at_col col (g r)) <$> rs).
Proof.
  intros Hrs. rewrite mapM_getitem.
  - by rewrite <- list_fmap_compose.
  - by apply Forall_fmap.
Qed.

Lemma add_match_col_Ok df src dst :
  df_wf df = true → has_column df src = true →
  add_match_col df src dst
  = Ok (df_set_col df dst ((fun r => normalize (at_col src r)) <$> rows df)).
Proof.
  intros Hwf Hsrc. unfold add_match_col, df_col. rewrite Hsrc.
  rewrite mapM_getitem by by apply df_wf_column.
  cbn. by rewrite <- list_fmap_compose.
Qed.

Lemma account_id_map_of_Ok accounts_df :
  df_wf accounts_df = true →
  has_column accounts_df "id" = true →
  has_column accounts_df "std_account_name" = true →
  account_id_map_of accounts_df = Ok (entity_map (rows accounts_df)).
Proof.
  intros Hwf Hid Hname. unfold account_id_map_of.
  rewrite add_match_col_Ok by done. cbn.
  unfold build_account_id_map, df_col.
  rewrite !has_column_df_set_col by auto.
  rewrite rows_df_set_col.
  rewrite (mapM_getitem_fmap "match_col_accounts").
  2:{ apply Forall_forall. intros r _. rewrite lookup_insert_eq. eauto. }
  cbn. rewrite (mapM_getitem_fmap "id").
  2:{ eapply Forall_impl; [by apply (df_wf_column _ "id")|].
      intros r Hr. cbn beta in *. by rewrite lookup_insert_ne by done. }
  cbn. f_equal. unfold entity_map. rewrite <- dict_zip_fmap.
  f_equal; apply list_fmap_ext; intros i r _; unfold at_col.
  - by rewrite lookup_insert_eq.
  - by rewrite lookup_insert_ne by done.
Qed.

(** *** The loop *)

Lemma loop_body_from m st row :
  loop_body m st row
  = d ← loop_body m loop_init row; Ok (state_app st d).
Proof.
  unfold loop_body.
  destruct (getitem row "match_col_depletions") as [key| |]; cbn; [|done..].
  destruct (m !! key) as [i|].
  - destruct (getitem row "cases") as [q| |]; cbn; [|done..].
    destruct (py_float q) as [x|]; cbn.
    + destruct (float_isna x || float_le0 x); cbn.
      * unfold state_app. cbn. do 2 f_equal.
        -- by rewrite app_nil_r.
        -- by rewrite (right_id_L ∅ (∪)).
      * destruct (getitem row "order_date") as [d| |]; cbn; [|done..].
        destruct (getitem row "sku") as [s| |]; cbn; [|done..].
        unfold state_app. cbn. do 2 f_equal.
        -- by rewrite (right_id_L ∅ (∪)).
        -- lia.
    + unfold state_app. cbn. do 2 f_equal.
      * by rewrite app_nil_r.
      * by rewrite (right_id_L ∅ (∪)).
  - destruct (getitem row "std_account_name_for_lookup") as [n| |]; cbn;
      [|done..].
    unfold state_app. cbn. do 2 f_equal.
    + by rewrite app_nil_r.
    + by rewrite (left_id_L ∅ (∪)).
    + lia.
Qed.

Lemma iterrows_loop_from m st rs :
  iterrows_loop m st rs
  = d ← iterrows_loop m loop_init rs; Ok (state_app st d).
Proof.
  revert st. induction rs as [|row rs IH]; intros st; cbn.
  - by rewrite state_app_init_r.
  - rewrite loop_body_from.
    destruct (loop_body m loop_init row) as [d1| |]; cbn; [|done..].
    rewrite (IH (state_app st d1)), (IH d1).
    destruct (iterrows_loop m loop_init rs) as [d2| |]; cbn; [|done..].
    by rewrite state_app_assoc.
Qed.

Lemma iterrows_loop_app m st l1 l2 :
  iterrows_loop m st (l1 ++ l2)
  = st' ← iterrows_loop m st l1; iterrows_loop m st' l2.
Proof.
  revert st. induction l1 as [|row l1 IH]; intros st; cbn; [done|].
  destruct (loop_body m st row) as [st'| |]; cbn; [|done..]. apply IH.
Qed.

(** Steps 1 to 4 succeed on well-formed frames with the three checked
    columns, and leave the loop to run over the keyed rows. *)
Lemma reconcile_loop accounts_df depletions_df :
  df_wf accounts_df = true → df_wf depletions_df = true →
  has_column accounts_df "id" = true →
  has_column accounts_df "std_account_name" = true →
  has_column depletions_df "std_account_name_for_lookup" = true →
  reconcile (Some accounts_df) (Some depletions_df)
  = iterrows_loop (entity_map (rows accounts_df)) loop_init
      (keyed <$> rows depletions_df).
Proof.
  intros Hwa Hwd Hid Hname Hlook.
  pose proof (account_id_map_of_Ok _ Hwa Hid Hname) as Hmap.
  unfold account_id_map_of in Hmap. unfold reconcile.
  rewrite Hid, Hname, Hlook. cbn.
  rewrite (add_match_col_Ok accounts_df) in * by done.
  rewrite (add_match_col_Ok depletions_df) by done.
  cbn in *. rewrite Hmap. cbn. by rewrite zip_with_insert_fmap.
Qed.

(** *** One row *)

Lemma loop_body_keyed m (t : gmap string cell) ref q d s :
  t !! "std_account_name_for_lookup" = Some ref →
  t !! "cases" = Some q →
  t !! "order_date" = Some d →
  t !! "sku" = Some s →
  loop_body m loop_init (keyed t)
  = Ok match m !! normalize ref with
       | None => not_found ref
       | Some i =>
           match py_float q with
           | None => rejected
           | Some x =>
               if float_isna x || float_le0 x then rejected
               else emitted {| account_id := i; order_date := d;
                               cases := CFloat x; sku := s |}
           end
       end.
Proof.
  intros Href Hq Hd Hs. unfold loop_body, keyed, at_col.
  rewrite (getitem_Some _ "match_col_depletions" (normalize ref)).
  2:{ rewrite lookup_insert_eq, Href. done. }
  cbn. rewrite Href. cbn.
  rewrite (getitem_Some _ "std_account_name_for_lookup" ref),
    (getitem_Some _ "cases" q), (getitem_Some _ "order_date" d),
    (getitem_Some _ "sku" s) by by rewrite lookup_insert_ne by done.
  destruct (m !! normalize ref) as [i|]; cbn.
  - destruct (py_float q) as [x|]; cbn; [|done].
    by destruct (float_isna x || float_le0 x).
  - unfold not_found. by rewrite (left_id_L ∅ (∪)).
Qed.

Lemma tables_ok_elim accounts_df depletions_df :
  tables_ok accounts_df depletions_df = true →
  df_wf accounts_df = true ∧ df_wf depletions_df = true ∧
  has_column accounts_df "id" = true ∧
  has_column accounts_df "std_account_name" = true ∧
  has_column depletions_df "std_account_name_for_lookup" = true ∧
  has_column depletions_df "cases" = true ∧
  has_column depletions_df "order_date" = true ∧
  has_column depletions_df "sku" = true.
Proof. unfold tables_ok. rewrite !andb_true_iff. tauto. Qed.

Lemma tables_ok_with_rows accounts_df depletions_df rs :
  tables_ok accounts_df depletions_df = true → rs ⊆ rows depletions_df →
  tables_ok accounts_df (with_rows depletions_df rs) = true.
Proof.
  intros Hok Hsub. pose proof (tables_ok_elim _ _ Hok) as Hcols.
  destruct Hcols as (Hwa & Hwd & Hid & Hname & Hlook & Hq & Hd & Hs).
  unfold tables_ok. rewrite (df_wf_with_rows _ _ Hwd Hsub), Hwa, Hid, Hname.
  unfold has_column in *. cbn. by rewrite Hlook, Hq, Hd, Hs.
Qed.

(** Every depletion row of well-formed tables has its four cells. *)
Lemma tables_ok_row accounts_df depletions_df (t : gmap string cell) :
  tables_ok accounts_df depletions_df = true → t ∈ rows depletions_df →
  ∃ ref q d s,
    t !! "std_account_name_for_lookup" = Some ref ∧ t !! "cases" = Some q ∧
    t !! "order_date" = Some d ∧ t !! "sku" = Some s.
Proof.
  intros Hok Ht. pose proof (tables_ok_elim _ _ Hok) as Hcols.
  destruct Hcols as (_ & Hwd & _ & _ & Hlook & Hq & Hd & Hs).
  pose proof (df_wf_column _ _ Hwd Hlook) as H1.
  pose proof (df_wf_column _ _ Hwd Hq) as H2.
  pose proof (df_wf_column _ _ Hwd Hd) as H3.
  pose proof (df_wf_column _ _ Hwd Hs) as H4.
  rewrite Forall_forall in H1, H2, H3, H4.
  destruct (H1 t Ht) as [ref ?], (H2 t Ht) as [q ?], (H3 t Ht) as [d ?],
    (H4 t Ht) as [s ?].
  by exists ref, q, d, s.
Qed.

(** Every account row of well-formed tables has its two cells. *)
Lemma tables_ok_account accounts_df depletions_df (e : gmap string cell) :
  tables_ok accounts_df depletions_df = true → e ∈ rows accounts_df →
  ∃ n i, e !! "std_account_name" = Some n ∧ e !! "id" = Some i.
Proof.
  intros Hok He. pose proof (tables_ok_elim _ _ Hok) as Hcols.
  destruct Hcols as (Hwa & _ & Hid & Hname & _).
  pose proof (df_wf_column _ _ Hwa Hid) as H1.
  pose proof (df_wf_column _ _ Hwa Hname) as H2.
  rewrite Forall_forall in H1, H2.
  destruct (H1 e He) as [i ?], (H2 e He) as [n ?]. by exists n, i.
Qed.

(** The run on well-formed tables is the loop over the keyed rows. *)
Lemma reconcile_tables_ok accounts_df depletions_df :
  tables_ok accounts_df depletions_df = true →
  reconcile (Some accounts_df) (Some depletions_df)
  = iterrows_loop (entity_map (rows accounts_df)) loop_init
      (keyed <$> rows depletions_df).
Proof.
  intros Hok. pose proof (tables_ok_elim _ _ Hok) as Hcols.
  destruct Hcols as (Hwa & Hwd & Hid & Hname & Hlook & _).
  by apply reconcile_loop.
Qed.

Lemma loop_body_total accounts_df depletions_df m (t : gmap string cell) :
  tables_ok accounts_df depletions_df = true → t ∈ rows depletions_df →
  ∃ dt, loop_body m loop_init (keyed t) = Ok dt.
Proof.
  intros Hok Ht.
  destruct (tables_ok_row _ _ _ Hok Ht) as (ref & q & d & s & ? & ? & ? & ?).
  eexists. by apply (loop_body_keyed m t ref q d s).
Qed.

Lemma iterrows_loop_total accounts_df depletions_df m rs :
  tables_ok accounts_df depletions_df = true → rs ⊆ rows depletions_df →
  ∃ st, iterrows_loop m loop_init (keyed <$> rs) = Ok st.
Proof.
  intros Hok. induction rs as [|t rs IH]; intros Hsub; [by eexists|].
  destruct (loop_body_total _ _ m t Hok) as [dt Hdt]; [apply Hsub; by left|].
  destruct IH as [st Hst]; [intros r Hr; apply Hsub; by right|].
  exists (state_app dt st). cbn. rewrite Hdt. cbn.
  rewrite iterrows_loop_from, Hst. done.
Qed.

(** The run on [pre ++ t :: post] is the run on [pre], then what [t] adds,
    then the run on [post]. *)
Lemma reconcile_parts accounts_df depletions_df pre t post :
  tables_ok accounts_df depletions_df = true →
  rows depletions_df = pre ++ t :: post →
  ∃ st1 dt st2,
    reconcile (Some accounts_df) (Some (with_rows depletions_df pre)) = Ok st1 ∧
    reconcile (Some accounts_df) (Some (with_rows depletions_df post)) = Ok st2 ∧
    loop_body (entity_map (rows accounts_df)) loop_init (keyed t) = Ok dt ∧
    reconcile (Some accounts_df) (Some depletions_df)
    = Ok (state_app st1 (state_app dt st2)).
Proof.
  intros Hok Hrows.
  assert (pre ⊆ rows depletions_df) as Hpre
    by (rewrite Hrows; intros r Hr; apply elem_of_app; by left).
  assert (post ⊆ rows depletions_df) as Hpost
    by (rewrite Hrows; intros r Hr; apply elem_of_app; right; by right).
  assert (t ∈ rows depletions_df) as Ht
    by (rewrite Hrows; apply elem_of_app; right; by left).
  set (m := entity_map (rows accounts_df)).
  destruct (iterrows_loop_total _ _ m pre Hok Hpre) as [st1 Hst1].
  destruct (iterrows_loop_total _ _ m post Hok Hpost) as [st2 Hst2].
  destruct (loop_body_total _ _ m t Hok Ht) as [dt Hdt].
  exists st1, dt, st2. split_and!.
  - by rewrite reconcile_tables_ok by by apply tables_ok_with_rows.
  - by rewrite reconcile_tables_ok by by apply tables_ok_with_rows.
  - done.
  - rewrite reconcile_tables_ok by done. fold m.
    rewrite Hrows, fmap_app, fmap_cons, iterrows_loop_app, Hst1.
    cbn. rewrite loop_body_from, Hdt. cbn.
    rewrite iterrows_loop_from, Hst2. cbn.
    by rewrite state_app_assoc.
Qed.

(** *** The lookup map *)

Lemma entity_map_last apre (e : gmap string cell) apost n i :
  e !! "std_account_name" = Some n → e !! "id" = Some i →
  (∀ e' n', e' ∈ apost → e' !! "std_account_name" = Some n' →
            normalize n' ≠ normalize n) →
  (∀ e', e' ∈ apost → is_Some (e' !! "std_account_name")) →
  entity_map (apre ++ e :: apost) !! normalize n = Some i.
Proof.
  intros Hn Hi Hlast Hsome. unfold entity_map.
  assert (at_col "std_account_name" e = n) as <-
    by (unfold at_col; by rewrite Hn).
  assert (at_col "id" e = i) as <- by (unfold at_col; by rewrite Hi).
  apply (foldl_insert_last
           (fun e => normalize (at_col "std_account_name" e)) (at_col "id")).
  intros e' He'. destruct (Hsome e' He') as [n' Hn'].
  unfold at_col at 1. rewrite Hn'. cbn. by apply (Hlast e').
Qed.

Lemma entity_map_Some accounts k i :
  entity_map accounts !! k = Some i →
  ∃ e, e ∈ accounts ∧ normalize (at_col "std_account_name" e) = k ∧
       at_col "id" e = i.
Proof.
  unfold entity_map. intros Hk.
  apply foldl_insert_Some in Hk as [Hk|Hk]; [|done].
  by rewrite lookup_empty in Hk.
Qed.

Lemma entity_map_None accounts k :
  (∀ e, e ∈ accounts → normalize (at_col "std_account_name" e) ≠ k) →
  entity_map accounts !! k = None.
Proof.
  intros Hk. unfold entity_map. rewrite foldl_insert_notin; [|done].
  apply lookup_empty.
Qed.

Lemma foldl_insert_mono {A} (f g : A → cell) (l : list A)
    (d : gmap cell cell) k :
  is_Some (d !! k) →
  is_Some (foldl (fun d x => <[f x := g x]> d) d l !! k).
Proof.
  revert d. induction l as [|x l IH]; intros d Hk; [done|].
  cbn. apply IH. apply lookup_insert_is_Some.
  destruct (decide (f x = k)); [by left|by right].
Qed.

Lemma entity_map_elem accounts (e : gmap string cell) :
  e ∈ accounts →
  is_Some (entity_map accounts !! normalize (at_col "std_account_name" e)).
Proof.
  unfold entity_map. generalize (∅ : gmap cell cell).
  induction accounts as [|y l IH]; intros d He; [by apply elem_of_nil in He|].
  cbn. apply elem_of_cons in He as [->|He]; [|by apply IH].
  apply foldl_insert_mono. rewrite lookup_insert_eq. eauto.
Qed.

(** *** Where a matched row comes from *)

Lemma matched_origin accounts_df depletions_df rs st :
  tables_ok accounts_df depletions_df = true → rs ⊆ rows depletions_df →
  iterrows_loop (entity_map (rows accounts_df)) loop_init (keyed <$> rs)
  = Ok st →
  ∀ r, r ∈ matched_depletions_data st →
    ∃ (t : gmap string cell) ref q x,
      t ∈ rs ∧
      t !! "std_account_name_for_lookup" = Some ref ∧
      t !! "cases" = Some q ∧ py_float q = Some x ∧ strictly_positive x ∧
      entity_map (rows accounts_df) !! normalize ref = Some (account_id r) ∧
      t !! "order_date" = Some (order_date r) ∧
      cases r = CFloat x ∧
      t !! "sku" = Some (sku r).
Proof.
  intros Hok. set (m := entity_map (rows accounts_df)).
  revert st. induction rs as [|t rs IH]; intros st Hsub Hloop r Hr.
  { cbn in Hloop. injection Hloop as <-. by apply elem_of_nil in Hr. }
  assert (t ∈ rows depletions_df) as Ht by (apply Hsub; by left).
  assert (rs ⊆ rows depletions_df) as Hsub'
    by (intros y Hy; apply Hsub; by right).
  destruct (tables_ok_row _ _ _ Hok Ht) as (ref & q & d & s & Href & Hq & Hd & Hs).
  cbn in Hloop. rewrite (loop_body_keyed m t ref q d s) in Hloop by done.
  cbn in Hloop. rewrite iterrows_loop_from in Hloop.
  apply bind_Ok in Hloop as (st' & Hst' & Hst). injection Hst as <-.
  cbn in Hr. apply elem_of_app in Hr as [Hr|Hr].
  - exists t, ref, q. destruct (m !! normalize ref) as [i|] eqn:Hm;
      [|by apply elem_of_nil in Hr].
    destruct (py_float q) as [x|] eqn:Hx; [|by apply elem_of_nil in Hr].
    destruct (float_isna x || float_le0 x) eqn:Hbad;
      [by apply elem_of_nil in Hr|].
    apply list_elem_of_singleton in Hr as ->. exists x. cbn.
    apply orb_false_iff in Hbad.
    split_and!; try done; [by left|by apply strictly_positive_iff].
  - destruct (IH st' Hsub' Hst' r Hr) as (t' & ref' & q' & x' & Ht' & Hrest).
    exists t', ref', q', x'. split; [by right|done].
Qed.

(** *** Counting the rows *)

Lemma loop_count accounts_df depletions_df rs :
  tables_ok accounts_df depletions_df = true → rs ⊆ rows depletions_df →
  ∃ st,
    iterrows_loop (entity_map (rows accounts_df)) loop_init (keyed <$> rs)
    = Ok st ∧
    length (matched_depletions_data st)
    + length (filter (fun t => no_mapping_entry
                                 (entity_map (rows accounts_df)) t = true) rs)
    + skipped_due_to_invalid_cases st
    = length rs.
Proof.
  intros Hok. set (m := entity_map (rows accounts_df)).
  induction rs as [|t rs IH]; intros Hsub; [by exists loop_init|].
  assert (t ∈ rows depletions_df) as Ht by (apply Hsub; by left).
  destruct IH as (st' & Hst' & Hcount);
    [intros y Hy; apply Hsub; by right|].
  destruct (tables_ok_row _ _ _ Hok Ht) as (ref & q & d & s & Href & Hq & Hd & Hs).
  pose proof (loop_body_keyed m t ref q d s Href Hq Hd Hs) as Hbody.
  eexists. split.
  { cbn. rewrite Hbody. cbn. rewrite iterrows_loop_from, Hst'. done. }
  assert (no_mapping_entry m t = bool_decide (m !! normalize ref = None))
    as Hentry by (unfold no_mapping_entry, at_col; by rewrite Href).
  destruct (m !! normalize ref) as [i|] eqn:Hm.
  - rewrite filter_cons_False by by rewrite Hentry.
    destruct (py_float q) as [x|]; [destruct (float_isna x || float_le0 x)|];
      cbn; lia.
  - rewrite filter_cons_True by by rewrite Hentry.
    cbn. lia.
Qed.

(** Two lookups of one cell give the same value. *)
Ltac same_cells :=
  repeat match goal with
  | H1 : ?r !! ?k = Some ?a, H2 : ?r !! ?k = Some ?b |- _ =>
      rewrite H1 in H2; injection H2 as <-
  end.

(** ** The claims on the reconciliation join *)

(** C1, as amended.  Take an entity record that is the last one in input
    order with its normalized name, and a transaction record with the same
    normalized name and a valid quantity: the reconciled record emitted for
    that transaction carries that entity's identifier as its [account_id].
    And on all well-formed tables, every reconciled record's identifier is
    the identifier of an entity whose normalized display name equals the
    normalized name reference of the transaction the record was emitted
    for. *)
Theorem last_matching_entity_gives_account_id :
  (∀ accounts_df depletions_df apre (e : gmap string cell) apost n i
     pre (t : gmap string cell) post ref q x,
     tables_ok accounts_df depletions_df = true →
     rows accounts_df = apre ++ e :: apost →
     e !! "std_account_name" = Some n → e !! "id" = Some i →
     (∀ (e' : gmap string cell) n',
        e' ∈ apost → e' !! "std_account_name" = Some n' →
        normalize n' ≠ normalize n) →
     rows depletions_df = pre ++ t :: post →
     t !! "std_account_name_for_lookup" = Some ref →
     normalize n = normalize ref →
     t !! "cases" = Some q → py_float q = Some x → strictly_positive x →
     ∃ st st1 st2 r,
       reconcile (Some accounts_df) (Some depletions_df) = Ok st ∧
       reconcile (Some accounts_df) (Some (with_rows depletions_df pre))
       = Ok st1 ∧
       reconcile (Some accounts_df) (Some (with_rows depletions_df post))
       = Ok st2 ∧
       matched_depletions_data st
       = matched_depletions_data st1 ++ r :: matched_depletions_data st2 ∧
       account_id r = i) ∧
  (∀ accounts_df depletions_df,
     tables_ok accounts_df depletions_df = true →
     ∃ st,
       reconcile (Some accounts_df) (Some depletions_df) = Ok st ∧
       ∀ r, r ∈ matched_depletions_data st →
         ∃ (e t : gmap string cell) n ref,
           e ∈ rows accounts_df ∧ t ∈ rows depletions_df ∧
           e !! "std_account_name" = Some n ∧
           t !! "std_account_name_for_lookup" = Some ref ∧
           normalize n = normalize ref ∧
           e !! "id" = Some (account_id r) ∧
           t !! "order_date" = Some (order_date r) ∧
           t !! "sku" = Some (sku r)).
Proof.
  split.
  - intros a d apre e apost n i pre t post ref q x Hok Ha Hn Hi Hlast
      Hd Href Hkey Hq Hx Hpos.
    destruct (reconcile_parts a d pre t post Hok Hd)
      as (st1 & dt & st2 & Hst1 & Hst2 & Hdt & Hst).
    assert (t ∈ rows d) as Ht by (rewrite Hd; apply elem_of_app; right; by left).
    destruct (tables_ok_row _ _ _ Hok Ht) as (ref' & q' & dd & s & ? & ? & Hdd & Hs).
    same_cells.
    rewrite (loop_body_keyed _ t ref q dd s) in Hdt by done.
    rewrite Ha in Hdt. rewrite <- Hkey in Hdt.
    rewrite (entity_map_last apre e apost n i) in Hdt; [|done..|].
    2:{ intros e' He'.
        assert (e' ∈ rows a) as Hin
          by (rewrite Ha; apply elem_of_app; right; by right).
        destruct (tables_ok_account _ _ _ Hok Hin) as (n' & ? & -> & _).
        eauto. }
    apply strictly_positive_iff in Hpos as [Hna Hle].
    rewrite Hx, Hna, Hle in Hdt. cbn in Hdt. injection Hdt as <-.
    eexists _, st1, st2, _. split_and!; [exact Hst|exact Hst1|exact Hst2|..];
      done.
  - intros a d Hok.
    destruct (iterrows_loop_total a d (entity_map (rows a)) (rows d) Hok)
      as [st Hst]; [done|].
    exists st. split; [by rewrite reconcile_tables_ok|].
    intros r Hr.
    destruct (matched_origin a d (rows d) st Hok ltac:(done) Hst r Hr)
      as (t & ref & q & x & Ht & Href & _ & _ & _ & Hm & Hd & _ & Hs).
    apply entity_map_Some in Hm as (e & He & Hkey & Hid).
    destruct (tables_ok_account _ _ _ Hok He) as (n & i & Hn & Hi).
    unfold at_col in Hkey, Hid. rewrite Hn in Hkey. rewrite Hi in Hid.
    cbn in Hkey, Hid. subst i.
    by exists e, t, n, ref.
Qed.

(** C2.  A transaction record whose normalized name reference matches no
    entity's normalized display name adds nothing to the matched output (the
    output is what the rows before it and the rows after it give), is not
    counted as invalid, and its original name reference is in
    [unmatched_account_names]. *)
Theorem unmatched_row_is_dropped_and_recorded
    accounts_df depletions_df pre (t : gmap string cell) post ref :
  tables_ok accounts_df depletions_df = true →
  rows depletions_df = pre ++ t :: post →
  t !! "std_account_name_for_lookup" = Some ref →
  (∀ (e : gmap string cell) n,
     e ∈ rows accounts_df → e !! "std_account_name" = Some n →
     normalize n ≠ normalize ref) →
  ∃ st st1 st2,
    reconcile (Some accounts_df) (Some depletions_df) = Ok st ∧
    reconcile (Some accounts_df) (Some (with_rows depletions_df pre))
    = Ok st1 ∧
    reconcile (Some accounts_df) (Some (with_rows depletions_df post))
    = Ok st2 ∧
    matched_depletions_data st
    = matched_depletions_data st1 ++ matched_depletions_data st2 ∧
    ref ∈ unmatched_account_names st ∧
    skipped_due_to_invalid_cases st
    = skipped_due_to_invalid_cases st1 + skipped_due_to_invalid_cases st2.
Proof.
  intros Hok Hd Href Hnone.
  destruct (reconcile_parts _ _ pre t post Hok Hd)
    as (st1 & dt & st2 & Hst1 & Hst2 & Hdt & Hst).
  assert (t ∈ rows depletions_df) as Ht
    by (rewrite Hd; apply elem_of_app; right; by left).
  destruct (tables_ok_row _ _ _ Hok Ht) as (ref' & q & d & s & ? & ? & ? & ?).
  same_cells.
  rewrite (loop_body_keyed _ t ref q d s) in Hdt by done.
  rewrite entity_map_None in Hdt.
  2:{ intros e He.
      destruct (tables_ok_account _ _ _ Hok He) as (n & i & Hn & _).
      unfold at_col. rewrite Hn. by apply (Hnone e). }
  injection Hdt as <-.
  eexists _, st1, st2. split_and!; [exact Hst|exact Hst1|exact Hst2|..]; cbn.
  - done.
  - set_solver.
  - done.
Qed.

(** C3.  A name-matched transaction record whose quantity is missing,
    non-numeric, zero or negative adds nothing to the matched output and to
    the unmatched names, and adds exactly one to
    [skipped_due_to_invalid_cases]; and every record of the matched output
    holds a parsed quantity that is a strictly positive number. *)
Theorem invalid_quantity_is_skipped_once
    accounts_df depletions_df pre (t : gmap string cell) post ref
    (e : gmap string cell) n q :
  tables_ok accounts_df depletions_df = true →
  rows depletions_df = pre ++ t :: post →
  t !! "std_account_name_for_lookup" = Some ref →
  e ∈ rows accounts_df → e !! "std_account_name" = Some n →
  normalize n = normalize ref →
  t !! "cases" = Some q → quantity_invalid q →
  ∃ st st1 st2,
    reconcile (Some accounts_df) (Some depletions_df) = Ok st ∧
    reconcile (Some accounts_df) (Some (with_rows depletions_df pre))
    = Ok st1 ∧
    reconcile (Some accounts_df) (Some (with_rows depletions_df post))
    = Ok st2 ∧
    matched_depletions_data st
    = matched_depletions_data st1 ++ matched_depletions_data st2 ∧
    skipped_due_to_invalid_cases st
    = skipped_due_to_invalid_cases st1 + 1 + skipped_due_to_invalid_cases st2 ∧
    unmatched_account_names st
    = unmatched_account_names st1 ∪ unmatched_account_names st2 ∧
    ∀ r, r ∈ matched_depletions_data st →
      ∃ x, cases r = CFloat x ∧ strictly_positive x.
Proof.
  intros Hok Hd Href He Hn Hkey Hq Hbad.
  destruct (reconcile_parts _ _ pre t post Hok Hd)
    as (st1 & dt & st2 & Hst1 & Hst2 & Hdt & Hst).
  assert (t ∈ rows depletions_df) as Ht
    by (rewrite Hd; apply elem_of_app; right; by left).
  destruct (tables_ok_row _ _ _ Hok Ht) as (ref' & q' & d & s & ? & ? & ? & ?).
  same_cells.
  rewrite (loop_body_keyed _ t ref q d s) in Hdt by done.
  destruct (entity_map_elem (rows accounts_df) e He) as [i Hi].
  unfold at_col in Hi. rewrite Hn in Hi. cbn in Hi. rewrite Hkey in Hi.
  rewrite Hi in Hdt.
  assert (dt = rejected) as ->.
  { unfold quantity_invalid in Hbad. destruct (py_float q) as [x|].
    - destruct Hbad as [Hx|Hx]; rewrite Hx in Hdt;
        rewrite ?orb_true_r in Hdt; cbn in Hdt; congruence.
    - congruence. }
  eexists _, st1, st2. split_and!; [exact Hst|exact Hst1|exact Hst2|..]; cbn.
  - done.
  - lia.
  - by rewrite (left_id_L ∅ (∪)).
  - intros r Hr. rewrite reconcile_tables_ok in Hst by done.
    destruct (matched_origin _ _ (rows depletions_df) _ Hok ltac:(done) Hst r)
      as (_ & _ & _ & x & _ & _ & _ & _ & Hpos & _ & _ & Hc & _); [done|].
    by exists x.
Qed.

(** What a name-matched row with a valid quantity adds. *)
Lemma matched_row_emitted accounts_df depletions_df pre
    (t : gmap string cell) post ref q d s i x :
  tables_ok accounts_df depletions_df = true →
  rows depletions_df = pre ++ t :: post →
  t !! "std_account_name_for_lookup" = Some ref →
  t !! "cases" = Some q → t !! "order_date" = Some d → t !! "sku" = Some s →
  entity_map (rows accounts_df) !! normalize ref = Some i →
  py_float q = Some x → strictly_positive x →
  ∃ st st1 st2,
    reconcile (Some accounts_df) (Some depletions_df) = Ok st ∧
    reconcile (Some accounts_df) (Some (with_rows depletions_df pre))
    = Ok st1 ∧
    reconcile (Some accounts_df) (Some (with_rows depletions_df post))
    = Ok st2 ∧
    matched_depletions_data st
    = matched_depletions_data st1 ++
        {| account_id := i; order_date := d; cases := CFloat x; sku := s |}
        :: matched_depletions_data st2.
Proof.
  intros Hok Hd Href Hq Hdate Hs Hi Hx Hpos.
  destruct (reconcile_parts _ _ pre t post Hok Hd)
    as (st1 & dt & st2 & Hst1 & Hst2 & Hdt & Hst).
  rewrite (loop_body_keyed _ t ref q d s) in Hdt by done.
  apply strictly_positive_iff in Hpos as [Hna Hle].
  rewrite Hi, Hx, Hna, Hle in Hdt. cbn in Hdt. injection Hdt as <-.
  by exists (state_app st1 (state_app (emitted
    {| account_id := i; order_date := d; cases := CFloat x; sku := s |}) st2)),
    st1, st2.
Qed.

(** What a row of well-formed tables adds is one of three things. *)
Lemma row_outcome accounts_df depletions_df (t : gmap string cell) :
  tables_ok accounts_df depletions_df = true → t ∈ rows depletions_df →
  ∃ dt,
    loop_body (entity_map (rows accounts_df)) loop_init (keyed t) = Ok dt ∧
    ((∃ r, dt = emitted r ∧
           no_mapping_entry (entity_map (rows accounts_df)) t = false) ∨
     (∃ ref, dt = not_found ref ∧
             t !! "std_account_name_for_lookup" = Some ref ∧
             no_mapping_entry (entity_map (rows accounts_df)) t = true) ∨
     (dt = rejected ∧
      no_mapping_entry (entity_map (rows accounts_df)) t = false)).
Proof.
  intros Hok Ht. set (m := entity_map (rows accounts_df)).
  destruct (tables_ok_row _ _ _ Hok Ht) as (ref & q & d & s & Href & Hq & Hd & Hs).
  assert (no_mapping_entry m t = bool_decide (m !! normalize ref = None))
    as -> by (unfold no_mapping_entry, at_col; by rewrite Href).
  eexists. split; [by apply (loop_body_keyed m t ref q d s)|].
  destruct (m !! normalize ref) as [i|].
  - destruct (py_float q) as [x|];
      [destruct (float_isna x || float_le0 x)|]; eauto.
  - right. left. by exists ref.
Qed.

(** C4.  When an entity record is the last in input order among those that
    normalize to its key (there may be any number before it), the lookup
    mapping holds that entity's identifier under the key, and every
    transaction with that key and a valid quantity is emitted with that
    identifier. *)
Theorem last_entity_wins_the_mapping_slot
    accounts_df depletions_df apre (e : gmap string cell) apost n i :
  tables_ok accounts_df depletions_df = true →
  rows accounts_df = apre ++ e :: apost →
  e !! "std_account_name" = Some n → e !! "id" = Some i →
  (∀ (e' : gmap string cell) n',
     e' ∈ apost → e' !! "std_account_name" = Some n' →
     normalize n' ≠ normalize n) →
  ∃ m,
    account_id_map_of accounts_df = Ok m ∧
    m !! normalize n = Some i ∧
    ∀ pre (t : gmap string cell) post ref q x,
      rows depletions_df = pre ++ t :: post →
      t !! "std_account_name_for_lookup" = Some ref →
      normalize ref = normalize n →
      t !! "cases" = Some q → py_float q = Some x → strictly_positive x →
      ∃ st st1 st2 r,
        reconcile (Some accounts_df) (Some depletions_df) = Ok st ∧
        reconcile (Some accounts_df) (Some (with_rows depletions_df pre))
        = Ok st1 ∧
        reconcile (Some accounts_df) (Some (with_rows depletions_df post))
        = Ok st2 ∧
        matched_depletions_data st
        = matched_depletions_data st1 ++ r :: matched_depletions_data st2 ∧
        account_id r = i.
Proof.
  intros Hok Ha Hn Hi Hlast.
  pose proof (tables_ok_elim _ _ Hok) as (Hwa & _ & Hid & Hname & _).
  assert (entity_map (rows accounts_df) !! normalize n = Some i) as Hm.
  { rewrite Ha. apply entity_map_last; [done..|].
    intros e' He'.
    assert (e' ∈ rows accounts_df) as Hin
      by (rewrite Ha; apply elem_of_app; right; by right).
    destruct (tables_ok_account _ _ _ Hok Hin) as (n' & ? & -> & _). eauto. }
  exists (entity_map (rows accounts_df)).
  split; [by apply account_id_map_of_Ok|]. split; [done|].
  intros pre t post ref q x Hd Href Hkey Hq Hx Hpos.
  assert (t ∈ rows depletions_df) as Ht
    by (rewrite Hd; apply elem_of_app; right; by left).
  destruct (tables_ok_row _ _ _ Hok Ht) as (ref' & q' & d & s & ? & ? & Hdate & Hs).
  same_cells. rewrite <- Hkey in Hm.
  destruct (matched_row_emitted accounts_df depletions_df
              pre t post ref q d s i x)
    as (st & st1 & st2 & ? & ? & ? & ?); [done..|].
  by exists st, st1, st2,
    {| account_id := i; order_date := d; cases := CFloat x; sku := s |}.
Qed.

(** C6, as amended.  The reconciled record the matching loop emits for a
    matched transaction record holds the transaction's [order_date] and
    [sku] cells unchanged, the identifier the map holds for the normalized
    name in place of the name reference, and the parsed quantity in place
    of the quantity.  In the saved frame the record at the same place holds
    [str] of that SKU and of that identifier, the same quantity, and as
    [order_date] what the date formatting makes of the column at that
    place, or the cell as read when the formatting raises. *)
Theorem matched_row_order_date_and_sku_emitted_and_saved
    (to_datetime_strftime : list cell → option (list cell))
    accounts_df depletions_df pre (t : gmap string cell) post ref
    (e : gmap string cell) n q x d s :
  tables_ok accounts_df depletions_df = true →
  rows depletions_df = pre ++ t :: post →
  t !! "std_account_name_for_lookup" = Some ref →
  e ∈ rows accounts_df → e !! "std_account_name" = Some n →
  normalize n = normalize ref →
  t !! "cases" = Some q → py_float q = Some x → strictly_positive x →
  t !! "order_date" = Some d → t !! "sku" = Some s →
  ∃ m i st st1 st2 saved,
    account_id_map_of accounts_df = Ok m ∧
    m !! normalize ref = Some i ∧
    reconcile (Some accounts_df) (Some depletions_df) = Ok st ∧
    reconcile (Some accounts_df) (Some (with_rows depletions_df pre))
    = Ok st1 ∧
    reconcile (Some accounts_df) (Some (with_rows depletions_df post))
    = Ok st2 ∧
    matched_depletions_data st
    = matched_depletions_data st1 ++
        {| account_id := i; order_date := d; cases := CFloat x; sku := s |}
        :: matched_depletions_data st2 ∧
    merge_true_supabase_ids_with_depletions to_datetime_strftime
      (Some accounts_df) (Some depletions_df) = Ok (Some saved) ∧
    match to_datetime_strftime (order_date <$> matched_depletions_data st) with
    | None =>
        saved !! length (matched_depletions_data st1)
        = Some {| account_id := CStr (astype_str i); order_date := d;
                  cases := CFloat x; sku := CStr (astype_str s) |}
    | Some formatted =>
        ∀ d', formatted !! length (matched_depletions_data st1) = Some d' →
          saved !! length (matched_depletions_data st1)
          = Some {| account_id := CStr (astype_str i); order_date := d';
                    cases := CFloat x; sku := CStr (astype_str s) |}
    end.
Proof.
  intros Hok Hd Href He Hn Hkey Hq Hx Hpos Hdate Hs.
  pose proof (tables_ok_elim _ _ Hok) as (Hwa & _ & Hid & Hname & _).
  destruct (entity_map_elem (rows accounts_df) e He) as [i Hi].
  unfold at_col in Hi. rewrite Hn in Hi. cbn in Hi. rewrite Hkey in Hi.
  destruct (matched_row_emitted accounts_df depletions_df
              pre t post ref q d s i x)
    as (st & st1 & st2 & Hst & Hst1 & Hst2 & Hm); [done..|].
  set (r0 := {| account_id := i; order_date := d; cases := CFloat x;
                sku := s |}) in *.
  assert (matched_depletions_data st !! length (matched_depletions_data st1)
          = Some r0) as Hr0 by (rewrite Hm; by apply list_lookup_middle).
  exists (entity_map (rows accounts_df)), i, st, st1, st2,
    (ensure_types to_datetime_strftime (matched_depletions_data st)).
  split; [by apply account_id_map_of_Ok|]. split_and!; [done..| |].
  - unfold merge_true_supabase_ids_with_depletions. rewrite Hst.
    change (Ok st ≫= ?f) with (f st). cbv beta.
    destruct (matched_depletions_data st) eqn:Hdata; [|done].
    by rewrite lookup_nil in Hr0.
  - unfold ensure_types.
    destruct (to_datetime_strftime
                (order_date <$> matched_depletions_data st)) as [formatted|].
    + intros d' Hd'. rewrite lookup_zip_with, Hr0. cbn [mbind option_bind].
      by rewrite Hd'.
    + rewrite lookup_zip_with, Hr0. cbn [mbind option_bind].
      by rewrite list_lookup_fmap, Hr0.
Qed.

(** C7.  Every transaction record gets exactly one of the three outcomes:
    what it adds to the accumulators is one emitted record, or its name in
    the unmatched names, or one on the invalid count; and the length of the
    matched output, plus the number of input rows whose normalized name has
    no mapping entry, plus the invalid count, is the number of transaction
    records. *)
Theorem every_row_gets_exactly_one_outcome accounts_df depletions_df :
  tables_ok accounts_df depletions_df = true →
  ∃ m st,
    account_id_map_of accounts_df = Ok m ∧
    reconcile (Some accounts_df) (Some depletions_df) = Ok st ∧
    length (matched_depletions_data st)
    + length (filter (fun t => no_mapping_entry m t = true)
                (rows depletions_df))
    + skipped_due_to_invalid_cases st
    = length (rows depletions_df) ∧
    ∀ pre (t : gmap string cell) post,
      rows depletions_df = pre ++ t :: post →
      ∃ st1 dt st2,
        reconcile (Some accounts_df) (Some (with_rows depletions_df pre))
        = Ok st1 ∧
        reconcile (Some accounts_df) (Some (with_rows depletions_df post))
        = Ok st2 ∧
        st = state_app st1 (state_app dt st2) ∧
        ((∃ r, dt = emitted r ∧ no_mapping_entry m t = false) ∨
         (∃ ref, dt = not_found ref ∧
                 t !! "std_account_name_for_lookup" = Some ref ∧
                 no_mapping_entry m t = true) ∨
         (dt = rejected ∧ no_mapping_entry m t = false)).
Proof.
  intros Hok.
  pose proof (tables_ok_elim _ _ Hok) as (Hwa & _ & Hid & Hname & _).
  destruct (loop_count accounts_df depletions_df (rows depletions_df) Hok)
    as (st & Hst & Hcount); [done|].
  exists (entity_map (rows accounts_df)), st.
  split; [by apply account_id_map_of_Ok|].
  rewrite <- (reconcile_tables_ok _ _ Hok) in Hst.
  split; [done|]. split; [done|].
  intros pre t post Hd.
  destruct (reconcile_parts _ _ pre t post Hok Hd)
    as (st1 & dt & st2 & Hst1 & Hst2 & Hdt & Hst').
  assert (t ∈ rows depletions_df) as Ht
    by (rewrite Hd; apply elem_of_app; right; by left).
  destruct (row_outcome _ _ t Hok Ht) as (dt' & Hdt' & Hshape).
  rewrite Hdt in Hdt'. injection Hdt' as <-.
  exists st1, dt, st2. split_and!; [done|done| |done]. congruence.
Qed.

(** A run reads the two input files and nothing else. *)
Lemma run_result to_datetime_strftime writable
    (fs : gmap string DataFrame) :
  (merge_true_supabase_ids_run to_datetime_strftime writable fs).1
  = reconcile (fs !! accounts_file_name) (fs !! depletions_file_name).
Proof.
  unfold merge_true_supabase_ids_run. cbv zeta.
  destruct (reconcile _ _) as [st| |]; [|done..].
  destruct (matched_depletions_data st); [done|]. by destruct writable.
Qed.

(** A run writes the output file and no other. *)
Lemma run_files to_datetime_strftime writable
    (fs : gmap string DataFrame) name :
  name ≠ output_file_name →
  (merge_true_supabase_ids_run to_datetime_strftime writable fs).2 !! name
  = fs !! name.
Proof.
  intros Hne. unfold merge_true_supabase_ids_run. cbv zeta.
  destruct (reconcile _ _) as [st| |]; [|done..].
  destruct (matched_depletions_data st); [done|].
  destruct writable; [|done].
  simpl. by rewrite lookup_insert_ne by congruence.
Qed.

(** After a run that wrote its output, a second run leaves the files as
    they are. *)
Lemma run_again to_datetime_strftime writable
    (fs : gmap string DataFrame) :
  (merge_true_supabase_ids_run to_datetime_strftime writable
     (merge_true_supabase_ids_run to_datetime_strftime true fs).2).2
  = (merge_true_supabase_ids_run to_datetime_strftime true fs).2.
Proof.
  pose proof (run_files to_datetime_strftime true fs accounts_file_name
                ltac:(done)) as Ha.
  pose proof (run_files to_datetime_strftime true fs depletions_file_name
                ltac:(done)) as Hd.
  unfold merge_true_supabase_ids_run at 1. cbv zeta. rewrite Ha, Hd.
  unfold merge_true_supabase_ids_run. cbv zeta.
  destruct (reconcile _ _) as [st| |]; [|done..].
  destruct (matched_depletions_data st) as [|r data]; [done|].
  simpl. destruct writable; [|done]. by rewrite insert_insert_eq.
Qed.

(** C8.  The outcome of a run is decided by the two input files alone:
    whatever else the runs find, an output file of an earlier run among it,
    and whether or not they can write, two runs on the same entity and
    transaction inputs end in the same accumulators or the same failure.  A
    run leaves its inputs as they were, so a second run after a first gives
    the same matched output, element for element in order and in values,
    and writes the same output file. *)
Theorem runs_on_the_same_inputs_match_the_same
    (to_datetime_strftime : list cell → option (list cell))
    (writable1 writable2 : bool) (fs1 fs2 : gmap string DataFrame) :
  fs1 !! accounts_file_name = fs2 !! accounts_file_name →
  fs1 !! depletions_file_name = fs2 !! depletions_file_name →
  let first := merge_true_supabase_ids_run to_datetime_strftime
                 writable1 fs1 in
  let other := merge_true_supabase_ids_run to_datetime_strftime
                 writable2 fs2 in
  let second := merge_true_supabase_ids_run to_datetime_strftime
                  writable2 first.2 in
  other.1 = first.1 ∧
  first.2 !! accounts_file_name = fs1 !! accounts_file_name ∧
  first.2 !! depletions_file_name = fs1 !! depletions_file_name ∧
  second.1 = first.1 ∧
  (∀ st1 st2, first.1 = Ok st1 → second.1 = Ok st2 →
     matched_depletions_data st1 = matched_depletions_data st2 ∧
     ∀ k, matched_depletions_data st1 !! k
          = matched_depletions_data st2 !! k) ∧
  (writable1 = true → second.2 = first.2).
Proof.
  intros Ha Hd first other second.
  assert (first.2 !! accounts_file_name = fs1 !! accounts_file_name) as Ha1
    by by apply run_files.
  assert (first.2 !! depletions_file_name = fs1 !! depletions_file_name)
    as Hd1 by by apply run_files.
  assert (second.1 = first.1) as Hsame.
  { unfold second. rewrite run_result, Ha1, Hd1. symmetry. apply run_result. }
  split_and!; [|done|done|done| |].
  - unfold other, first. by rewrite !run_result, Ha, Hd.
  - intros st1 st2 H1 H2. rewrite Hsame, H1 in H2. by injection H2 as <-.
  - intros ->. apply run_again.
Qed.

(** C5, as amended.  On well-formed tables that carry the six columns the
    script reads, the run never raises: every row adds one emitted record,
    or its name to the unmatched names, or one to the invalid count, and
    the rows before and after it are processed all the same.  A run on
    well-formed tables fails only when one of the six columns is absent.
    When one of the three columns checked up front ([id],
    [std_account_name], [std_account_name_for_lookup]) is absent, the run
    stops with the same critical error whatever the depletion rows are:
    no row is processed. *)
Theorem reconcile_failure_modes accounts_df depletions_df :
  df_wf accounts_df = true → df_wf depletions_df = true →
  (tables_ok accounts_df depletions_df = true →
   ∃ st,
     reconcile (Some accounts_df) (Some depletions_df) = Ok st ∧
     ∀ pre (t : gmap string cell) post,
       rows depletions_df = pre ++ t :: post →
       ∃ st1 dt st2,
         reconcile (Some accounts_df) (Some (with_rows depletions_df pre))
         = Ok st1 ∧
         reconcile (Some accounts_df) (Some (with_rows depletions_df post))
         = Ok st2 ∧
         st = state_app st1 (state_app dt st2) ∧
         ((∃ r, dt = emitted r) ∨ (∃ ref, dt = not_found ref) ∨
          dt = rejected)) ∧
  ((∀ st, reconcile (Some accounts_df) (Some depletions_df) ≠ Ok st) →
   has_column accounts_df "id" = false ∨
   has_column accounts_df "std_account_name" = false ∨
   has_column depletions_df "std_account_name_for_lookup" = false ∨
   has_column depletions_df "cases" = false ∨
   has_column depletions_df "order_date" = false ∨
   has_column depletions_df "sku" = false) ∧
  (has_column accounts_df "id" = false ∨
   has_column accounts_df "std_account_name" = false ∨
   has_column depletions_df "std_account_name_for_lookup" = false →
   ∃ c, ∀ rs,
     reconcile (Some accounts_df) (Some (with_rows depletions_df rs))
     = Stop c).
Proof.
  intros Hwa Hwd.
  assert (tables_ok accounts_df depletions_df = true →
          ∃ st, reconcile (Some accounts_df) (Some depletions_df) = Ok st)
    as Htotal.
  { intros Hok. rewrite reconcile_tables_ok by done.
    by apply (iterrows_loop_total accounts_df depletions_df). }
  split_and!.
  - intros Hok. destruct (Htotal Hok) as [st Hst]. exists st.
    split; [done|]. intros pre t post Hd.
    destruct (reconcile_parts _ _ pre t post Hok Hd)
      as (st1 & dt & st2 & Hst1 & Hst2 & Hdt & Hst').
    assert (t ∈ rows depletions_df) as Ht
      by (rewrite Hd; apply elem_of_app; right; by left).
    destruct (row_outcome _ _ t Hok Ht) as (dt' & Hdt' & Hshape).
    rewrite Hdt in Hdt'. injection Hdt' as <-.
    exists st1, dt, st2. split_and!; [done|done|congruence|].
    destruct Hshape as [(r & -> & _)|[(ref & -> & _)|[-> _]]]; eauto.
  - intros Hfail.
    destruct (has_column accounts_df "id") eqn:H1; [|tauto].
    destruct (has_column accounts_df "std_account_name") eqn:H2; [|tauto].
    destruct (has_column depletions_df "std_account_name_for_lookup") eqn:H3;
      [|tauto].
    destruct (has_column depletions_df "cases") eqn:H4; [|tauto].
    destruct (has_column depletions_df "order_date") eqn:H5; [|tauto].
    destruct (has_column depletions_df "sku") eqn:H6; [|tauto].
    destruct Htotal as [st Hst].
    + unfold tables_ok. by rewrite Hwa, Hwd, H1, H2, H3, H4, H5, H6.
    + by destruct (Hfail st).
  - intros Habsent.
    destruct (has_column accounts_df "id") eqn:H1.
    2:{ exists IdColumnMissing. intros rs. unfold reconcile. by rewrite H1. }
    destruct (has_column accounts_df "std_account_name") eqn:H2.
    2:{ exists StdAccountNameColumnMissing. intros rs. unfold reconcile.
        by rewrite H1, H2. }
    destruct (has_column depletions_df "std_account_name_for_lookup") eqn:H3.
    2:{ exists LookupColumnMissing. intros rs. unfold reconcile.
        rewrite H1, H2. cbn.
        replace (has_column (with_rows depletions_df rs)
                   "std_account_name_for_lookup") with false; done. }
    by destruct Habsent as [?|[?|?]].
Qed.

End Reconciliation.

(** ** The typing of the saved frame *)

(** Step 7 leaves a matched list as it is when the identifiers and the SKUs
    are strings and the date formatting gives the column back (as on dates
    already written YYYY-MM-DD) or raises. *)
Lemma ensure_types_keeps_typed_rows `{PyRuntime}
    (to_datetime_strftime : list cell → option (list cell))
    (data : list matched_row) :
  to_datetime_strftime (order_date <$> data) = None ∨
  to_datetime_strftime (order_date <$> data) = Some (order_date <$> data) →
  Forall (fun r => ∃ a s, account_id r = CStr a ∧ sku r = CStr s) data →
  ensure_types to_datetime_strftime data = data.
Proof.
  intros Hdates Htyped. unfold ensure_types.
  assert (match to_datetime_strftime (order_date <$> data) with
          | Some formatted => formatted
          | None => order_date <$> data
          end = order_date <$> data) as ->
    by (by destruct Hdates as [-> | ->]).
  clear Hdates. induction Htyped as [|r data (a & s & Ha & Hs) _ IH]; [done|].
  cbn. rewrite IH. f_equal. destruct r as [ra rd rc rs]. cbn in *.
  by subst.
Qed.

(** ** The examples of the specification *)

Example spec_example_joes_bar :
  reconcile (H:=Sample.runtime) (Some Frames.joes)
    (Some (Frames.depletions_of [Frames.joe_3]))
  = Ok (emitted {| account_id := CStr "A1"; order_date := CStr "2024-04-01";
                   cases := CFloat Frames.three; sku := CStr "X" |}).
Proof. reflexivity. Qed.

Example spec_example_unknown_store :
  reconcile (H:=Sample.runtime) (Some Frames.joes)
    (Some (Frames.depletions_of [Frames.unknown_5]))
  = Ok (not_found (CStr "Unknown Store")).
Proof. reflexivity. Qed.

Example spec_example_zero_quantity :
  reconcile (H:=Sample.runtime) (Some Frames.joes)
    (Some (Frames.depletions_of [Frames.joe_0]))
  = Ok rejected.
Proof. reflexivity. Qed.

(** ** The unpivot step *)

Lemma mapM_Ok_Forall2 {A B} (f : A → run B) (l : list A) (ys : list B) :
  mapM f l = Ok ys → Forall2 (fun x y => f x = Ok y) l ys.
Proof.
  revert ys. induction l as [|x l IH]; intros ys Hl; cbn in Hl.
  - injection Hl as <-. constructor.
  - apply bind_Ok in Hl as (y & Hy & Hl).
    apply bind_Ok in Hl as (ys' & Hys' & Hl). injection Hl as <-.
    constructor; [done|by apply IH].
Qed.

Module UnpivotFacts.
Import Datetime Unpivot.

Lemma month_df_order_date df month_col order_date block :
  month_df df month_col order_date = Ok block →
  ∀ row : gmap string cell,
    row ∈ block → row !! "order_date" = Some (CStr order_date).
Proof.
  unfold month_df. intros Hblock row Hrow.
  apply bind_Ok in Hblock as (month_rows & Hrows & Hblock).
  injection Hblock as <-.
  apply list_elem_of_fmap in Hrow as ([c row'] & -> & Hin).
  apply list_elem_of_filter in Hin as [_ Hin].
  apply mapM_Ok_Forall2 in Hrows.
  apply list_elem_of_lookup in Hin as [k Hk].
  destruct (Forall2_lookup_r _ _ _ _ _ Hrows Hk) as (src & _ & Hsrc).
  apply bind_Ok in Hsrc as (name & _ & Hsrc).
  apply bind_Ok in Hsrc as (c' & _ & Hsrc).
  injection Hsrc as <- <-. cbn.
  rewrite lookup_insert_ne by done. apply lookup_insert_eq.
Qed.

Lemma month_loop_blocks df start_date month_columns :
  ∀ i depletions_data out,
    month_loop df start_date i month_columns depletions_data = Ok out →
    ∃ blocks,
      out = depletions_data ++ blocks ∧
      Forall2
        (fun ic block =>
           ∃ d, add_days start_date (30 * Z.of_nat ic.1) = Some d ∧
                month_df df ic.2 (strftime d) = Ok block)
        (month_indices_from df i month_columns) blocks.
Proof.
  unfold month_indices_from.
  induction month_columns as [|month_col rest IH]; intros i acc out Hloop.
  - cbn in Hloop. injection Hloop as <-. exists []. split.
    + by rewrite app_nil_r.
    + constructor.
  - cbn in Hloop. cbn [length seq zip zip_with].
    destruct (has_column df month_col) eqn:Hcol; cbn in Hloop.
    + rewrite filter_cons_True by done.
      destruct (add_days start_date (30 * Z.of_nat i)) as [d|] eqn:Hd;
        cbn in Hloop; [|done].
      apply bind_Ok in Hloop as (frame & Hframe & Hloop).
      destruct (IH _ _ _ Hloop) as (blocks & -> & Hblocks).
      exists (frame :: blocks). split; [by rewrite <- app_assoc|].
      constructor; [by exists d|done].
    + rewrite filter_cons_False by (cbn; congruence).
      by apply IH.
Qed.

End UnpivotFacts.

(** C9.  Every row that the unpivot step emits for the month column at
    index [i] (counted from 0 in [month_columns]) has as its [order_date]
    the start date plus [30 * i] days, formatted YYYY-MM-DD.  With the start
    2024-04-01 the third month column is dated 2024-05-31, which is not
    2024-06-01, the first day of the third calendar month. *)
Theorem order_date_is_start_plus_30_days_per_column :
  (∀ df start_date_str month_columns accounts_df depletions_df,
     Unpivot.process_vip_export df start_date_str month_columns
     = Ok (accounts_df, depletions_df) →
     ∃ start_date blocks,
       Datetime.strptime start_date_str = Some start_date ∧
       rows depletions_df = concat blocks ∧
       Forall2
         (fun ic block =>
            ∃ d,
              Datetime.add_days start_date (30 * Z.of_nat ic.1) = Some d ∧
              Unpivot.month_df df ic.2 (Datetime.strftime d) = Ok block ∧
              ∀ row : gmap string cell,
                row ∈ block →
                row !! "order_date" = Some (CStr (Datetime.strftime d)))
         (Unpivot.month_indices_from df 0 month_columns) blocks) ∧
  (∃ accounts_df depletions_df,
     Unpivot.process_vip_export Frames.export "2024-04-01"
       ["9L"; "9L.1"; "9L.2"]
     = Ok (accounts_df, depletions_df) ∧
     at_col "order_date" <$> rows depletions_df
     = [CStr "2024-04-01"; CStr "2024-05-01"; CStr "2024-05-31"] ∧
     CStr "2024-05-31" ≠ CStr "2024-06-01").
Proof.
  split.
  - intros df start cols a d Hrun. unfold Unpivot.process_vip_export in Hrun.
    apply bind_Ok in Hrun as (_ & _ & Hrun).
    apply bind_Ok in Hrun as (accounts_rows & _ & Hrun). cbn zeta in Hrun.
    destruct (Datetime.strptime start) as [d0|]; [|done]. cbn in Hrun.
    apply bind_Ok in Hrun as (data & Hloop & Hrun).
    apply UnpivotFacts.month_loop_blocks in Hloop as (blocks & -> & Hblocks).
    exists d0, blocks. split; [done|]. split.
    + destruct blocks; [done|]. by injection Hrun as _ <-.
    + eapply Forall2_impl; [exact Hblocks|].
      intros [i col] block (dt & Hdt & Hblock). exists dt.
      split_and!; [done..|].
      by apply (UnpivotFacts.month_df_order_date df col).
  - eexists _, _. split; [vm_compute; reflexivity|]. by vm_compute.
Qed.

(** ** The two joins compared *)

(** C10.  The two joins are not equivalent.  On a name that differs from
    the account's name in letter case and a trailing blank, the join of
    [add_account_ids.py] emits the row and the join of
    [merge_account_ids.py] skips it; on an exactly matching name with
    quantity 0, the first skips the row as invalid and the second emits it
    with the quantity as read. *)
Theorem the_two_joins_differ :
  (∀ uuid4, ∃ st out,
     reconcile (Some Frames.joes) (Some (Frames.depletions_of [Frames.joe_3]))
     = Ok st ∧
     merge_account_ids_with_depletions uuid4
       (Some Frames.joes) (Some (Frames.depletions_of [Frames.joe_3]))
     = Ok out ∧
     matched_depletions_data st
     = [ {| account_id := CStr "A1"; order_date := CStr "2024-04-01";
            cases := CFloat Frames.three; sku := CStr "X" |} ] ∧
     out = ([], 1) ∧
     matched_depletions_data st ≠ out.1) ∧
  (∀ uuid4, ∃ st out,
     reconcile (Some Frames.joes) (Some (Frames.depletions_of [Frames.joe_0]))
     = Ok st ∧
     merge_account_ids_with_depletions uuid4
       (Some Frames.joes) (Some (Frames.depletions_of [Frames.joe_0]))
     = Ok out ∧
     matched_depletions_data st = [] ∧
     skipped_due_to_invalid_cases st = 1 ∧
     out = ([ {| account_id := CStr "A1"; order_date := CStr "2024-04-01";
                 cases := CStr "0"; sku := CStr "X" |} ], 0) ∧
     matched_depletions_data st ≠ out.1).
Proof.
  split; intros uuid4.
  - eexists _, _. split; [vm_compute; reflexivity|].
    split; [vm_compute; reflexivity|]. by vm_compute.
  - eexists _, _. split; [vm_compute; reflexivity|].
    split; [vm_compute; reflexivity|]. by vm_compute.
Qed.

(** ** The claims on sample frames *)

(** The account rows of a sample frame, one by one. *)
Ltac each_account He :=
  repeat (apply elem_of_cons in He as [->|He]);
  [..|by apply elem_of_nil in He].

(** The claim C1 as first stated fails when two entities share a normalized
    name: the entity [A1] and the transaction have equal normalized names,
    yet the record emitted for the transaction carries [A2]. *)
Lemma first_of_two_same_named_entities_loses :
  ∃ st r,
    Frames.account "A1" "Joe's Bar" ∈ rows Frames.two_joes ∧
    Frames.account "A1" "Joe's Bar" !! "id" = Some (CStr "A1") ∧
    normalize (H:=Sample.runtime) (CStr "Joe's Bar")
    = normalize (H:=Sample.runtime) (CStr "joe's bar ") ∧
    reconcile (H:=Sample.runtime) (Some Frames.two_joes)
      (Some (Frames.depletions_of [Frames.joe_3])) = Ok st ∧
    matched_depletions_data st = [r] ∧
    account_id r = CStr "A2" ∧
    account_id r ≠ CStr "A1".
Proof.
  eexists _, _. split; [by left|]. split; [reflexivity|].
  split; [reflexivity|]. split; [vm_compute; reflexivity|].
  split; [reflexivity|]. split; [reflexivity|]. by vm_compute.
Qed.

Lemma last_matching_entity_gives_account_id_witness :
  ∃ st st1 st2 r,
    reconcile (H:=Sample.runtime) (Some Frames.two_joes) (Some Frames.mixed)
    = Ok st ∧
    reconcile (H:=Sample.runtime) (Some Frames.two_joes)
      (Some (with_rows Frames.mixed [])) = Ok st1 ∧
    reconcile (H:=Sample.runtime) (Some Frames.two_joes)
      (Some (with_rows Frames.mixed [Frames.unknown_5; Frames.joe_0]))
    = Ok st2 ∧
    matched_depletions_data st
    = matched_depletions_data st1 ++ r :: matched_depletions_data st2 ∧
    account_id r = CStr "A2".
Proof.
  apply (proj1 (last_matching_entity_gives_account_id (H:=Sample.runtime))
           Frames.two_joes Frames.mixed
           [Frames.account "A1" "Joe's Bar"]
           (Frames.account "A2" "joe's bar ") []
           (CStr "joe's bar ") (CStr "A2")
           [] Frames.joe_3 [Frames.unknown_5; Frames.joe_0]
           (CStr "joe's bar ") (CStr "3") Frames.three).
  - reflexivity.
  - reflexivity.
  - reflexivity.
  - reflexivity.
  - intros e' n' He'. by apply elem_of_nil in He'.
  - reflexivity.
  - reflexivity.
  - reflexivity.
  - reflexivity.
  - reflexivity.
  - reflexivity.
Defined.

Lemma unmatched_row_is_dropped_and_recorded_witness :
  ∃ st st1 st2,
    reconcile (H:=Sample.runtime) (Some Frames.joes) (Some Frames.mixed)
    = Ok st ∧
    reconcile (H:=Sample.runtime) (Some Frames.joes)
      (Some (with_rows Frames.mixed [Frames.joe_3])) = Ok st1 ∧
    reconcile (H:=Sample.runtime) (Some Frames.joes)
      (Some (with_rows Frames.mixed [Frames.joe_0])) = Ok st2 ∧
    matched_depletions_data st
    = matched_depletions_data st1 ++ matched_depletions_data st2 ∧
    CStr "Unknown Store" ∈ unmatched_account_names st ∧
    skipped_due_to_invalid_cases st
    = skipped_due_to_invalid_cases st1 + skipped_due_to_invalid_cases st2.
Proof.
  apply (unmatched_row_is_dropped_and_recorded (H:=Sample.runtime)
           Frames.joes Frames.mixed
           [Frames.joe_3] Frames.unknown_5 [Frames.joe_0]
           (CStr "Unknown Store")).
  - reflexivity.
  - reflexivity.
  - reflexivity.
  - intros e n He Hn. each_account He.
    vm_compute in Hn. injection Hn as <-. by vm_compute.
Defined.

Lemma invalid_quantity_is_skipped_once_witness :
  ∃ st st1 st2,
    reconcile (H:=Sample.runtime) (Some Frames.joes) (Some Frames.mixed)
    = Ok st ∧
    reconcile (H:=Sample.runtime) (Some Frames.joes)
      (Some (with_rows Frames.mixed [Frames.joe_3; Frames.unknown_5]))
    = Ok st1 ∧
    reconcile (H:=Sample.runtime) (Some Frames.joes)
      (Some (with_rows Frames.mixed [])) = Ok st2 ∧
    matched_depletions_data st
    = matched_depletions_data st1 ++ matched_depletions_data st2 ∧
    skipped_due_to_invalid_cases st
    = skipped_due_to_invalid_cases st1 + 1 + skipped_due_to_invalid_cases st2 ∧
    unmatched_account_names st
    = unmatched_account_names st1 ∪ unmatched_account_names st2 ∧
    ∀ r, r ∈ matched_depletions_data st →
      ∃ x, cases r = CFloat x ∧ strictly_positive x.
Proof.
  apply (invalid_quantity_is_skipped_once (H:=Sample.runtime)
           Frames.joes Frames.mixed
           [Frames.joe_3; Frames.unknown_5] Frames.joe_0 []
           (CStr "Joe's Bar") (Frames.account "A1" "Joe's Bar")
           (CStr "Joe's Bar") (CStr "0")).
  - reflexivity.
  - reflexivity.
  - reflexivity.
  - by left.
  - reflexivity.
  - reflexivity.
  - reflexivity.
  - right. reflexivity.
Defined.

Lemma last_entity_wins_the_mapping_slot_witness :
  ∃ m,
    account_id_map_of (H:=Sample.runtime) Frames.two_joes = Ok m ∧
    m !! normalize (H:=Sample.runtime) (CStr "joe's bar ") = Some (CStr "A2") ∧
    ∀ pre (t : gmap string cell) post ref q x,
      rows Frames.mixed = pre ++ t :: post →
      t !! "std_account_name_for_lookup" = Some ref →
      normalize (H:=Sample.runtime) ref
      = normalize (H:=Sample.runtime) (CStr "joe's bar ") →
      t !! "cases" = Some q →
      py_float (H:=Sample.runtime) q = Some x → strictly_positive x →
      ∃ st st1 st2 r,
        reconcile (H:=Sample.runtime) (Some Frames.two_joes)
          (Some Frames.mixed) = Ok st ∧
        reconcile (H:=Sample.runtime) (Some Frames.two_joes)
          (Some (with_rows Frames.mixed pre)) = Ok st1 ∧
        reconcile (H:=Sample.runtime) (Some Frames.two_joes)
          (Some (with_rows Frames.mixed post)) = Ok st2 ∧
        matched_depletions_data st
        = matched_depletions_data st1 ++ r :: matched_depletions_data st2 ∧
        account_id r = CStr "A2".
Proof.
  apply (last_entity_wins_the_mapping_slot (H:=Sample.runtime)
           Frames.two_joes Frames.mixed
           [Frames.account "A1" "Joe's Bar"]
           (Frames.account "A2" "joe's bar ") []
           (CStr "joe's bar ") (CStr "A2")).
  - reflexivity.
  - reflexivity.
  - reflexivity.
  - reflexivity.
  - intros e' n' He'. by apply elem_of_nil in He'.
Defined.

(** The claim C5 as first stated fails on a depletions file without the
    [cases] column: no check stops the run up front.  With an unknown name
    and then a known one, the loop records the first row and raises
    [KeyError] at the second; with the unknown name alone the run ends
    normally. *)
Lemma absent_cases_column_is_met_inside_the_loop :
  df_wf Frames.joes = true ∧
  df_wf (Frames.no_cases [Frames.unknown_5; Frames.joe_3]) = true ∧
  has_column (Frames.no_cases [Frames.unknown_5; Frames.joe_3]) "cases"
  = false ∧
  reconcile (H:=Sample.runtime) (Some Frames.joes)
    (Some (Frames.no_cases [Frames.unknown_5; Frames.joe_3]))
  = Raise (KeyError "cases") ∧
  reconcile (H:=Sample.runtime) (Some Frames.joes)
    (Some (Frames.no_cases [Frames.unknown_5]))
  = Ok (not_found (CStr "Unknown Store")) ∧
  ¬ ∃ c, ∀ rs,
      reconcile (H:=Sample.runtime) (Some Frames.joes)
        (Some (with_rows (Frames.no_cases [Frames.unknown_5; Frames.joe_3])
                 rs))
      = Stop c.
Proof.
  split_and!; try reflexivity.
  intros [c Hc]. specialize (Hc []). by vm_compute in Hc.
Qed.

Lemma reconcile_failure_modes_witness :
  (tables_ok Frames.joes Frames.mixed = true →
   ∃ st,
     reconcile (H:=Sample.runtime) (Some Frames.joes) (Some Frames.mixed)
     = Ok st ∧
     ∀ pre (t : gmap string cell) post,
       rows Frames.mixed = pre ++ t :: post →
       ∃ st1 dt st2,
         reconcile (H:=Sample.runtime) (Some Frames.joes)
           (Some (with_rows Frames.mixed pre)) = Ok st1 ∧
         reconcile (H:=Sample.runtime) (Some Frames.joes)
           (Some (with_rows Frames.mixed post)) = Ok st2 ∧
         st = state_app st1 (state_app dt st2) ∧
         ((∃ r, dt = emitted r) ∨ (∃ ref, dt = not_found ref) ∨
          dt = rejected)) ∧
  ((∀ st, reconcile (H:=Sample.runtime) (Some Frames.joes)
            (Some Frames.mixed) ≠ Ok st) →
   has_column Frames.joes "id" = false ∨
   has_column Frames.joes "std_account_name" = false ∨
   has_column Frames.mixed "std_account_name_for_lookup" = false ∨
   has_column Frames.mixed "cases" = false ∨
   has_column Frames.mixed "order_date" = false ∨
   has_column Frames.mixed "sku" = false) ∧
  (has_column Frames.joes "id" = false ∨
   has_column Frames.joes "std_account_name" = false ∨
   has_column Frames.mixed "std_account_name_for_lookup" = false →
   ∃ c, ∀ rs,
     reconcile (H:=Sample.runtime) (Some Frames.joes)
       (Some (with_rows Frames.mixed rs)) = Stop c).
Proof.
  apply (reconcile_failure_modes (H:=Sample.runtime)
           Frames.joes Frames.mixed).
  - reflexivity.
  - reflexivity.
Defined.

(** The claim C6 as first stated fails on the saved record: the date
    written month first is saved as [2024-04-03], and the SKU read as the
    number 7 is saved as the string [7]. *)
Lemma saved_record_has_another_order_date_and_sku :
  ∃ t st r,
    rows Frames.slash_depletions = [t] ∧
    t !! "order_date" = Some (CStr "04/03/2024") ∧
    t !! "sku" = Some (CInt 7) ∧
    reconcile (H:=Sample.runtime) (Some Frames.joes)
      (Some Frames.slash_depletions) = Ok st ∧
    length (matched_depletions_data st) = 1 ∧
    merge_true_supabase_ids_with_depletions (H:=Sample.runtime)
      Sample.to_datetime_strftime
      (Some Frames.joes) (Some Frames.slash_depletions) = Ok (Some [r]) ∧
    order_date r = CStr "2024-04-03" ∧
    sku r = CStr "7" ∧
    t !! "order_date" ≠ Some (order_date r) ∧
    t !! "sku" ≠ Some (sku r).
Proof.
  eexists _, _, _. split; [reflexivity|]. split; [reflexivity|].
  split; [reflexivity|]. split; [vm_compute; reflexivity|].
  split; [reflexivity|]. split; [vm_compute; reflexivity|].
  split; [reflexivity|]. split; [reflexivity|]. split; by vm_compute.
Qed.

Lemma matched_row_order_date_and_sku_emitted_and_saved_witness :
  ∃ m i st st1 st2 saved,
    account_id_map_of (H:=Sample.runtime) Frames.joes = Ok m ∧
    m !! normalize (H:=Sample.runtime) (CStr "Joe's Bar") = Some i ∧
    reconcile (H:=Sample.runtime) (Some Frames.joes)
      (Some Frames.slash_depletions) = Ok st ∧
    reconcile (H:=Sample.runtime) (Some Frames.joes)
      (Some (with_rows Frames.slash_depletions [])) = Ok st1 ∧
    reconcile (H:=Sample.runtime) (Some Frames.joes)
      (Some (with_rows Frames.slash_depletions [])) = Ok st2 ∧
    matched_depletions_data st
    = matched_depletions_data st1 ++
        {| account_id := i; order_date := CStr "04/03/2024";
           cases := CFloat (FFin (Q2Qc (inject_Z 2))); sku := CInt 7 |}
        :: matched_depletions_data st2 ∧
    merge_true_supabase_ids_with_depletions (H:=Sample.runtime)
      Sample.to_datetime_strftime
      (Some Frames.joes) (Some Frames.slash_depletions) = Ok (Some saved) ∧
    match Sample.to_datetime_strftime
            (order_date <$> matched_depletions_data st) with
    | None =>
        saved !! length (matched_depletions_data st1)
        = Some {| account_id := CStr (astype_str (H:=Sample.runtime) i);
                  order_date := CStr "04/03/2024";
                  cases := CFloat (FFin (Q2Qc (inject_Z 2)));
                  sku := CStr (astype_str (H:=Sample.runtime) (CInt 7)) |}
    | Some formatted =>
        ∀ d', formatted !! length (matched_depletions_data st1) = Some d' →
          saved !! length (matched_depletions_data st1)
          = Some {| account_id := CStr (astype_str (H:=Sample.runtime) i);
                    order_date := d';
                    cases := CFloat (FFin (Q2Qc (inject_Z 2)));
                    sku := CStr (astype_str (H:=Sample.runtime) (CInt 7)) |}
    end.
Proof.
  apply (matched_row_order_date_and_sku_emitted_and_saved
           (H:=Sample.runtime) Sample.to_datetime_strftime
           Frames.joes Frames.slash_depletions
           []
           {[ "std_account_name_for_lookup" := CStr "Joe's Bar";
              "order_date" := CStr "04/03/2024";
              "cases" := CInt 2;
              "sku" := CInt 7 ]}
           []
           (CStr "Joe's Bar") (Frames.account "A1" "Joe's Bar")
           (CStr "Joe's Bar") (CInt 2) (FFin (Q2Qc (inject_Z 2)))
           (CStr "04/03/2024") (CInt 7)).
  - reflexivity.
  - reflexivity.
  - reflexivity.
  - by left.
  - reflexivity.
  - reflexivity.
  - reflexivity.
  - reflexivity.
  - reflexivity.
  - reflexivity.
  - reflexivity.
Defined.

Lemma every_row_gets_exactly_one_outcome_witness :
  ∃ m st,
    account_id_map_of (H:=Sample.runtime) Frames.joes = Ok m ∧
    reconcile (H:=Sample.runtime) (Some Frames.joes) (Some Frames.mixed)
    = Ok st ∧
    length (matched_depletions_data st)
    + length (filter (fun t => no_mapping_entry (H:=Sample.runtime) m t = true)
                (rows Frames.mixed))
    + skipped_due_to_invalid_cases st
    = length (rows Frames.mixed) ∧
    ∀ pre (t : gmap string cell) post,
      rows Frames.mixed = pre ++ t :: post →
      ∃ st1 dt st2,
        reconcile (H:=Sample.runtime) (Some Frames.joes)
          (Some (with_rows Frames.mixed pre)) = Ok st1 ∧
        reconcile (H:=Sample.runtime) (Some Frames.joes)
          (Some (with_rows Frames.mixed post)) = Ok st2 ∧
        st = state_app st1 (state_app dt st2) ∧
        ((∃ r, dt = emitted r ∧
               no_mapping_entry (H:=Sample.runtime) m t = false) ∨
         (∃ ref, dt = not_found ref ∧
                 t !! "std_account_name_for_lookup" = Some ref ∧
                 no_mapping_entry (H:=Sample.runtime) m t = true) ∨
         (dt = rejected ∧ no_mapping_entry (H:=Sample.runtime) m t = false)).
Proof.
  apply (every_row_gets_exactly_one_outcome (H:=Sample.runtime)
           Frames.joes Frames.mixed).
  reflexivity.
Defined.

Lemma runs_on_the_same_inputs_match_the_same_witness :
  let first := merge_true_supabase_ids_run (H:=Sample.runtime)
                 Sample.to_datetime_strftime true Frames.input_files in
  let other := merge_true_supabase_ids_run (H:=Sample.runtime)
                 Sample.to_datetime_strftime false
                 Frames.files_with_stale_output in
  let second := merge_true_supabase_ids_run (H:=Sample.runtime)
                  Sample.to_datetime_strftime false first.2 in
  other.1 = first.1 ∧
  first.2 !! accounts_file_name = Frames.input_files !! accounts_file_name ∧
  first.2 !! depletions_file_name
  = Frames.input_files !! depletions_file_name ∧
  second.1 = first.1 ∧
  (∀ st1 st2, first.1 = Ok st1 → second.1 = Ok st2 →
     matched_depletions_data st1 = matched_depletions_data st2 ∧
     ∀ k, matched_depletions_data st1 !! k
          = matched_depletions_data st2 !! k) ∧
  (true = true → second.2 = first.2).
Proof.
  apply (runs_on_the_same_inputs_match_the_same (H:=Sample.runtime)
           Sample.to_datetime_strftime true false
           Frames.input_files Frames.files_with_stale_output).
  - reflexivity.
  - reflexivity.
Defined.

Lemma order_date_is_start_plus_30_days_per_column_witness :
  ∃ start_date blocks,
    Datetime.strptime "2024-04-01" = Some start_date ∧
    rows Frames.unpivoted.2 = concat blocks ∧
    Forall2
      (fun ic block =>
         ∃ d,
           Datetime.add_days start_date (30 * Z.of_nat ic.1) = Some d ∧
           Unpivot.month_df Frames.export ic.2 (Datetime.strftime d)
           = Ok block ∧
           ∀ row : gmap string cell,
             row ∈ block →
             row !! "order_date" = Some (CStr (Datetime.strftime d)))
      (Unpivot.month_indices_from Frames.export 0 ["9L"; "9L.1"; "9L.2"])
      blocks.
Proof.
  apply (proj1 order_date_is_start_plus_30_days_per_column
           Frames.export "2024-04-01" ["9L"; "9L.1"; "9L.2"]
           Frames.unpivoted.1 Frames.unpivoted.2).
  reflexivity.
Defined.

(** * Further properties *)

(** ** The reconciliation join *)

Section MoreReconciliation.
Context `{PyRuntime}.

Lemma df_wf_absent df (t : gmap string cell) col :
  df_wf df = true → t ∈ rows df → t !! col = None →
  has_column df col = false.
Proof.
  intros Hwf Ht Hnone. destruct (has_column df col) eqn:Hcol; [|done].
  pose proof (df_wf_column _ _ Hwf Hcol) as Hall.
  rewrite Forall_forall in Hall. destruct (Hall t Ht) as [c Hc]. congruence.
Qed.

(** The rows whose records are emitted, in the order of the input. *)
Lemma loop_kept accounts_df depletions_df rs :
  tables_ok accounts_df depletions_df = true → rs ⊆ rows depletions_df →
  ∃ st kept,
    iterrows_loop (entity_map (rows accounts_df)) loop_init (keyed <$> rs)
    = Ok st ∧
    sublist kept rs ∧
    Forall2
      (fun (t : gmap string cell) r =>
         t !! "order_date" = Some (order_date r) ∧
         t !! "sku" = Some (sku r) ∧
         entity_map (rows accounts_df)
           !! normalize (at_col "std_account_name_for_lookup" t)
         = Some (account_id r) ∧
         ∃ x, py_float (at_col "cases" t) = Some x ∧ cases r = CFloat x)
      kept (matched_depletions_data st) ∧
    unmatched_account_names st
    = list_to_set
        (at_col "std_account_name_for_lookup" <$>
           filter (fun t => no_mapping_entry
                              (entity_map (rows accounts_df)) t = true) rs).
Proof.
  intros Hok. set (m := entity_map (rows accounts_df)).
  induction rs as [|t rs IH]; intros Hsub.
  { exists loop_init, []. split_and!; [done|done|constructor|done]. }
  assert (t ∈ rows depletions_df) as Ht by (apply Hsub; by left).
  destruct IH as (st' & kept & Hst' & Hkept & Hall & Hun);
    [intros y Hy; apply Hsub; by right|].
  destruct (tables_ok_row _ _ _ Hok Ht) as (ref & q & d & s & Href & Hq & Hd & Hs).
  pose proof (loop_body_keyed m t ref q d s Href Hq Hd Hs) as Hbody.
  assert (at_col "std_account_name_for_lookup" t = ref) as Hat
    by (unfold at_col; by rewrite Href).
  assert (no_mapping_entry m t = bool_decide (m !! normalize ref = None))
    as Hentry by (unfold no_mapping_entry; by rewrite Hat).
  assert (∀ dt, loop_body m loop_init (keyed t) = Ok dt →
                iterrows_loop m loop_init (keyed <$> t :: rs)
                = Ok (state_app dt st')) as Hrun.
  { intros dt Hdt. cbn. rewrite Hdt. cbn.
    by rewrite iterrows_loop_from, Hst'. }
  destruct (m !! normalize ref) as [i|] eqn:Hm.
  - rewrite filter_cons_False by by rewrite Hentry.
    destruct (py_float q) as [x|] eqn:Hx;
      [destruct (float_isna x || float_le0 x) eqn:Hbad|].
    + exists (state_app rejected st'), kept.
      split_and!; [by apply Hrun|by apply sublist_cons|done|].
      cbn. by rewrite (left_id_L ∅ (∪)).
    + eexists (state_app (emitted _) st'), (t :: kept).
      split_and!; [by apply Hrun|by apply sublist_skip| |].
      * cbn. constructor; [|done]. cbn. rewrite Hat.
        split_and!; [done..|]. exists x. split; [|done].
        unfold at_col. by rewrite Hq.
      * cbn. by rewrite (left_id_L ∅ (∪)).
    + exists (state_app rejected st'), kept.
      split_and!; [by apply Hrun|by apply sublist_cons|done|].
      cbn. by rewrite (left_id_L ∅ (∪)).
  - rewrite filter_cons_True by by rewrite Hentry.
    exists (state_app (not_found ref) st'), kept.
    split_and!; [by apply Hrun|by apply sublist_cons|done|].
    cbn. by rewrite Hat, Hun.
Qed.

(** X1.  The matched output follows the input order: it is emitted, row for
    row, from a sublist of the depletion rows, each record holding the
    [order_date] and [sku] of its row, the identifier the map holds for the
    row's normalized name and the float of the row's quantity. *)
Theorem matched_output_follows_input_order accounts_df depletions_df :
  tables_ok accounts_df depletions_df = true →
  ∃ m st kept,
    account_id_map_of accounts_df = Ok m ∧
    reconcile (Some accounts_df) (Some depletions_df) = Ok st ∧
    sublist kept (rows depletions_df) ∧
    Forall2
      (fun (t : gmap string cell) r =>
         t !! "order_date" = Some (order_date r) ∧
         t !! "sku" = Some (sku r) ∧
         m !! normalize (at_col "std_account_name_for_lookup" t)
         = Some (account_id r) ∧
         ∃ x, py_float (at_col "cases" t) = Some x ∧ cases r = CFloat x)
      kept (matched_depletions_data st).
Proof.
  intros Hok.
  pose proof (tables_ok_elim _ _ Hok) as (Hwa & _ & Hid & Hname & _).
  destruct (loop_kept accounts_df depletions_df (rows depletions_df) Hok)
    as (st & kept & Hst & Hkept & Hall & _); [done|].
  exists (entity_map (rows accounts_df)), st, kept.
  split; [by apply account_id_map_of_Ok|].
  split; [by rewrite reconcile_tables_ok|]. done.
Qed.

(** X2.  After the run, [unmatched_account_names] is exactly the set of the
    original name cells of the rows whose normalized name has no entry in
    the map. *)
Theorem unmatched_names_are_exactly_the_unmapped accounts_df depletions_df :
  tables_ok accounts_df depletions_df = true →
  ∃ m st,
    account_id_map_of accounts_df = Ok m ∧
    reconcile (Some accounts_df) (Some depletions_df) = Ok st ∧
    ∀ name,
      name ∈ unmatched_account_names st ↔
      ∃ t : gmap string cell,
        t ∈ rows depletions_df ∧
        t !! "std_account_name_for_lookup" = Some name ∧
        m !! normalize name = None.
Proof.
  intros Hok.
  pose proof (tables_ok_elim _ _ Hok) as (Hwa & _ & Hid & Hname & _).
  destruct (loop_kept accounts_df depletions_df (rows depletions_df) Hok)
    as (st & kept & Hst & _ & _ & Hun); [done|].
  exists (entity_map (rows accounts_df)), st.
  split; [by apply account_id_map_of_Ok|].
  split; [by rewrite reconcile_tables_ok|].
  intros name. rewrite Hun, elem_of_list_to_set, list_elem_of_fmap.
  split.
  - intros (t & -> & Ht). apply list_elem_of_filter in Ht as [Hentry Ht].
    destruct (tables_ok_row _ _ _ Hok Ht) as (ref & _ & _ & _ & Href & _).
    exists t. unfold no_mapping_entry in Hentry.
    apply bool_decide_eq_true in Hentry. unfold at_col in *.
    rewrite Href in *. done.
  - intros (t & Ht & Href & Hm). exists t. split.
    + unfold at_col. by rewrite Href.
    + apply list_elem_of_filter. split; [|done].
      unfold no_mapping_entry, at_col. rewrite Href.
      by apply bool_decide_eq_true.
Qed.

Lemma getitem_keyed (t : gmap string cell) col :
  col ≠ "match_col_depletions" → getitem (keyed t) col = getitem t col.
Proof.
  intros Hne. unfold getitem, keyed. by rewrite lookup_insert_ne.
Qed.

Lemma loop_body_raise depletions_df m st (t : gmap string cell) e :
  df_wf depletions_df = true →
  has_column depletions_df "std_account_name_for_lookup" = true →
  t ∈ rows depletions_df →
  loop_body m st (keyed t) = Raise e →
  ∃ col,
    e = KeyError col ∧ col ∈ ["cases"; "order_date"; "sku"] ∧
    has_column depletions_df col = false ∧
    is_Some (m !! normalize (at_col "std_account_name_for_lookup" t)).
Proof.
  intros Hwf Hlook Ht. unfold loop_body.
  rewrite (getitem_Some _ "match_col_depletions"
             (normalize (at_col "std_account_name_for_lookup" t)))
    by apply lookup_insert_eq.
  cbn. rewrite !getitem_keyed by done.
  destruct (m !! normalize (at_col "std_account_name_for_lookup" t))
    as [i|] eqn:Hm.
  - unfold getitem.
    destruct (t !! "cases") as [q|] eqn:Hq; cbn.
    2:{ intros [= <-]. exists "cases".
        split_and!; [done|set_solver|by eapply df_wf_absent|eauto]. }
    destruct (py_float q) as [x|]; [|done].
    destruct (float_isna x || float_le0 x); [done|].
    destruct (t !! "order_date") as [d|] eqn:Hd; cbn.
    2:{ intros [= <-]. exists "order_date".
        split_and!; [done|set_solver|by eapply df_wf_absent|eauto]. }
    destruct (t !! "sku") as [s|] eqn:Hs; cbn; [done|].
    intros [= <-]. exists "sku".
    split_and!; [done|set_solver|by eapply df_wf_absent|eauto].
  - pose proof (df_wf_column _ _ Hwf Hlook) as Hall.
    rewrite Forall_forall in Hall. destruct (Hall t Ht) as [ref Href].
    by rewrite (getitem_Some _ _ ref).
Qed.

Lemma loop_body_no_stop m st (t : gmap string cell) c :
  loop_body m st t ≠ Stop c.
Proof.
  unfold loop_body, getitem.
  destruct (t !! "match_col_depletions") as [key|]; cbn; [|done].
  destruct (m !! key) as [i|].
  - destruct (t !! "cases") as [q|]; cbn; [|done].
    destruct (py_float q) as [x|]; [|done].
    destruct (float_isna x || float_le0 x); [done|].
    destruct (t !! "order_date"); cbn; [|done].
    by destruct (t !! "sku").
  - by destruct (t !! "std_account_name_for_lookup").
Qed.

Lemma iterrows_loop_raise depletions_df m rs :
  df_wf depletions_df = true →
  has_column depletions_df "std_account_name_for_lookup" = true →
  rs ⊆ rows depletions_df →
  ∀ st e,
    iterrows_loop m st (keyed <$> rs) = Raise e →
    ∃ col (t : gmap string cell),
      e = KeyError col ∧ col ∈ ["cases"; "order_date"; "sku"] ∧
      has_column depletions_df col = false ∧
      t ∈ rs ∧
      is_Some (m !! normalize (at_col "std_account_name_for_lookup" t)).
Proof.
  intros Hwf Hlook. induction rs as [|t rs IH]; intros Hsub st e Hloop;
    [done|].
  cbn in Hloop.
  destruct (loop_body m st (keyed t)) as [st'|c|e'] eqn:Hbody; cbn in Hloop.
  - destruct (IH ltac:(intros y Hy; apply Hsub; by right) st' e Hloop)
      as (col & t' & ? & ? & ? & ? & ?).
    exists col, t'. split_and!; [done..|by right|done].
  - done.
  - injection Hloop as <-.
    destruct (loop_body_raise depletions_df m st t e' Hwf Hlook) as
      (col & ? & ? & ? & ?); [apply Hsub; by left|done|].
    exists col, t. split_and!; [done..|by left|done].
Qed.

(** X3.  On well-formed frames the only exception that leaves the join is
    the [KeyError] of [cases], [order_date] or [sku], raised when that
    column is absent from the depletions frame and some row's normalized
    name has an entry in the map. *)
Theorem reconcile_raises_only_for_an_absent_row_column
    accounts_df depletions_df e :
  df_wf accounts_df = true → df_wf depletions_df = true →
  reconcile (Some accounts_df) (Some depletions_df) = Raise e →
  ∃ col m (t : gmap string cell),
    e = KeyError col ∧ col ∈ ["cases"; "order_date"; "sku"] ∧
    has_column depletions_df col = false ∧
    account_id_map_of accounts_df = Ok m ∧
    t ∈ rows depletions_df ∧
    is_Some (m !! normalize (at_col "std_account_name_for_lookup" t)).
Proof.
  intros Hwa Hwd Hrun.
  destruct (has_column accounts_df "id") eqn:Hid;
    [|by unfold reconcile in Hrun; rewrite Hid in Hrun].
  destruct (has_column accounts_df "std_account_name") eqn:Hname;
    [|by unfold reconcile in Hrun; rewrite Hid, Hname in Hrun].
  destruct (has_column depletions_df "std_account_name_for_lookup") eqn:Hlook;
    [|by unfold reconcile in Hrun; rewrite Hid, Hname, Hlook in Hrun].
  rewrite reconcile_loop in Hrun by done.
  destruct (iterrows_loop_raise depletions_df _ (rows depletions_df)
              Hwd Hlook ltac:(done) _ _ Hrun)
    as (col & t & ? & ? & ? & ? & ?).
  exists col, (entity_map (rows accounts_df)), t.
  split_and!; [done..| |done|done]. by apply account_id_map_of_Ok.
Qed.

(** X4.  A file is saved exactly when some row matched, and every row of
    the saved frame holds a string identifier, a string SKU and a quantity
    that is a float strictly above zero, whatever the date formatting
    does. *)
Theorem saved_frame_is_typed
    (to_datetime_strftime : list cell → option (list cell))
    accounts_df depletions_df :
  tables_ok accounts_df depletions_df = true →
  ∃ st,
    reconcile (Some accounts_df) (Some depletions_df) = Ok st ∧
    (matched_depletions_data st = [] →
     merge_true_supabase_ids_with_depletions to_datetime_strftime
       (Some accounts_df) (Some depletions_df) = Ok None) ∧
    (matched_depletions_data st ≠ [] →
     ∃ saved,
       merge_true_supabase_ids_with_depletions to_datetime_strftime
         (Some accounts_df) (Some depletions_df) = Ok (Some saved) ∧
       ∀ r, r ∈ saved →
         ∃ i s x, account_id r = CStr i ∧ sku r = CStr s ∧
                  cases r = CFloat x ∧ strictly_positive x).
Proof.
  intros Hok.
  destruct (iterrows_loop_total accounts_df depletions_df
              (entity_map (rows accounts_df)) (rows depletions_df) Hok)
    as [st Hst]; [done|].
  pose proof (matched_origin _ _ _ _ Hok ltac:(done) Hst) as Horigin.
  rewrite <- (reconcile_tables_ok _ _ Hok) in Hst.
  exists st. split; [done|].
  unfold merge_true_supabase_ids_with_depletions. rewrite Hst. cbn.
  split.
  - by intros ->.
  - intros Hne. destruct (matched_depletions_data st) as [|r0 data] eqn:Hdata;
      [done|].
    eexists. split; [done|]. intros r Hr. unfold ensure_types in Hr.
    apply elem_of_zip_with in Hr as (r1 & d1 & -> & Hr1 & _).
    destruct (Horigin r1 Hr1)
      as (_ & _ & _ & x & _ & _ & _ & _ & Hpos & _ & _ & Hc & _).
    cbn. by eexists _, _, x.
Qed.

End MoreReconciliation.

(** ** The join of [merge_account_ids.py] *)



Lemma dict_zip_keys_fmap {A} (f : A → option pykey) (g : A → cell)
    (l : list A) :
  dict_zip_keys (f <$> l) (g <$> l)
  = foldl (fun d x => match f x with
                      | Some k => <[k := g x]> d
                      | None => d
                      end) ∅ l.
Proof.
  unfold dict_zip_keys. generalize (∅ : gmap pykey cell).
  induction l as [|x l IH]; intros d; [done|]. cbn. apply IH.
Qed.


Lemma object_dtype_set_other df dst col (vs : list cell) :
  col ≠ dst → length vs = length (rows df) →
  object_dtype (df_set_col df dst vs) col = object_dtype df col.
Proof.
  intros Hne. unfold object_dtype, df_set_col. cbn [rows].
  generalize (rows df). intros rs. revert vs.
  induction rs as [|r rs IH]; intros [|v vs] Hlen; try done.
  cbn [zip_with existsb]. rewrite lookup_insert_ne by done.
  f_equal. apply IH. cbn in Hlen. lia.
Qed.

Lemma mapM_getitem_set_other dst col (rs : list (gmap string cell)) :
  col ≠ dst → Forall (fun r => is_Some (r !! col)) rs →
  ∀ vs : list cell, length vs = length rs →
    mapM (fun r => getitem r col)
      (zip_with (fun row v => <[dst := v]> row) rs vs)
    = Ok (at_col col <$> rs).
Proof.
  intros Hne. induction 1 as [|r rs Hr _ IH]; intros [|v vs] Hlen;
    try done.
  destruct Hr as [c Hc]. cbn.
  rewrite (getitem_Some (<[dst:=v]> r) col c)
    by by rewrite lookup_insert_ne by done.
  cbn. rewrite IH by (cbn in Hlen; lia).
  cbn. unfold at_col. by rewrite Hc.
Qed.

Lemma mapM_getitem_set_same dst (rs : list (gmap string cell)) :
  ∀ vs : list cell, length vs = length rs →
    mapM (fun r => getitem r dst)
      (zip_with (fun row v => <[dst := v]> row) rs vs)
    = Ok vs.
Proof.
  induction rs as [|r rs IH]; intros [|v vs] Hlen; try done.
  cbn. rewrite (getitem_Some (<[dst:=v]> r) dst v) by apply lookup_insert_eq.
  cbn. by rewrite IH by (cbn in Hlen; lia).
Qed.

Lemma merge_tables_ok_elim accounts_df depletions_df :
  merge_tables_ok accounts_df depletions_df = true →
  df_wf accounts_df = true ∧ df_wf depletions_df = true ∧
  has_column accounts_df "std_account_name" = true ∧
  has_column depletions_df "std_account_name_for_lookup" = true ∧
  has_column depletions_df "order_date" = true ∧
  has_column depletions_df "cases" = true ∧
  has_column depletions_df "sku" = true.
Proof. unfold merge_tables_ok. rewrite !andb_true_iff. tauto. Qed.


Lemma bind_Ok_l {A B} (a : A) (f : A → run B) : Ok a ≫= f = f a.
Proof. done. Qed.

(** The reads and the map succeed; what is left is the loop. *)
Lemma merge_account_ids_loop uuid4 accounts_df depletions_df :
  merge_tables_ok accounts_df depletions_df = true →
  merge_account_ids_with_depletions uuid4
    (Some accounts_df) (Some depletions_df)
  = merge_loop (object_dtype depletions_df "std_account_name_for_lookup")
      (exact_map uuid4 accounts_df) ([], 0) (rows depletions_df).
Proof.
  intros Hok. pose proof (merge_tables_ok_elim _ _ Hok) as Hcols.
  destruct Hcols as (Hwa & _ & Hname & _).
  pose proof (df_wf_column _ _ Hwa Hname) as Hnames.
  unfold merge_account_ids_with_depletions, exact_map, account_ids,
    account_key, read_csv.
  rewrite !bind_Ok_l. cbv zeta.
  destruct (has_column accounts_df "id") eqn:Hid; cbn [negb].
  - unfold df_col. rewrite Hname, Hid.
    rewrite (mapM_getitem "std_account_name") by done. rewrite bind_Ok_l.
    rewrite (mapM_getitem "id") by by apply df_wf_column.
    by rewrite bind_Ok_l.
  - rewrite (object_dtype_set_other accounts_df "id" "std_account_name")
      by (done || by rewrite length_fmap, length_seq).
    unfold df_col. rewrite !has_column_df_set_col by auto. cbn [orb].
    unfold df_set_col at 1 2. cbn [rows].
    rewrite (mapM_getitem_set_other "id" "std_account_name")
      by (done || by rewrite length_fmap, length_seq).
    rewrite bind_Ok_l.
    rewrite mapM_getitem_set_same by by rewrite length_fmap, length_seq.
    by rewrite bind_Ok_l.
Qed.

Lemma merge_body_row o m st (t : gmap string cell) ref q d s :
  t !! "std_account_name_for_lookup" = Some ref →
  t !! "cases" = Some q →
  t !! "order_date" = Some d →
  t !! "sku" = Some s →
  merge_body o m st t
  = Ok match dict_get m (dict_key o ref) with
       | None => (st.1, st.2 + 1)
       | Some i => (st.1 ++ [ {| account_id := i; order_date := d;
                                 cases := q; sku := s |} ], st.2)
       end.
Proof.
  intros Href Hq Hd Hs. unfold merge_body.
  rewrite (getitem_Some _ _ _ Href). cbn.
  destruct (dict_get m (dict_key o ref)); [|done].
  by rewrite (getitem_Some _ _ _ Hd), (getitem_Some _ _ _ Hq),
    (getitem_Some _ _ _ Hs).
Qed.



(** The integer 7 and the float 7.0 are one key; the missing name of a
    [float64] column is the key of no entry. *)
Example merge_number_names :
  merge_account_ids_with_depletions Frames.token
    (Some Frames.numbered_accounts) (Some Frames.float_depletions)
  = Ok ([ {| account_id := CStr "A7"; order_date := CStr "2024-04-01";
             cases := CInt 2; sku := CStr "X" |} ], 1).
Proof. reflexivity. Qed.

(** A missing account name of a [float64] column is never found, not even
    by a missing lookup name. *)
Example merge_missing_names_of_float_columns :
  merge_account_ids_with_depletions Frames.token
    (Some Frames.float_names) (Some Frames.float_depletions)
  = Ok ([ {| account_id := CStr "uuid-0"; order_date := CStr "2024-04-01";
             cases := CInt 2; sku := CStr "X" |} ], 1).
Proof. reflexivity. Qed.

(** In columns of strings the missing names are the one object [np.nan]:
    the depletion without a name gets the identifier of the account
    without a name. *)
Example merge_missing_names_of_object_columns :
  merge_account_ids_with_depletions Frames.token
    (Some Frames.nameless_accounts) (Some Frames.nameless_depletions)
  = Ok ([ {| account_id := CStr "A1"; order_date := CStr "2024-04-02";
             cases := CInt 2; sku := CStr "Y" |};
          {| account_id := CStr "A0"; order_date := CStr "2024-04-01";
             cases := CInt 2; sku := CStr "X" |} ], 0).
Proof. reflexivity. Qed.



(** ** The two joins on normalized names and valid quantities *)

Section JoinsAgree.
Context `{PyRuntime}.

Lemma tables_ok_merge_tables_ok accounts_df depletions_df :
  tables_ok accounts_df depletions_df = true →
  merge_tables_ok accounts_df depletions_df = true.
Proof.
  intros Hok. pose proof (tables_ok_elim _ _ Hok) as Hcols.
  destruct Hcols as (Hwa & Hwd & _ & Hname & Hlook & Hq & Hd & Hs).
  unfold merge_tables_ok. by rewrite Hwa, Hwd, Hname, Hlook, Hq, Hd, Hs.
Qed.

Lemma normalized_is_str c : normalize c = c → ∃ s, c = CStr s.
Proof. unfold normalize. intros <-. by eexists. Qed.

(** On names that are strings, the map keyed by dict keys and the map keyed
    by cells hold the same entries. *)
Lemma foldl_names_agree o (l : list (gmap string cell))
    (d' : gmap pykey cell) (d : gmap cell cell) :
  (∀ e : gmap string cell, e ∈ l →
     normalize (at_col "std_account_name" e) = at_col "std_account_name" e) →
  (∀ s, d' !! KStr s = d !! CStr s) →
  ∀ s,
    foldl (fun d e => match dict_key o (at_col "std_account_name" e) with
                      | Some k => <[k := at_col "id" e]> d
                      | None => d
                      end) d' l !! KStr s
    = foldl (fun d e => <[normalize (at_col "std_account_name" e) :=
                            at_col "id" e]> d) d l !! CStr s.
Proof.
  revert d d'. induction l as [|e l IH]; intros d d' Hnorm Hrel; [done|].
  cbn [foldl]. apply IH; [intros y Hy; apply Hnorm; by right|].
  intros s. rewrite (Hnorm e) by by left.
  destruct (normalized_is_str _ (Hnorm e ltac:(by left))) as [s0 ->].
  cbn [dict_key]. destruct (decide (s0 = s)) as [->|Hne].
  - by rewrite !lookup_insert_eq.
  - rewrite !lookup_insert_ne by congruence. apply Hrel.
Qed.

Lemma exact_map_entity_map uuid4 accounts_df :
  has_column accounts_df "id" = true →
  (∀ e : gmap string cell, e ∈ rows accounts_df →
     normalize (at_col "std_account_name" e) = at_col "std_account_name" e) →
  ∀ s, exact_map uuid4 accounts_df !! KStr s
       = entity_map (rows accounts_df) !! CStr s.
Proof.
  intros Hid Hnorm s. unfold exact_map, account_ids, entity_map, account_key.
  rewrite Hid, <- list_fmap_compose, dict_zip_keys_fmap.
  by apply foldl_names_agree.
Qed.

Lemma loops_agree accounts_df depletions_df m m' o rs :
  tables_ok accounts_df depletions_df = true → rs ⊆ rows depletions_df →
  (∀ s, m' !! KStr s = m !! CStr s) →
  (∀ t : gmap string cell, t ∈ rs →
     normalize (at_col "std_account_name_for_lookup" t)
     = at_col "std_account_name_for_lookup" t ∧
     ∃ x, t !! "cases" = Some (CFloat x) ∧ strictly_positive x) →
  ∀ st ms, ∃ st' emitted_rows skipped,
    iterrows_loop m st (keyed <$> rs) = Ok st' ∧
    merge_loop o m' ms rs = Ok (ms.1 ++ emitted_rows, skipped) ∧
    matched_depletions_data st'
    = matched_depletions_data st ++ emitted_rows ∧
    skipped_due_to_invalid_cases st' = skipped_due_to_invalid_cases st.
Proof.
  intros Hok. induction rs as [|t rs IH]; intros Hsub Hrel Hplain st ms.
  { exists st, [], ms.2. cbn. rewrite !app_nil_r. by destruct ms. }
  assert (t ∈ rows depletions_df) as Ht by (apply Hsub; by left).
  assert (rs ⊆ rows depletions_df) as Hsub'
    by (intros y Hy; apply Hsub; by right).
  assert (∀ t : gmap string cell, t ∈ rs →
     normalize (at_col "std_account_name_for_lookup" t)
     = at_col "std_account_name_for_lookup" t ∧
     ∃ x, t !! "cases" = Some (CFloat x) ∧ strictly_positive x) as Hplain'
    by (intros y Hy; apply Hplain; by right).
  destruct (Hplain t ltac:(by left)) as (Hnorm & x & Hq & Hpos).
  destruct (tables_ok_row _ _ _ Hok Ht)
    as (ref & q & d & s & Href & Hq' & Hd & Hs).
  rewrite Hq in Hq'. injection Hq' as <-.
  unfold at_col in Hnorm. rewrite Href in Hnorm. cbn in Hnorm.
  apply strictly_positive_iff in Hpos as [Hna Hle].
  cbn [fmap list_fmap iterrows_loop merge_loop].
  rewrite loop_body_from, (loop_body_keyed m t ref (CFloat x) d s) by done.
  rewrite (merge_body_row o m' ms t ref (CFloat x) d s) by done.
  rewrite !bind_Ok_l, Hnorm. cbn [py_float]. rewrite Hna, Hle. cbn [orb].
  destruct (normalized_is_str _ Hnorm) as [s0 ->].
  cbn [dict_key dict_get]. rewrite Hrel.
  destruct (m !! CStr s0) as [i|].
  - destruct (IH Hsub' Hrel Hplain'
                (state_app st (emitted {| account_id := i; order_date := d;
                                          cases := CFloat x; sku := s |}))
                (ms.1 ++ [ {| account_id := i; order_date := d;
                              cases := CFloat x; sku := s |} ], ms.2))
      as (st' & mm & sk & Hloop & Hmerge & Hm & Hsk).
    exists st', ({| account_id := i; order_date := d;
                    cases := CFloat x; sku := s |} :: mm), sk.
    split_and!; [done| | |].
    + rewrite Hmerge. cbn. by rewrite <- app_assoc.
    + rewrite Hm. cbn. by rewrite <- app_assoc.
    + rewrite Hsk. cbn. lia.
  - destruct (IH Hsub' Hrel Hplain' (state_app st (not_found (CStr s0)))
                (ms.1, ms.2 + 1))
      as (st' & mm & sk & Hloop & Hmerge & Hm & Hsk).
    exists st', mm, sk. split_and!; [done|done| |].
    + rewrite Hm. cbn. by rewrite app_nil_r.
    + rewrite Hsk. cbn. lia.
Qed.

(** X7.  When every account name and every lookup name is already what
    lowercasing and trimming give, and every quantity is a float strictly
    above zero, the two joins emit the same list of records, and the join
    of [add_account_ids.py] skips no row as invalid. *)
Theorem joins_agree_on_normalized_names_and_valid_quantities
    uuid4 accounts_df depletions_df :
  tables_ok accounts_df depletions_df = true →
  (∀ e : gmap string cell, e ∈ rows accounts_df →
     normalize (at_col "std_account_name" e) = at_col "std_account_name" e) →
  (∀ t : gmap string cell, t ∈ rows depletions_df →
     normalize (at_col "std_account_name_for_lookup" t)
     = at_col "std_account_name_for_lookup" t ∧
     ∃ x, t !! "cases" = Some (CFloat x) ∧ strictly_positive x) →
  ∃ st matched_depletions skipped_count,
    reconcile (Some accounts_df) (Some depletions_df) = Ok st ∧
    merge_account_ids_with_depletions uuid4
      (Some accounts_df) (Some depletions_df)
    = Ok (matched_depletions, skipped_count) ∧
    matched_depletions_data st = matched_depletions ∧
    skipped_due_to_invalid_cases st = 0.
Proof.
  intros Hok Hnames Hrows.
  pose proof (tables_ok_elim _ _ Hok) as (_ & _ & Hid & _).
  destruct (loops_agree accounts_df depletions_df
              (entity_map (rows accounts_df)) (exact_map uuid4 accounts_df)
              (object_dtype depletions_df "std_account_name_for_lookup")
              (rows depletions_df)
              Hok ltac:(done) (exact_map_entity_map uuid4 _ Hid Hnames)
              Hrows loop_init ([], 0))
    as (st & mm & sk & Hloop & Hmerge & Hm & Hsk).
  exists st, mm, sk.
  rewrite reconcile_tables_ok by done.
  rewrite merge_account_ids_loop by by apply tables_ok_merge_tables_ok.
  by split_and!.
Qed.

End JoinsAgree.

(** ** More on the unpivot step *)

Module MoreUnpivot.
Import Datetime Unpivot.

Lemma drop_duplicates_from (l acc : list (gmap string cell)) :
  NoDup acc →
  ∃ rest,
    foldl (fun acc row => if bool_decide (row ∈ acc) then acc
                          else acc ++ [row]) acc l
    = acc ++ rest ∧
    sublist rest l ∧
    NoDup (acc ++ rest) ∧
    ∀ x, x ∈ acc ++ rest ↔ x ∈ acc ∨ x ∈ l.
Proof.
  revert acc. induction l as [|row l IH]; intros acc Hacc.
  { exists []. rewrite app_nil_r. split_and!; [done..|].
    intros x. rewrite elem_of_nil. tauto. }
  cbn. case_bool_decide as Hin.
  - destruct (IH acc Hacc) as (rest & Hfold & Hsub & Hnodup & Hiff).
    exists rest. split_and!; [done|by apply sublist_cons|done|].
    intros x. rewrite Hiff, elem_of_cons.
    split; [tauto|]. intros [?|[->|?]]; tauto.
  - destruct (IH (acc ++ [row])) as (rest & Hfold & Hsub & Hnodup & Hiff).
    { apply NoDup_app. split_and!; [done| |apply NoDup_singleton].
      intros x Hx ->%list_elem_of_singleton. done. }
    exists (row :: rest). rewrite <- app_assoc in *. cbn in *.
    split_and!; [done|by apply sublist_skip|done|].
    intros x. rewrite Hiff, elem_of_app, list_elem_of_singleton, elem_of_cons.
    tauto.
Qed.

Lemma drop_duplicates_spec (l : list (gmap string cell)) :
  NoDup (drop_duplicates l) ∧
  sublist (drop_duplicates l) l ∧
  ∀ x, x ∈ drop_duplicates l ↔ x ∈ l.
Proof.
  destruct (drop_duplicates_from l [] (NoDup_nil_2))
    as (rest & Hfold & Hsub & Hnodup & Hiff).
  unfold drop_duplicates. rewrite Hfold. cbn in *.
  split_and!; [done..|]. intros x. rewrite Hiff, elem_of_nil. tauto.
Qed.



Lemma project_account_columns (src row : gmap string cell) :
  project account_columns src = Ok row →
  dom row = list_to_set account_columns.*2 ∧
  ∀ p, p ∈ account_columns → row !! p.2 = src !! p.1.
Proof.
  unfold project, account_columns. cbn. unfold getitem.
  destruct (src !! "Retail Accounts") as [c1|] eqn:H1; [|done].
  destruct (src !! "Classes of Trade") as [c2|] eqn:H2; [|done].
  destruct (src !! "OnOff Premises") as [c3|] eqn:H3; [|done].
  destruct (src !! "Address") as [c4|] eqn:H4; [|done].
  destruct (src !! "City") as [c5|] eqn:H5; [|done].
  destruct (src !! "State") as [c6|] eqn:H6; [|done].
  destruct (src !! "Zip Code") as [c7|] eqn:H7; [|done].
  cbn. intros [= <-]. split.
  - rewrite !dom_insert_L, dom_empty_L. set_solver.
  - intros p Hp.
    repeat (apply elem_of_cons in Hp as [->|Hp];
            [cbn [fst snd]; by rewrite ?H1, ?H2, ?H3, ?H4, ?H5, ?H6, ?H7|]).
    by apply elem_of_nil in Hp.
Qed.

Lemma project_total df (src : gmap string cell) :
  export_ok df = true → src ∈ rows df →
  ∃ row, project account_columns src = Ok row.
Proof.
  unfold export_ok. intros [Hwf Hcols]%andb_true_iff Hsrc.
  rewrite forallb_forall in Hcols.
  assert (∀ col, col ∈ account_columns.*1 → is_Some (src !! col)) as Hsome.
  { intros col Hcol. pose proof (Hcols col) as Hhas.
    rewrite <- list_elem_of_In in Hhas. specialize (Hhas Hcol).
    pose proof (df_wf_column _ _ Hwf Hhas) as Hall.
    rewrite Forall_forall in Hall. by apply Hall. }
  unfold project, account_columns in *. cbn in *. unfold getitem.
  destruct (Hsome "Retail Accounts") as [c1 ->]; [set_solver|].
  destruct (Hsome "Classes of Trade") as [c2 ->]; [set_solver|].
  destruct (Hsome "OnOff Premises") as [c3 ->]; [set_solver|].
  destruct (Hsome "Address") as [c4 ->]; [set_solver|].
  destruct (Hsome "City") as [c5 ->]; [set_solver|].
  destruct (Hsome "State") as [c6 ->]; [set_solver|].
  destruct (Hsome "Zip Code") as [c7 ->]; [set_solver|].
  cbn. by eexists.
Qed.

Lemma mapM_project_total df (rs : list (gmap string cell)) :
  export_ok df = true → rs ⊆ rows df →
  ∃ out, mapM (project account_columns) rs = Ok out.
Proof.
  intros Hok. induction rs as [|src rs IH]; intros Hsub; [by eexists|].
  destruct (project_total df src Hok) as [row Hrow]; [apply Hsub; by left|].
  destruct IH as [out Hout]; [intros y Hy; apply Hsub; by right|].
  exists (row :: out). cbn [mapM]. by rewrite Hrow, bind_Ok_l, Hout.
Qed.

Lemma check_columns_Ok df cols :
  forallb (has_column df) cols = true → check_columns df cols = Ok ().
Proof.
  induction cols as [|col cols IH]; [done|].
  cbn. intros [-> Hrest]%andb_true_iff. by apply IH.
Qed.

Lemma month_df_rows df month_col order_date block :
  month_df df month_col order_date = Ok block →
  ∀ row : gmap string cell, row ∈ block →
    ∃ (src : gmap string cell) name c,
      src ∈ rows df ∧
      src !! "Retail Accounts" = Some name ∧
      src !! month_col = Some c ∧
      keep_cases c = true ∧
      row = <["sku" := CStr "DEFAULT_SKU"]>
              (<["order_date" := CStr order_date]>
                 (<["cases" := c]>
                    {["std_account_name_for_lookup" := name]})).
Proof.
  unfold month_df. intros Hblock row Hrow.
  apply bind_Ok in Hblock as (month_rows & Hrows & Hblock).
  injection Hblock as <-.
  apply list_elem_of_fmap in Hrow as ([c row'] & -> & Hin).
  apply list_elem_of_filter in Hin as [Hkeep Hin].
  apply mapM_Ok_Forall2 in Hrows.
  apply list_elem_of_lookup in Hin as [k Hk].
  destruct (Forall2_lookup_r _ _ _ _ _ Hrows Hk) as (src & Hsrc & Hrow).
  apply bind_Ok in Hrow as (name & Hname & Hrow).
  apply bind_Ok in Hrow as (c' & Hc & Hrow).
  injection Hrow as <- <-.
  unfold getitem in Hname, Hc.
  destruct (src !! "Retail Accounts") as [n|] eqn:Hn; [|done].
  destruct (src !! month_col) as [q|] eqn:Hq; [|done].
  injection Hname as <-. injection Hc as <-.
  exists src, n, q. split_and!; [by eapply list_elem_of_lookup_2|done..].
Qed.

Lemma month_loop_absent df start_date month_columns :
  (∀ col, col ∈ month_columns → has_column df col = false) →
  ∀ i depletions_data,
    month_loop df start_date i month_columns depletions_data
    = Ok depletions_data.
Proof.
  induction month_columns as [|col rest IH]; intros Habsent i acc; [done|].
  cbn. rewrite (Habsent col) by by left. cbn. apply IH.
  intros c Hc. apply Habsent. by right.
Qed.

Lemma month_indices_from_cols df i month_columns ic :
  ic ∈ month_indices_from df i month_columns →
  ic.2 ∈ month_columns ∧ has_column df ic.2 = true.
Proof.
  unfold month_indices_from. intros [Hhas Hin]%list_elem_of_filter.
  split; [|done]. destruct ic as [k col].
  apply list_elem_of_lookup in Hin as [j Hj].
  apply lookup_zip_Some in Hj as [_ Hj]. by eapply list_elem_of_lookup_2.
Qed.

(** What a successful run went through. *)
Lemma process_vip_export_Ok df start_date_str month_columns
    accounts_df depletions_df :
  process_vip_export df start_date_str month_columns
  = Ok (accounts_df, depletions_df) →
  ∃ accounts_rows start_date blocks,
    mapM (project account_columns) (rows df) = Ok accounts_rows ∧
    accounts_df = {| columns := account_columns.*2;
                     rows := drop_duplicates accounts_rows |} ∧
    strptime start_date_str = Some start_date ∧
    blocks ≠ [] ∧
    depletions_df
    = {| columns := ["std_account_name_for_lookup"; "cases";
                     "order_date"; "sku"];
         rows := concat blocks |} ∧
    Forall2
      (fun ic block =>
         ∃ d, add_days start_date (30 * Z.of_nat ic.1) = Some d ∧
              month_df df ic.2 (strftime d) = Ok block)
      (month_indices_from df 0 month_columns) blocks.
Proof.
  unfold process_vip_export. intros Hrun.
  apply bind_Ok in Hrun as (_ & _ & Hrun).
  apply bind_Ok in Hrun as (accounts_rows & Hrows & Hrun). cbn zeta in Hrun.
  destruct (strptime start_date_str) as [d0|]; [|done]. cbn in Hrun.
  apply bind_Ok in Hrun as (data & Hloop & Hrun).
  apply UnpivotFacts.month_loop_blocks in Hloop as (blocks & -> & Hblocks).
  cbn in Hrun. destruct blocks as [|b blocks]; [done|].
  injection Hrun as <- <-.
  by exists accounts_rows, d0, (b :: blocks).
Qed.

End MoreUnpivot.

Lemma elem_of_concat {A} (x : A) (ls : list (list A)) :
  x ∈ concat ls ↔ ∃ l, x ∈ l ∧ l ∈ ls.
Proof.
  induction ls as [|l ls IH]; cbn.
  - rewrite elem_of_nil. split; [done|]. by intros (l & _ & ?%elem_of_nil).
  - rewrite elem_of_app, IH. split.
    + intros [Hx|(l' & Hx & Hl')].
      * exists l. split; [done|by left].
      * exists l'. split; [done|by right].
    + intros (l' & Hx & [->|Hl']%elem_of_cons); [by left|].
      right. by exists l'.
Qed.

(** Every row of the depletions frame of a successful run, with the row of
    the export and the month column it was made from. *)
Lemma unpivot_row_origin df start_date_str month_columns
    accounts_df depletions_df :
  Unpivot.process_vip_export df start_date_str month_columns
  = Ok (accounts_df, depletions_df) →
  ∀ row : gmap string cell, row ∈ rows depletions_df →
    ∃ (src : gmap string cell) col name c order_date,
      src ∈ rows df ∧ col ∈ month_columns ∧ has_column df col = true ∧
      src !! "Retail Accounts" = Some name ∧
      src !! col = Some c ∧
      Unpivot.keep_cases c = true ∧
      row = <["sku" := CStr "DEFAULT_SKU"]>
              (<["order_date" := CStr order_date]>
                 (<["cases" := c]>
                    {["std_account_name_for_lookup" := name]})).
Proof.
  intros Hrun row Hrow.
  apply MoreUnpivot.process_vip_export_Ok in Hrun
    as (accounts_rows & d0 & blocks & _ & _ & _ & _ & -> & Hblocks).
  cbn in Hrow. apply elem_of_concat in Hrow as (block & Hrow & Hblock).
  apply list_elem_of_lookup in Hblock as [k Hk].
  destruct (Forall2_lookup_r _ _ _ _ _ Hblocks Hk)
    as ([i col] & Hic & d & _ & Hmonth).
  apply list_elem_of_lookup_2 in Hic.
  apply MoreUnpivot.month_indices_from_cols in Hic as [Hcol Hhas].
  destruct (MoreUnpivot.month_df_rows _ _ _ _ Hmonth row Hrow)
    as (src & name & c & ? & ? & ? & ? & ?).
  by exists src, col, name, c, (Datetime.strftime d).
Qed.

(** X8.  The frames a successful unpivot saves are well formed.  The
    depletions frame has the four columns both joins read, so with any
    well-formed accounts frame that has [id] and [std_account_name] the
    join of [add_account_ids.py] runs to the end.  The accounts frame has
    [std_account_name] and no [id]: on it the join of [add_account_ids.py]
    stops with the critical error of the missing [id] column, and the join
    of [merge_account_ids.py] has what it reads. *)
Theorem unpivot_output_fits_the_joins `{PyRuntime}
    df start_date_str month_columns accounts_df depletions_df :
  Unpivot.process_vip_export df start_date_str month_columns
  = Ok (accounts_df, depletions_df) →
  df_wf accounts_df = true ∧ df_wf depletions_df = true ∧
  has_column accounts_df "id" = false ∧
  reconcile (Some accounts_df) (Some depletions_df) = Stop IdColumnMissing ∧
  merge_tables_ok accounts_df depletions_df = true ∧
  ∀ supabase_df,
    df_wf supabase_df = true →
    has_column supabase_df "id" = true →
    has_column supabase_df "std_account_name" = true →
    tables_ok supabase_df depletions_df = true.
Proof.
  intros Hrun.
  assert (df_wf depletions_df = true) as Hwd.
  { unfold df_wf. apply forallb_forall. intros row Hrow%list_elem_of_In.
    destruct (unpivot_row_origin _ _ _ _ _ Hrun row Hrow)
      as (src & col & name & c & od & _ & _ & _ & _ & _ & _ & ->).
    apply MoreUnpivot.process_vip_export_Ok in Hrun
      as (? & ? & ? & _ & _ & _ & _ & -> & _).
    unfold row_wf. apply bool_decide_eq_true. cbn.
    rewrite !dom_insert_L, dom_singleton_L. set_solver. }
  pose proof Hrun as Hparts.
  apply MoreUnpivot.process_vip_export_Ok in Hparts
    as (accounts_rows & d0 & blocks & Hrows & -> & _ & _ & -> & _).
  assert (df_wf {| columns := Unpivot.account_columns.*2;
                   rows := Unpivot.drop_duplicates accounts_rows |} = true)
    as Hwa.
  { unfold df_wf. apply forallb_forall. intros row Hrow%list_elem_of_In.
    cbn in Hrow.
    apply (proj2 (proj2 (MoreUnpivot.drop_duplicates_spec accounts_rows)))
      in Hrow.
    apply mapM_Ok_Forall2 in Hrows.
    apply list_elem_of_lookup in Hrow as [k Hk].
    destruct (Forall2_lookup_r _ _ _ _ _ Hrows Hk) as (src & _ & Hsrc).
    apply MoreUnpivot.project_account_columns in Hsrc as [Hdom _].
    unfold row_wf. by apply bool_decide_eq_true. }
  split_and!; [done|done|done|done| |].
  - unfold merge_tables_ok. by rewrite Hwa, Hwd.
  - intros supabase_df Hws Hid Hname. unfold tables_ok.
    by rewrite Hws, Hwd, Hid, Hname.
Qed.


(** [%Y] and the second digit of a day from 10 to 29 are [\d], which
    reads the decimal digits of any script; the other digits are the
    characters [0] to [9]. *)
Example strptime_reads_digits_of_any_script :
  Datetime.strptime "２０２４-04-1٣"
  = Some {| Datetime.year := 2024; Datetime.month := 4; Datetime.day := 13 |}
  ∧ Datetime.strptime "2024-٠4-01" = None
  ∧ Datetime.strptime "2024-04-٣1" = None.
Proof. by vm_compute. Qed.

(** X10.  With the account columns present, a run whose start date
    [strptime] rejects for the format [%Y-%m-%d], or one that finds none of
    the month columns in the export (or is given none), raises [ValueError]
    and saves no depletions file. *)
Theorem unpivot_without_date_or_months_raises
    df start_date_str month_columns :
  export_ok df = true →
  Datetime.strptime start_date_str = None ∨
  (∀ col, col ∈ month_columns → has_column df col = false) →
  Unpivot.process_vip_export df start_date_str month_columns
  = Raise ValueError.
Proof.
  intros Hok Hcase. pose proof Hok as [_ Hcols]%andb_true_iff.
  destruct (MoreUnpivot.mapM_project_total df (rows df) Hok) as [out Hout];
    [done|].
  unfold Unpivot.process_vip_export.
  rewrite (MoreUnpivot.check_columns_Ok _ _ Hcols), bind_Ok_l, Hout,
    bind_Ok_l.
  cbn zeta. destruct (Datetime.strptime start_date_str) as [d0|] eqn:Hd0.
  - destruct Hcase as [?|Habsent]; [done|].
    by rewrite bind_Ok_l, MoreUnpivot.month_loop_absent.
  - done.
Qed.

(** Of the two rows of one account the first stays, before the account
    that comes between them. *)
Example repeated_account_is_kept_where_it_comes_first :
  (fun row => at_col "std_account_name" row)
    <$> rows Frames.unpivoted_repeats.1
  = [CStr "Joe's Bar"; CStr "Moe's"].
Proof. reflexivity. Qed.


(** ** Day counts *)

Module DayCount.
Import Datetime.
Local Open Scope Z_scope.

Lemma holds_from_spec p fuel o :
  holds_from p fuel o = true →
  ∀ j, 0 ≤ j < Z.of_nat fuel → p (o + j) = true.
Proof.
  revert o. induction fuel as [|fuel IH]; intros o Hall j Hj; [lia|].
  cbn in Hall. apply andb_true_iff in Hall as [Ho Hrest].
  destruct (decide (j = 0)) as [->|Hne]; [by rewrite Z.add_0_r|].
  replace (o + j) with (o + 1 + (j - 1)) by lia.
  apply IH; [done|lia].
Qed.

(** The days of a year, one by one. *)
Lemma year_days_ok leapyear :
  holds_from (month_day_ok leapyear) 365 0 = true.
Proof. destruct leapyear; vm_compute; reflexivity. Qed.

Lemma month_day_spec leapyear n :
  0 ≤ n < 365 →
  1 ≤ (month_day leapyear n).1 ≤ 12 ∧
  1 ≤ (month_day leapyear n).2 ∧
  (month_day leapyear n).2
  ≤ (if ((month_day leapyear n).1 =? 2) && leapyear then 29
     else DAYS_IN_MONTH (month_day leapyear n).1) ∧
  DAYS_BEFORE_MONTH (month_day leapyear n).1
  + (if (2 <? (month_day leapyear n).1) && leapyear then 1 else 0)
  + (month_day leapyear n).2 = n + 1.
Proof.
  intros Hn.
  pose proof (holds_from_spec _ _ _ (year_days_ok leapyear) n) as Hok.
  rewrite Z.add_0_l in Hok. specialize (Hok ltac:(lia)).
  unfold month_day_ok in Hok. cbv zeta in Hok.
  rewrite !andb_true_iff, !Z.leb_le, Z.eqb_eq in Hok. tauto.
Qed.

Lemma ord2ymd_eq o :
  ord2ymd o =
  let n0 := o - 1 in
  let n400 := n0 / 146097 in
  let r1 := n0 mod 146097 in
  let n100 := r1 / 36524 in
  let r2 := r1 mod 36524 in
  let n4 := r2 / 1461 in
  let r3 := r2 mod 1461 in
  let n1 := r3 / 365 in
  let n := r3 mod 365 in
  let y := n400 * 400 + 1 + n100 * 100 + n4 * 4 + n1 in
  if (n1 =? 4) || (n100 =? 4) then
    {| year := y - 1; month := 12; day := 31 |}
  else
    let leapyear := (n1 =? 3) && (negb (n4 =? 24) || (n100 =? 3)) in
    {| year := y; month := (month_day leapyear n).1;
       day := (month_day leapyear n).2 |}.
Proof.
  unfold ord2ymd, month_day. cbv zeta.
  destruct (_ || _); [done|]. by destruct (_ <? _).
Qed.

Lemma is_leap_parts a b c e :
  0 ≤ b ≤ 3 → 0 ≤ c ≤ 24 → 0 ≤ e ≤ 3 →
  is_leap (a * 400 + 1 + b * 100 + c * 4 + e)
  = (e =? 3) && (negb (c =? 24) || (b =? 3)).
Proof.
  intros Hb Hc He. unfold is_leap.
  set (y := a * 400 + 1 + b * 100 + c * 4 + e).
  assert (y mod 4 = (e + 1) mod 4) as ->
    by (unfold y; Z.div_mod_to_equations; lia).
  assert (y mod 100 = (c * 4 + e + 1) mod 100) as ->
    by (unfold y; Z.div_mod_to_equations; lia).
  assert (y mod 400 = (b * 100 + c * 4 + e + 1) mod 400) as ->
    by (unfold y; Z.div_mod_to_equations; lia).
  clear y.
  destruct (Z.eqb_spec ((e + 1) mod 4) 0),
    (Z.eqb_spec ((c * 4 + e + 1) mod 100) 0),
    (Z.eqb_spec ((b * 100 + c * 4 + e + 1) mod 400) 0),
    (Z.eqb_spec e 3), (Z.eqb_spec c 24), (Z.eqb_spec b 3);
    cbn; try reflexivity; exfalso; Z.div_mod_to_equations; lia.
Qed.

Lemma days_before_year_parts a b c e :
  0 ≤ b ≤ 3 → 0 ≤ c ≤ 24 → 0 ≤ e ≤ 3 →
  days_before_year (a * 400 + 1 + b * 100 + c * 4 + e)
  = 146097 * a + 36524 * b + 1461 * c + 365 * e.
Proof.
  intros Hb Hc He. unfold days_before_year. cbv zeta.
  Z.div_mod_to_equations. lia.
Qed.

Lemma ordinal_ok_all o : 1 ≤ o → ordinal_ok o = true.
Proof.
  intros Ho. unfold ordinal_ok. rewrite ord2ymd_eq. cbv zeta.
  set (n0 := o - 1).
  set (a := n0 / 146097). set (r1 := n0 mod 146097).
  set (b := r1 / 36524). set (r2 := r1 mod 36524).
  set (c := r2 / 1461). set (r3 := r2 mod 1461).
  set (e := r3 / 365). set (n := r3 mod 365).
  assert (n0 = 146097 * a + r1 ∧ 0 ≤ r1 < 146097) as [E1 B1]
    by (pose proof (Z.div_mod n0 146097);
        pose proof (Z.mod_pos_bound n0 146097); lia).
  assert (r1 = 36524 * b + r2 ∧ 0 ≤ r2 < 36524) as [E2 B2]
    by (pose proof (Z.div_mod r1 36524);
        pose proof (Z.mod_pos_bound r1 36524); lia).
  assert (r2 = 1461 * c + r3 ∧ 0 ≤ r3 < 1461) as [E3 B3]
    by (pose proof (Z.div_mod r2 1461);
        pose proof (Z.mod_pos_bound r2 1461); lia).
  assert (r3 = 365 * e + n ∧ 0 ≤ n < 365) as [E4 B4]
    by (pose proof (Z.div_mod r3 365);
        pose proof (Z.mod_pos_bound r3 365); lia).
  assert (o = n0 + 1) as Eo by lia.
  clearbody a r1 b r2 c r3 e n n0. subst o.
  assert (0 ≤ a ∧ 0 ≤ b ≤ 4 ∧ 0 ≤ c ≤ 24 ∧ 0 ≤ e ≤ 4) as (Ha & Hb & Hc & He)
    by lia.
  unfold valid_date, ymd2ord, days_before_month, days_in_month.
  destruct (Z.eqb_spec e 4) as [He4|He4];
    [|destruct (Z.eqb_spec b 4) as [Hb4|Hb4]]; cbn [orb year month day].
  - replace (a * 400 + 1 + b * 100 + c * 4 + e - 1)
      with (a * 400 + 1 + b * 100 + c * 4 + 3) by lia.
    rewrite is_leap_parts, days_before_year_parts by lia.
    replace (c =? 24) with false by (symmetry; apply Z.eqb_neq; lia).
    cbn. rewrite !andb_true_iff, Z.eqb_eq, !Z.leb_le. lia.
  - replace (a * 400 + 1 + b * 100 + c * 4 + e - 1)
      with (a * 400 + 1 + 3 * 100 + 24 * 4 + 3) by lia.
    rewrite is_leap_parts, days_before_year_parts by lia.
    cbn. rewrite !andb_true_iff, Z.eqb_eq, !Z.leb_le. lia.
  - rewrite is_leap_parts, days_before_year_parts by lia.
    set (leapyear := (e =? 3) && (negb (c =? 24) || (b =? 3))).
    destruct (month_day_spec leapyear n B4) as (Hm & Hd1 & Hd2 & Hsum).
    rewrite !andb_true_iff, Z.eqb_eq, !Z.leb_le. lia.
Qed.

Lemma ordinal_ok_elim o :
  ordinal_ok o = true →
  ymd2ord (ord2ymd o) = o ∧ valid_date (ord2ymd o) = true.
Proof.
  unfold ordinal_ok. intros [Hord Hv]%andb_true_iff.
  split; [by apply Z.eqb_eq|done].
Qed.

Lemma add_days_Some start_date n d :
  add_days start_date n = Some d →
  1 ≤ ymd2ord start_date + n ∧ d = ord2ymd (ymd2ord start_date + n).
Proof.
  unfold add_days. cbv zeta.
  destruct (_ && _) eqn:Hrange; [|discriminate].
  intros [= <-]. apply andb_true_iff in Hrange as [Hpos%Z.ltb_lt _].
  split; [lia|reflexivity].
Qed.

Lemma valid_date_elim d :
  valid_date d = true →
  1 ≤ year d ∧ 1 ≤ month d ≤ 12 ∧
  1 ≤ day d ≤ days_in_month (year d) (month d).
Proof.
  unfold valid_date. rewrite !andb_true_iff, !Z.leb_le. tauto.
Qed.

Lemma month_cases m :
  1 ≤ m ≤ 12 →
  m = 1 ∨ m = 2 ∨ m = 3 ∨ m = 4 ∨ m = 5 ∨ m = 6 ∨
  m = 7 ∨ m = 8 ∨ m = 9 ∨ m = 10 ∨ m = 11 ∨ m = 12.
Proof. lia. Qed.

Lemma days_before_year_succ y :
  days_before_year (y + 1)
  = days_before_year y + 365 + (if is_leap y then 1 else 0).
Proof.
  unfold days_before_year, is_leap. cbv zeta.
  replace (y + 1 - 1) with y by lia.
  destruct (Z.eqb_spec (y mod 4) 0), (Z.eqb_spec (y mod 100) 0),
    (Z.eqb_spec (y mod 400) 0); cbn; Z.div_mod_to_equations; lia.
Qed.

Lemma days_before_year_mono y1 y2 :
  y1 ≤ y2 → days_before_year y1 ≤ days_before_year y2.
Proof.
  intros Hy. unfold days_before_year. cbv zeta.
  Z.div_mod_to_equations. lia.
Qed.

(** The day of a valid date within its year. *)
Lemma day_of_year_bounds d :
  valid_date d = true →
  1 ≤ days_before_month (year d) (month d) + day d
  ≤ 365 + (if is_leap (year d) then 1 else 0).
Proof.
  intros (_ & Hm & Hd)%valid_date_elim.
  unfold days_before_month, days_in_month in *.
  destruct (is_leap (year d));
    destruct (month_cases _ Hm) as
      [E|[E|[E|[E|[E|[E|[E|[E|[E|[E|[E|E]]]]]]]]]]];
    rewrite E in *; cbn in *; lia.
Qed.

Lemma ymd2ord_inj d1 d2 :
  valid_date d1 = true → valid_date d2 = true →
  ymd2ord d1 = ymd2ord d2 → d1 = d2.
Proof.
  intros Hv1 Hv2 Hord.
  pose proof (day_of_year_bounds d1 Hv1) as B1.
  pose proof (day_of_year_bounds d2 Hv2) as B2.
  apply valid_date_elim in Hv1 as (_ & Hm1 & Hd1).
  apply valid_date_elim in Hv2 as (_ & Hm2 & Hd2).
  unfold ymd2ord in Hord.
  assert (year d1 = year d2) as Hy.
  { destruct (Z.lt_trichotomy (year d1) (year d2)) as [Hlt|[?|Hlt]];
      [|done|]; exfalso.
    - pose proof (days_before_year_succ (year d1)).
      pose proof (days_before_year_mono (year d1 + 1) (year d2)). lia.
    - pose proof (days_before_year_succ (year d2)).
      pose proof (days_before_year_mono (year d2 + 1) (year d1)). lia. }
  destruct d1 as [y1 m1 dd1], d2 as [y2 m2 dd2]. cbn in *. subst y2.
  assert (m1 = m2) as ->.
  { unfold days_before_month, days_in_month in *.
    destruct (is_leap y1);
      destruct (month_cases _ Hm1) as
        [E|[E|[E|[E|[E|[E|[E|[E|[E|[E|[E|E]]]]]]]]]]];
      destruct (month_cases _ Hm2) as
        [F|[F|[F|[F|[F|[F|[F|[F|[F|[F|[F|F]]]]]]]]]]];
      rewrite E, F in *; cbn in *; lia. }
  f_equal. lia.
Qed.

Lemma ord2ymd_ymd2ord d :
  valid_date d = true → ord2ymd (ymd2ord d) = d.
Proof.
  intros Hv. pose proof (day_of_year_bounds d Hv) as B.
  pose proof (valid_date_elim d Hv) as (Hy & _).
  assert (1 ≤ ymd2ord d) as Hpos.
  { unfold ymd2ord.
    pose proof (days_before_year_mono 1 (year d) Hy) as Hmono.
    change (days_before_year 1) with 0 in Hmono. lia. }
  destruct (ordinal_ok_elim _ (ordinal_ok_all _ Hpos)) as [Hord Hv'].
  by apply ymd2ord_inj.
Qed.

Lemma digit_bounds c v : digit c = Some v → 0 ≤ v ≤ 9.
Proof.
  unfold digit. cbv zeta.
  destruct (_ && _) eqn:Hr; [|done]. intros [= <-].
  apply andb_true_iff in Hr as [?%Z.leb_le ?%Z.leb_le]. lia.
Qed.

Lemma in_range_bounds lo hi c v : in_range lo hi c = Some v → lo ≤ v ≤ hi.
Proof.
  unfold in_range. destruct (digit c) as [w|]; [|done].
  destruct (_ && _) eqn:Hr; [|done]. intros [= <-].
  apply andb_true_iff in Hr as [?%Z.leb_le ?%Z.leb_le]. lia.
Qed.

Lemma decimal_value_bounds cp v : decimal_value cp = Some v → 0 ≤ v ≤ 9.
Proof.
  unfold decimal_value. intros (zero & Hfind & ->)%fmap_Some.
  apply find_some in Hfind as [_ [?%Z.leb_le ?%Z.leb_le]%andb_true_iff]. lia.
Qed.

Lemma decimal_bounds s v rest : decimal s = Some (v, rest) → 0 ≤ v ≤ 9.
Proof.
  unfold decimal. intros ([cp s'] & _ & Hs)%bind_Some.
  apply bind_Some in Hs as (v' & Hv & [= <- _]).
  by apply decimal_value_bounds in Hv.
Qed.

Ltac parse_bounds :=
  cbv zeta;
  repeat match goal with
         | |- context [match in_range ?lo ?hi ?c with _ => _ end] =>
             destruct (in_range lo hi c) eqn:?
         | |- context [match decimal ?s with _ => _ end] =>
             destruct (decimal s) as [[? ?]|] eqn:?
         | |- context [if Ascii.eqb ?a ?b then _ else _] =>
             destruct (Ascii.eqb a b)
         end;
  try done;
  intros [= <- _];
  repeat match goal with
         | H : in_range _ _ _ = Some _ |- _ => apply in_range_bounds in H
         | H : decimal _ = Some _ |- _ => apply decimal_bounds in H
         end;
  lia.

Lemma parse_Y_bounds s y rest : parse_Y s = Some (y, rest) → 0 ≤ y ≤ 9999.
Proof.
  unfold parse_Y. intros ([a s1] & Ha & Hs)%bind_Some.
  apply bind_Some in Hs as ([b s2] & Hb & Hs).
  apply bind_Some in Hs as ([c s3] & Hc & Hs).
  apply bind_Some in Hs as ([d s4] & Hd & [= <- _]).
  apply decimal_bounds in Ha, Hb, Hc, Hd. lia.
Qed.

Lemma parse_m_bounds s m rest : parse_m s = Some (m, rest) → 1 ≤ m ≤ 12.
Proof.
  unfold parse_m. destruct s as [|a [|b s']]; [done|parse_bounds..].
Qed.

Lemma parse_d_bounds s d rest : parse_d s = Some (d, rest) → 1 ≤ d.
Proof.
  unfold parse_d. destruct s as [|a [|b s']]; [done|parse_bounds..].
Qed.

Lemma strptime_valid s d :
  strptime s = Some d → valid_date d = true ∧ year d ≤ 9999.
Proof.
  unfold strptime. intros Hs.
  destruct (parse_Y s) as [[y s1]|] eqn:HY; [|done]. cbn in Hs.
  destruct (expect_dash s1) as [s2|]; [|done]. cbn in Hs.
  destruct (parse_m s2) as [[m s3]|] eqn:Hm; [|done]. cbn in Hs.
  destruct (expect_dash s3) as [s4|]; [|done]. cbn in Hs.
  destruct (parse_d s4) as [[dd s5]|] eqn:Hd; [|done]. cbn in Hs.
  destruct (_ && _) eqn:Hok in Hs; [|done]. injection Hs as <-.
  apply andb_true_iff in Hok as [[_ Hy%Z.leb_le]%andb_true_iff Hdim%Z.leb_le].
  apply parse_Y_bounds in HY. apply parse_m_bounds in Hm.
  apply parse_d_bounds in Hd.
  split; [|cbn; lia].
  unfold valid_date. cbn. rewrite !andb_true_iff, !Z.leb_le. lia.
Qed.

Lemma ymd2ord_bounds d :
  valid_date d = true → year d ≤ 9999 → 1 ≤ ymd2ord d ≤ MAXORDINAL.
Proof.
  intros Hv Hy. pose proof (day_of_year_bounds d Hv) as B.
  pose proof (valid_date_elim d Hv) as (Hy1 & _).
  pose proof (days_before_year_mono 1 (year d) Hy1) as Hlo.
  pose proof (days_before_year_mono (year d + 1) 10000 ltac:(lia)) as Hhi.
  rewrite days_before_year_succ in Hhi.
  change (days_before_year 1) with 0 in Hlo.
  change (days_before_year 10000) with 3652059 in Hhi.
  unfold ymd2ord, MAXORDINAL. lia.
Qed.

End DayCount.

(** X12.  The date of the month column at index [i] is a date of the
    calendar whose day count is the day count of the start date plus
    exactly [30 * i]: the dates of successive month columns lie 30 days
    apart, month lengths and leap years notwithstanding. *)
Theorem order_dates_lie_30_days_apart start_date (i : nat) d :
  Datetime.add_days start_date (30 * Z.of_nat i) = Some d →
  Datetime.ymd2ord d = (Datetime.ymd2ord start_date + 30 * Z.of_nat i)%Z ∧
  valid_date d = true ∧
  ∀ d', Datetime.add_days start_date (30 * Z.of_nat (S i)) = Some d' →
        Datetime.ymd2ord d' = (Datetime.ymd2ord d + 30)%Z.
Proof.
  intros [Hpos ->]%DayCount.add_days_Some.
  destruct (DayCount.ordinal_ok_elim _ (DayCount.ordinal_ok_all _ Hpos))
    as [Hord Hv].
  split; [exact Hord|]. split; [exact Hv|].
  intros d' [Hpos' ->]%DayCount.add_days_Some.
  destruct (DayCount.ordinal_ok_elim _ (DayCount.ordinal_ok_all _ Hpos'))
    as [Hord' _].
  rewrite Hord, Hord'. lia.
Qed.

(** X13.  A start date that [strptime] accepts is a date of the calendar
    with a year up to 9999, so the first month column is dated at the
    start date itself; and the date of the month column at index [i] is
    out of range, an [OverflowError], exactly when the day count of the
    start date plus [30 * i] passes the last day of the year 9999. *)
Theorem start_date_dates_the_first_month s start_date (i : nat) :
  Datetime.strptime s = Some start_date →
  Datetime.add_days start_date (30 * Z.of_nat 0) = Some start_date ∧
  (Datetime.add_days start_date (30 * Z.of_nat i) = None ↔
   (Datetime.MAXORDINAL < Datetime.ymd2ord start_date + 30 * Z.of_nat i)%Z).
Proof.
  intros [Hv Hy]%DayCount.strptime_valid.
  pose proof (DayCount.ymd2ord_bounds _ Hv Hy) as B.
  unfold Datetime.add_days. cbv zeta. split.
  - replace (Datetime.ymd2ord start_date + 30 * Z.of_nat 0)%Z
      with (Datetime.ymd2ord start_date) by lia.
    rewrite DayCount.ord2ymd_ymd2ord by done.
    destruct (Z.ltb_spec 0 (Datetime.ymd2ord start_date)); [|lia].
    destruct (Z.leb_spec (Datetime.ymd2ord start_date) Datetime.MAXORDINAL);
      [done|lia].
  - destruct (Z.ltb_spec 0 (Datetime.ymd2ord start_date + 30 * Z.of_nat i));
      [|lia].
    destruct (Z.leb_spec (Datetime.ymd2ord start_date + 30 * Z.of_nat i)
                Datetime.MAXORDINAL); cbn; split; intros; (done || lia).
Qed.

(** ** The further properties on sample frames *)

Lemma matched_output_follows_input_order_witness :
  ∃ m st kept,
    account_id_map_of (H:=Sample.runtime) Frames.joes = Ok m ∧
    reconcile (H:=Sample.runtime) (Some Frames.joes) (Some Frames.mixed)
    = Ok st ∧
    sublist kept (rows Frames.mixed) ∧
    Forall2
      (fun (t : gmap string cell) r =>
         t !! "order_date" = Some (order_date r) ∧
         t !! "sku" = Some (sku r) ∧
         m !! normalize (H:=Sample.runtime)
                (at_col "std_account_name_for_lookup" t)
         = Some (account_id r) ∧
         ∃ x, py_float (H:=Sample.runtime) (at_col "cases" t) = Some x ∧
              cases r = CFloat x)
      kept (matched_depletions_data st).
Proof.
  apply (matched_output_follows_input_order (H:=Sample.runtime)
           Frames.joes Frames.mixed).
  reflexivity.
Defined.

Lemma unmatched_names_are_exactly_the_unmapped_witness :
  ∃ m st,
    account_id_map_of (H:=Sample.runtime) Frames.joes = Ok m ∧
    reconcile (H:=Sample.runtime) (Some Frames.joes) (Some Frames.mixed)
    = Ok st ∧
    ∀ name,
      name ∈ unmatched_account_names st ↔
      ∃ t : gmap string cell,
        t ∈ rows Frames.mixed ∧
        t !! "std_account_name_for_lookup" = Some name ∧
        m !! normalize (H:=Sample.runtime) name = None.
Proof.
  apply (unmatched_names_are_exactly_the_unmapped (H:=Sample.runtime)
           Frames.joes Frames.mixed).
  reflexivity.
Defined.

Lemma reconcile_raises_only_for_an_absent_row_column_witness :
  ∃ col m (t : gmap string cell),
    KeyError "cases" = KeyError col ∧
    col ∈ ["cases"; "order_date"; "sku"] ∧
    has_column (Frames.no_cases [Frames.unknown_5; Frames.joe_3]) col
    = false ∧
    account_id_map_of (H:=Sample.runtime) Frames.joes = Ok m ∧
    t ∈ rows (Frames.no_cases [Frames.unknown_5; Frames.joe_3]) ∧
    is_Some (m !! normalize (H:=Sample.runtime)
                    (at_col "std_account_name_for_lookup" t)).
Proof.
  apply (reconcile_raises_only_for_an_absent_row_column (H:=Sample.runtime)
           Frames.joes (Frames.no_cases [Frames.unknown_5; Frames.joe_3])
           (KeyError "cases")).
  - reflexivity.
  - reflexivity.
  - reflexivity.
Defined.

Lemma saved_frame_is_typed_witness :
  ∃ st,
    reconcile (H:=Sample.runtime) (Some Frames.joes) (Some Frames.mixed)
    = Ok st ∧
    (matched_depletions_data st = [] →
     merge_true_supabase_ids_with_depletions (H:=Sample.runtime)
       (fun _ => None) (Some Frames.joes) (Some Frames.mixed) = Ok None) ∧
    (matched_depletions_data st ≠ [] →
     ∃ saved,
       merge_true_supabase_ids_with_depletions (H:=Sample.runtime)
         (fun _ => None) (Some Frames.joes) (Some Frames.mixed)
       = Ok (Some saved) ∧
       ∀ r, r ∈ saved →
         ∃ i s x, account_id r = CStr i ∧ sku r = CStr s ∧
                  cases r = CFloat x ∧ strictly_positive x).
Proof.
  apply (saved_frame_is_typed (H:=Sample.runtime) (fun _ => None)
           Frames.joes Frames.mixed).
  reflexivity.
Defined.



Lemma joins_agree_on_normalized_names_and_valid_quantities_witness :
  ∃ st matched_depletions skipped_count,
    reconcile (H:=Sample.runtime)
      (Some Frames.plain_joes) (Some Frames.plain_depletions) = Ok st ∧
    merge_account_ids_with_depletions Frames.token
      (Some Frames.plain_joes) (Some Frames.plain_depletions)
    = Ok (matched_depletions, skipped_count) ∧
    matched_depletions_data st = matched_depletions ∧
    skipped_due_to_invalid_cases st = 0.
Proof.
  apply (joins_agree_on_normalized_names_and_valid_quantities
           (H:=Sample.runtime) Frames.token
           Frames.plain_joes Frames.plain_depletions).
  - reflexivity.
  - intros e He. each_account He. reflexivity.
  - intros t Ht. each_account Ht.
    + split; [reflexivity|]. exists Frames.three.
      split; [reflexivity|]. by vm_compute.
    + split; [reflexivity|]. exists Frames.three.
      split; [reflexivity|]. by vm_compute.
Defined.

Lemma unpivot_output_fits_the_joins_witness :
  df_wf Frames.unpivoted.1 = true ∧ df_wf Frames.unpivoted.2 = true ∧
  has_column Frames.unpivoted.1 "id" = false ∧
  reconcile (H:=Sample.runtime)
    (Some Frames.unpivoted.1) (Some Frames.unpivoted.2)
  = Stop IdColumnMissing ∧
  merge_tables_ok Frames.unpivoted.1 Frames.unpivoted.2 = true ∧
  ∀ supabase_df,
    df_wf supabase_df = true →
    has_column supabase_df "id" = true →
    has_column supabase_df "std_account_name" = true →
    tables_ok supabase_df Frames.unpivoted.2 = true.
Proof.
  apply (unpivot_output_fits_the_joins (H:=Sample.runtime)
           Frames.export "2024-04-01" ["9L"; "9L.1"; "9L.2"]
           Frames.unpivoted.1 Frames.unpivoted.2).
  reflexivity.
Defined.


Lemma unpivot_without_date_or_months_raises_witness :
  Unpivot.process_vip_export Frames.export_without_months "2024-04-01"
    ["9L"; "9L.1"]
  = Raise ValueError.
Proof.
  apply (unpivot_without_date_or_months_raises
           Frames.export_without_months "2024-04-01" ["9L"; "9L.1"]).
  - reflexivity.
  - right. intros col Hcol.
    repeat (apply elem_of_cons in Hcol as [->|Hcol]; [reflexivity|]).
    by apply elem_of_nil in Hcol.
Defined.


Lemma order_dates_lie_30_days_apart_witness :
  Datetime.ymd2ord
    {| Datetime.year := 2024; Datetime.month := 5; Datetime.day := 31 |}
  = (Datetime.ymd2ord
       {| Datetime.year := 2024; Datetime.month := 4; Datetime.day := 1 |}
     + 30 * Z.of_nat 2)%Z ∧
  valid_date
    {| Datetime.year := 2024; Datetime.month := 5; Datetime.day := 31 |}
  = true ∧
  ∀ d',
    Datetime.add_days
      {| Datetime.year := 2024; Datetime.month := 4; Datetime.day := 1 |}
      (30 * Z.of_nat 3) = Some d' →
    Datetime.ymd2ord d'
    = (Datetime.ymd2ord
         {| Datetime.year := 2024; Datetime.month := 5; Datetime.day := 31 |}
       + 30)%Z.
Proof.
  apply (order_dates_lie_30_days_apart
           {| Datetime.year := 2024; Datetime.month := 4; Datetime.day := 1 |}
           2
           {| Datetime.year := 2024; Datetime.month := 5;
              Datetime.day := 31 |}).
  reflexivity.
Defined.

Lemma start_date_dates_the_first_month_witness :
  Datetime.add_days
    {| Datetime.year := 2024; Datetime.month := 4; Datetime.day := 1 |}
    (30 * Z.of_nat 0)
  = Some {| Datetime.year := 2024; Datetime.month := 4; Datetime.day := 1 |} ∧
  (Datetime.add_days
     {| Datetime.year := 2024; Datetime.month := 4; Datetime.day := 1 |}
     (30 * Z.of_nat 2) = None ↔
   (Datetime.MAXORDINAL
    < Datetime.ymd2ord
        {| Datetime.year := 2024; Datetime.month := 4; Datetime.day := 1 |}
      + 30 * Z.of_nat 2)%Z).
Proof.
  apply (start_date_dates_the_first_month "2024-04-01").
  reflexivity.
Defined.
